(** * Spoolman label printing: the page layout of [PrintingDialog]

    A shallow embedding of the layout computed by the React component
    [PrintingDialog] (client/src/components/printing/printingDialog.tsx,
    lines 81-182) and of the settings handlers of [PrintingDialog] and
    [QRCodePrintingDialog], together with the properties the specification
    states about them.

    Millimetre values are rationals: the embedding follows the arithmetic
    of the source on exact numbers and leaves the rounding of IEEE doubles
    out.  Integers ([columns], [rows], [skipItems], [itemCopies]) are [Z]. *)

From Stdlib Require Import QArith Qminmax Qround.
From stdpp Require Import base option list strings gmap.

Set Default Proof Using "Type".

(** ** JavaScript values *)

(** The two exceptions the render body can raise: reading a property of
    [undefined] ([TypeError]) and [Array(n)] with an invalid length
    ([RangeError]). *)
Inductive error := TypeError | RangeError.

(** What running a piece of the component gives: a value, an exception, or
    no answer at all (a loop that never leaves). *)
Inductive outcome (A : Type) :=
  | Return (a : A)
  | Throw (e : error)
  | Diverge.
Arguments Return {A} a.
Arguments Throw {A} e.
Arguments Diverge {A}.

#[global] Instance outcome_ret : MRet outcome := λ A, Return.
#[global] Instance outcome_bind : MBind outcome := λ A B f m,
  match m with
  | Return a => f a
  | Throw e => Throw e
  | Diverge => Diverge
  end.

(** A JavaScript number as far as the layout can produce one: a finite
    value, an infinity ([Infinity true] is the negative one) or [NaN].
    [undefined] used as an operand of [-] or [/] becomes [NaN], so [NaN]
    also stands for the [width] of an object that has none.  A finite
    value is a rational: [-] and [/] below are exact, where the source
    rounds to the nearest double. *)
Inductive number :=
  | NaN
  | Infinity (negative : bool)
  | Num (q : Q).

(** [x - q] for a finite [q]. *)
Definition nsub (x : number) (q : Q) : number :=
  match x with
  | Num p => Num (p - q)
  | other => other
  end.

(** [x / n] for an integer [n]; a finite value over zero is an infinity,
    zero over zero is [NaN]. *)
Definition ndiv (x : number) (n : Z) : number :=
  match x with
  | NaN => NaN
  | Infinity s => if (n =? 0)%Z then Infinity s else Infinity (xorb s (n <? 0)%Z)
  | Num p =>
      if (n =? 0)%Z then
        match (p ?= 0)%Q with
        | Eq => NaN
        | Lt => Infinity true
        | Gt => Infinity false
        end
      else Num (p / inject_Z n)
  end.

(** [i < x] for an integer [i]. *)
Definition ltNumber (i : Z) (x : number) : bool :=
  match x with
  | NaN => false
  | Infinity s => negb s
  | Num q => negb (Qle_bool q (inject_Z i))
  end.

(** Truthiness, as [||] tests it. *)
Class ToBoolean (A : Type) := toBoolean : A → bool.
#[global] Instance Z_toBoolean : ToBoolean Z := λ n, negb (n =? 0)%Z.
#[global] Instance string_toBoolean : ToBoolean string := λ s, negb (String.eqb s "").

(** [v || d] where [v] is a property that may be missing ([None] is
    [undefined]). *)
Definition logicalOr {A} `{ToBoolean A} (v : option A) (d : A) : A :=
  match v with
  | Some a => if toBoolean a then a else d
  | None => d
  end.

(** ** Settings *)

Module Margin.
Record t := mk { top : Q; bottom : Q; left : Q; right : Q }.
End Margin.

Module Spacing.
Record t := mk { horizontal : Q; vertical : Q }.
End Spacing.

Module PaperDimensions.
Record t := mk { width : Q; height : Q }.
End PaperDimensions.

(** Objects are always truthy. *)
#[global] Instance Margin_toBoolean : ToBoolean Margin.t := λ _, true.
#[global] Instance Spacing_toBoolean : ToBoolean Spacing.t := λ _, true.
#[global] Instance PaperDimensions_toBoolean : ToBoolean PaperDimensions.t := λ _, true.

Module PrintSettings.
(** Modelled from the spec: the interface [PrintSettings] is declared in
    [./printing], which is not among the sources.  The fields and their
    types are those of the specification's Settings table (section 3) and
    of the reads in [PrintingDialog]; every field is optional. *)
Record t := mk {
  margin : option Margin.t;
  printerMargin : option Margin.t;
  spacing : option Spacing.t;
  columns : option Z;
  rows : option Z;
  skipItems : option Z;
  itemCopies : option Z;
  paperSize : option string;
  customPaperSize : option PaperDimensions.t;
  borderShowMode : option string;
}.

Definition empty : t := mk None None None None None None None None None None.

Definition set_columns (v : option Z) (s : t) : t :=
  mk (margin s) (printerMargin s) (spacing s) v (rows s) (skipItems s)
     (itemCopies s) (paperSize s) (customPaperSize s) (borderShowMode s).
Definition set_rows (v : option Z) (s : t) : t :=
  mk (margin s) (printerMargin s) (spacing s) (columns s) v (skipItems s)
     (itemCopies s) (paperSize s) (customPaperSize s) (borderShowMode s).
Definition set_skipItems (v : option Z) (s : t) : t :=
  mk (margin s) (printerMargin s) (spacing s) (columns s) (rows s) v
     (itemCopies s) (paperSize s) (customPaperSize s) (borderShowMode s).
Definition set_itemCopies (v : option Z) (s : t) : t :=
  mk (margin s) (printerMargin s) (spacing s) (columns s) (rows s) (skipItems s)
     v (paperSize s) (customPaperSize s) (borderShowMode s).
End PrintSettings.

(** ** Paper sizes *)

(** The object literal [paperDimensions] (lines 38-63), in source order. *)
Definition paperDimensions : list (string * PaperDimensions.t) :=
  [ ("A3", PaperDimensions.mk 297 420);
    ("A4", PaperDimensions.mk 210 297);
    ("A5", PaperDimensions.mk 148 210);
    ("Letter", PaperDimensions.mk 216 279);
    ("Legal", PaperDimensions.mk 216 356);
    ("Tabloid", PaperDimensions.mk 279 432) ].

(** [paperDimensions] is an ordinary object, so a read by key also finds
    what it inherits from [Object.prototype]. *)
Definition objectPrototype : list string :=
  [ "constructor"; "hasOwnProperty"; "isPrototypeOf"; "propertyIsEnumerable";
    "toLocaleString"; "toString"; "valueOf"; "__proto__";
    "__defineGetter__"; "__defineSetter__"; "__lookupGetter__"; "__lookupSetter__" ].

Inductive property :=
  | Own (d : PaperDimensions.t)
  | Inherited
  | Undefined.

Fixpoint ownProperty (table : list (string * PaperDimensions.t)) (key : string)
  : option PaperDimensions.t :=
  match table with
  | [] => None
  | (k, d) :: rest => if String.eqb k key then Some d else ownProperty rest key
  end.

(** [paperDimensions[key]]. *)
Definition paperDimensionsAt (key : string) : property :=
  match ownProperty paperDimensions key with
  | Some d => Own d
  | None => if bool_decide (key ∈ objectPrototype) then Inherited else Undefined
  end.

(** ** The constants of the render body (lines 81-101) *)

Section Constants.
Variable printSettings : PrintSettings.t.

Definition margin : Margin.t :=
  logicalOr (PrintSettings.margin printSettings) (Margin.mk 10 10 10 10).
Definition printerMargin : Margin.t :=
  logicalOr (PrintSettings.printerMargin printSettings) (Margin.mk 5 5 5 5).
Definition spacing : Spacing.t :=
  logicalOr (PrintSettings.spacing printSettings) (Spacing.mk 0 0).
Definition paperColumns : Z := logicalOr (PrintSettings.columns printSettings) 3%Z.
Definition paperRows : Z := logicalOr (PrintSettings.rows printSettings) 8%Z.
Definition skipItems : Z := logicalOr (PrintSettings.skipItems printSettings) 0%Z.
Definition itemCopies : Z := logicalOr (PrintSettings.itemCopies printSettings) 1%Z.
Definition paperSize : string := logicalOr (PrintSettings.paperSize printSettings) "A4".
Definition customPaperSize : PaperDimensions.t :=
  logicalOr (PrintSettings.customPaperSize printSettings) (PaperDimensions.mk 210 297).
Definition borderShowMode : string :=
  logicalOr (PrintSettings.borderShowMode printSettings) "grid".

(** Lines 92-93.  Reading [.width] of [undefined] throws; reading it of an
    inherited member gives [undefined]. *)
Definition paperSide (side : PaperDimensions.t → Q) : outcome number :=
  if String.eqb paperSize "custom" then Return (Num (side customPaperSize))
  else match paperDimensionsAt paperSize with
       | Own d => Return (Num (side d))
       | Inherited => Return NaN
       | Undefined => Throw TypeError
       end.

Definition paperWidth : outcome number := paperSide PaperDimensions.width.
Definition paperHeight : outcome number := paperSide PaperDimensions.height.

(** Lines 97-98. *)
Definition itemWidth (paperWidth : number) : number :=
  nsub (ndiv (nsub (nsub (nsub paperWidth (Margin.left margin)) (Margin.right margin))
                   (Spacing.horizontal spacing))
             paperColumns)
       (Spacing.horizontal spacing).
Definition itemHeight (paperHeight : number) : number :=
  nsub (ndiv (nsub (nsub (nsub paperHeight (Margin.top margin)) (Margin.bottom margin))
                   (Spacing.vertical spacing))
             paperRows)
       (Spacing.vertical spacing).

Definition itemsPerRow : Z := paperColumns.
Definition rowsPerPage : Z := paperRows.

End Constants.

(** ** Arrays *)

(** What a table cell shows: the empty fragment put in for a skipped
    position, or one of the items handed to the dialog. *)
Inductive content (A : Type) :=
  | Empty
  | Item (item : A).
Arguments Empty {A}.
Arguments Item {A} item.

Definition occupied {A} (c : content A) : bool :=
  match c with
  | Empty => false
  | Item _ => true
  end.

(** [Array(n)] for an integer [n]: a length outside [0, 2^32) is a
    [RangeError]. *)
Definition newArray {A} (n : Z) (fill : A) : outcome (list A) :=
  if ((0 <=? n) && (n <? 2 ^ 32))%Z then Return (replicate (Z.to_nat n) fill)
  else Throw RangeError.

(** An index argument of [slice], made relative to the length. *)
Definition sliceIndex (len k : Z) : Z :=
  if (k <? 0)%Z then Z.max (len + k) 0 else Z.min k len.

(** [xs.slice(from, to)] for integer arguments. *)
Definition slice {A} (xs : list A) (from to : Z) : list A :=
  let len := Z.of_nat (length xs) in
  let a := sliceIndex len from in
  let b := sliceIndex len to in
  take (Z.to_nat (b - a)) (drop (Z.to_nat a) xs).

(** [for (let i = start; cond(i); i += 1) out.push(body(i))], run for at
    most [fuel] tests of the condition. *)
Fixpoint forPush {B} (fuel : nat) (cond : Z → bool) (body : Z → B) (i : Z)
  : outcome (list B) :=
  match fuel with
  | O => Diverge
  | S fuel' =>
      if cond i then rest ← forPush fuel' cond body (i + 1)%Z; mret (body i :: rest)
      else mret []
  end.

(** The two slicing loops of lines 110-118 have one shape:
    [for (i = 0; i < xs.length / n; i += 1) out.push(xs.slice(i * n, (i + 1) * n))]. *)
Definition chunks {A} (xs : list A) (n : Z) : outcome (list (list A)) :=
  let len := Z.of_nat (length xs) in
  forPush (S (length xs))
          (λ i, ltNumber i (ndiv (Num (inject_Z len)) n))
          (λ i, slice xs (i * n) ((i + 1) * n))
          0%Z.

(** ** Pages *)

Record Cell (A : Type) := mkCell {
  cellContent : content A;
  cellWidth : number;
  cellHeight : number;
  cellBorder : string;
  paddingLeft : Q;
  paddingRight : Q;
  paddingTop : Q;
  paddingBottom : Q;
}.
Arguments mkCell {A}.
Arguments cellContent {A}.
Arguments cellWidth {A}.
Arguments cellHeight {A}.
Arguments cellBorder {A}.
Arguments paddingLeft {A}.
Arguments paddingRight {A}.
Arguments paddingTop {A}.
Arguments paddingBottom {A}.

Record Page (A : Type) := mkPage {
  pageWidth : number;
  pageHeight : number;
  areaBorder : string;
  areaHeight : number;
  areaWidth : number;
  areaMargin : Margin.t;
  areaMarginInset : string;
  itemRows : list (list (Cell A));
}.
Arguments mkPage {A}.
Arguments pageWidth {A}.
Arguments pageHeight {A}.
Arguments areaBorder {A}.
Arguments areaHeight {A}.
Arguments areaWidth {A}.
Arguments areaMargin {A}.
Arguments areaMarginInset {A}.
Arguments itemRows {A}.

Section Render.
Context {A : Type}.
Variable printSettings : PrintSettings.t.

(** Lines 103-108.  [Array(skipItems)] is checked as the language has it:
    a length outside [0, 2^32) is a [RangeError].  The arrays are lists, so
    the limit an engine puts on the storage of an array, which [fill] and
    [push] can meet at lengths below [2^32], is left out: a [Return] here
    is a completion of the code for arrays the engine can hold. *)
Definition itemsIncludingSkipped (items : list A) : outcome (list (content A)) :=
  skipped ← newArray (skipItems printSettings) Empty;
  copies ← mapM (λ item,
                   forPush (S (Z.to_nat (itemCopies printSettings)))
                           (λ i, (i <? itemCopies printSettings)%Z)
                           (λ _, Item item)
                           0%Z)
                items;
  mret (skipped ++ concat copies).

(** Lines 124-143: one [td]. *)
Definition cell (paperWidth paperHeight : number) (rowIdx colIdx : nat) (item : content A)
  : Cell A :=
  let margin := margin printSettings in
  let printerMargin := printerMargin printSettings in
  {| cellContent := item;
     cellWidth := itemWidth printSettings paperWidth;
     cellHeight := itemHeight printSettings paperHeight;
     cellBorder :=
       if String.eqb (borderShowMode printSettings) "grid" then "1px solid #000" else "none";
     paddingLeft :=
       if (Z.of_nat colIdx =? 0)%Z
       then Qmax (Margin.left printerMargin - Margin.left margin) 0 else 0;
     paddingRight :=
       if (Z.of_nat colIdx =? paperColumns printSettings - 1)%Z
       then Qmax (Margin.right printerMargin - Margin.right margin) 0 else 0;
     paddingTop :=
       if (Z.of_nat rowIdx =? 0)%Z
       then Qmax (Margin.top printerMargin - Margin.top margin) 0 else 0;
     paddingBottom :=
       if (Z.of_nat rowIdx =? paperRows printSettings - 1)%Z
       then Qmax (Margin.bottom printerMargin - Margin.bottom margin) 0 else 0 |}.

(** Lines 120-182: one [div.print-page] per block of rows. *)
Definition page (paperWidth paperHeight : number) (rows : list (list (content A)))
  : Page A :=
  let margin := margin printSettings in
  let bordered := negb (String.eqb (borderShowMode printSettings) "none") in
  {| pageWidth := paperWidth;
     pageHeight := paperHeight;
     areaBorder := if bordered then "1px solid #000" else "none";
     areaHeight := nsub (nsub paperHeight (Margin.top margin)) (Margin.bottom margin);
     areaWidth := nsub (nsub paperWidth (Margin.left margin)) (Margin.right margin);
     areaMargin := margin;
     areaMarginInset := if bordered then "1px" else "0px";
     itemRows :=
       imap (λ rowIdx row, imap (λ colIdx item, cell paperWidth paperHeight rowIdx colIdx item) row)
            rows |}.

Definition pages (paperWidth paperHeight : number)
    (pageBlocks : list (list (list (content A)))) : list (Page A) :=
  map (page paperWidth paperHeight) pageBlocks.

(** The render body from the settings to [pages], in evaluation order. *)
Definition layout (items : list A) : outcome (list (Page A)) :=
  paperWidth ← paperWidth printSettings;
  paperHeight ← paperHeight printSettings;
  itemsIncludingSkipped ← itemsIncludingSkipped items;
  rowsOfItems ← chunks itemsIncludingSkipped (itemsPerRow printSettings);
  pageBlocks ← chunks rowsOfItems (rowsPerPage printSettings);
  mret (pages paperWidth paperHeight pageBlocks).

End Render.

(** All cells of all pages, page after page and row after row. *)
Definition cells {A} (ps : list (Page A)) : list (Cell A) :=
  concat (concat (map itemRows ps)).

Definition exampleItems (n : nat) : list nat := seq 1 n.

(** ** Reference definitions used by the statements *)

(** The number of rounds of [for (i = 0; i < a / b; i += 1)] for [b >= 1]. *)
Definition divUp (a b : nat) : nat := (a + b - 1) / b.

(** The groups of [n] consecutive elements of [xs]. *)
Definition groups {A} (n : nat) (xs : list A) : list (list A) :=
  map (λ j, take n (drop (j * n) xs)) (seq 0 (divUp (length xs) n)).

(** The sequence the loops of lines 103-108 build. *)
Definition expanded {A} (skip copies : nat) (items : list A) : list (content A) :=
  replicate skip Empty ++ concat (map (λ item, replicate copies (Item item)) items).

(** The page blocks the two slicing loops give for positive [columns] and
    [rows]. *)
Definition blocksOf {A} (s : PrintSettings.t) (xs : list (content A))
  : list (list (list (content A))) :=
  groups (Z.to_nat (paperRows s)) (groups (Z.to_nat (paperColumns s)) xs).

(** The cell at row [rowIdx], column [colIdx] of page [pageIdx]. *)
Definition cellAt {A} (ps : list (Page A)) (pageIdx rowIdx colIdx : nat) : option (Cell A) :=
  pg ← ps !! pageIdx; row ← itemRows pg !! rowIdx; row !! colIdx.


(** The ceiling of the quotient [a / b], as the specification writes the
    number of rows and of pages. *)
Definition ceilDiv (a b : nat) : nat :=
  Z.to_nat (Qceiling (inject_Z (Z.of_nat a) / inject_Z (Z.of_nat b))).

(** The names of the presets. *)
Definition presets : list string := map fst paperDimensions.

(** [after] is [before] with the documented default [d] put in if the
    field was missing. *)
Definition filled {A} (d : A) (before after : option A) : Prop :=
  after = before ∨ (before = None ∧ after = Some d).

(** [s'] is [s] with the documented default put into some of its missing
    fields (specification, section 3). *)
Definition defaultsFilled (s s' : PrintSettings.t) : Prop :=
  filled (Margin.mk 10 10 10 10) (PrintSettings.margin s) (PrintSettings.margin s') ∧
  filled (Margin.mk 5 5 5 5) (PrintSettings.printerMargin s) (PrintSettings.printerMargin s') ∧
  filled (Spacing.mk 0 0) (PrintSettings.spacing s) (PrintSettings.spacing s') ∧
  filled 3%Z (PrintSettings.columns s) (PrintSettings.columns s') ∧
  filled 8%Z (PrintSettings.rows s) (PrintSettings.rows s') ∧
  filled 0%Z (PrintSettings.skipItems s) (PrintSettings.skipItems s') ∧
  filled 1%Z (PrintSettings.itemCopies s) (PrintSettings.itemCopies s') ∧
  filled "A4" (PrintSettings.paperSize s) (PrintSettings.paperSize s') ∧
  filled (PaperDimensions.mk 210 297)
         (PrintSettings.customPaperSize s) (PrintSettings.customPaperSize s') ∧
  filled "grid" (PrintSettings.borderShowMode s) (PrintSettings.borderShowMode s').

(** ** Settings objects and the handlers that edit them *)

Module QRCodePrintSettings.
(** Modelled from the spec: the interface [QRCodePrintSettings] is declared
    in [./printing], which is not among the sources.  The fields are those
    [QRCodePrintingDialog] reads (lines 34-36 and 61); [printSettings] is a
    reference to the inner settings object. *)
Record t := mk {
  showContent : option bool;
  textSize : option Q;
  showSpoolmanIcon : option bool;
  printSettings : positive;
}.

Definition set_printSettings (r : positive) (q : t) : t :=
  mk (showContent q) (textSize q) (showSpoolmanIcon q) r.
End QRCodePrintSettings.

(** One render of [PrintingDialog] over a store that keeps every settings
    object with its nested objects by value: [printSettings] is a
    reference, a reference to nothing stands for [undefined], which
    [printSettings?.field] reads as a missing field.  The result is the
    store after the render and the pages.  [renderOnHeap] below is the
    render on a heap that holds the nested objects by reference. *)
Definition PrintingDialog {A} (printSettings : positive) (items : list A)
    (objects : gmap positive PrintSettings.t)
  : gmap positive PrintSettings.t * outcome (list (Page A)) :=
  (objects, layout (default PrintSettings.empty (objects !! printSettings)) items).

(** The slider handler of lines 264-267:
    [printSettings.skipItems = value; setPrintSettings(printSettings)].
    The result is the store at the call of [setPrintSettings] and the
    reference passed to it. *)
Definition skipItemsOnChange (value : Z) (printSettings : positive)
    (objects : gmap positive PrintSettings.t)
  : outcome (gmap positive PrintSettings.t * positive) :=
  match objects !! printSettings with
  | None => Throw TypeError
  | Some s =>
      Return (<[printSettings := PrintSettings.set_skipItems (Some value) s]> objects,
              printSettings)
  end.

(** The callback [QRCodePrintingDialog] hands down (lines 62-65):
    [printSettings.printSettings = newSettings; setPrintSettings(printSettings)]. *)
Definition qrSetPrintSettings (printSettings newSettings : positive)
    (objects : gmap positive QRCodePrintSettings.t)
  : outcome (gmap positive QRCodePrintSettings.t * positive) :=
  match objects !! printSettings with
  | None => Throw TypeError
  | Some q =>
      Return (<[printSettings := QRCodePrintSettings.set_printSettings newSettings q]> objects,
              printSettings)
  end.

(** ** Example settings *)

(** [columns: 0], everything else missing. *)
Definition zeroColumns : PrintSettings.t :=
  PrintSettings.set_columns (Some 0%Z) PrintSettings.empty.

(** A4 with the widest margins, spacing and column count the sliders
    allow. *)
Definition narrowCells : PrintSettings.t :=
  PrintSettings.mk (Some (Margin.mk 10 10 50 50)) None (Some (Spacing.mk 20 0))
                   (Some 5%Z) None None None None None None.

(** The specification's cell-dimension example: A4 (width 210), left and
    right margin 10, horizontal spacing 2, three columns. *)
Definition spacedA4 : PrintSettings.t :=
  PrintSettings.mk (Some (Margin.mk 10 10 10 10)) None (Some (Spacing.mk 2 0))
                   (Some 3%Z) None None None (Some "A4") None None.

(** No margin, so the printer margin of 5 shows as edge padding. *)
Definition noMargin : PrintSettings.t :=
  PrintSettings.mk (Some (Margin.mk 0 0 0 0)) None None None None None None None None None.

Definition paperNamed (name : string) : PrintSettings.t :=
  PrintSettings.mk None None None None None None None (Some name) None None.

Definition customPaper : PrintSettings.t :=
  PrintSettings.mk None None None None None None None (Some "custom")
                   (Some (PaperDimensions.mk 100 150)) None.

Definition negativeCopies : PrintSettings.t :=
  PrintSettings.set_itemCopies (Some (-1)%Z) PrintSettings.empty.

Definition zeroCopies : PrintSettings.t :=
  PrintSettings.set_itemCopies (Some 0%Z) PrintSettings.empty.

Definition twoSkippedTwoCopies : PrintSettings.t :=
  PrintSettings.set_skipItems (Some 2%Z)
    (PrintSettings.set_itemCopies (Some 2%Z) PrintSettings.empty).

(** The specification's pagination example: [columns: 3, rows: 8,
    skipItems: 0, itemCopies: 1]. *)
Definition threeByEight : PrintSettings.t :=
  PrintSettings.mk None None None (Some 3%Z) (Some 8%Z) (Some 0%Z) (Some 1%Z) None None None.

(** [{columns: -2}]. *)
Definition negativeColumns : PrintSettings.t :=
  PrintSettings.set_columns (Some (-2)%Z) PrintSettings.empty.

(** Four columns and two rows. *)
Definition fourByTwo : PrintSettings.t :=
  PrintSettings.set_columns (Some 4%Z) (PrintSettings.set_rows (Some 2%Z) PrintSettings.empty).

(** Only [rows] is given. *)
Definition fiveRows : PrintSettings.t :=
  PrintSettings.set_rows (Some 5%Z) PrintSettings.empty.

(** ** What of a page is geometry *)

#[global] Instance outcome_fmap : FMap outcome := λ A B f m,
  match m with
  | Return a => Return (f a)
  | Throw e => Throw e
  | Diverge => Diverge
  end.

(** A cell without its border, and a page without the border of its
    area. *)
Definition cellGeometry {A} (c : Cell A) : content A * number * number * (Q * Q * Q * Q) :=
  (cellContent c, cellWidth c, cellHeight c,
   (paddingLeft c, paddingRight c, paddingTop c, paddingBottom c)).

Definition pageGeometry {A} (pg : Page A) :=
  (pageWidth pg, pageHeight pg, areaWidth pg, areaHeight pg, areaMargin pg,
   map (map cellGeometry) (itemRows pg)).

(** Lines 92-118 of the render body: the paper and the blocks of rows,
    before anything is laid out on a page. *)
Definition pageBlocksOf {A} (s : PrintSettings.t) (items : list A)
  : outcome (number * number * list (list (list (content A)))) :=
  paperWidth ← paperWidth s;
  paperHeight ← paperHeight s;
  itemsIncludingSkipped ← itemsIncludingSkipped s items;
  rowsOfItems ← chunks itemsIncludingSkipped (itemsPerRow s);
  pageBlocks ← chunks rowsOfItems (rowsPerPage s);
  mret (paperWidth, paperHeight, pageBlocks).

(** A cell without its padding. *)
Definition cellBox {A} (c : Cell A) : content A * number * number * string :=
  (cellContent c, cellWidth c, cellHeight c, cellBorder c).

(** A page with its cells without their padding. *)
Definition pageBoxes {A} (pg : Page A) :=
  (pageWidth pg, pageHeight pg, areaBorder pg, areaWidth pg, areaHeight pg, areaMargin pg,
   areaMarginInset pg, map (map cellBox) (itemRows pg)).

(** ** Pages of other items *)

Definition mapContent {A B} (f : A → B) (c : content A) : content B :=
  match c with
  | Empty => Empty
  | Item item => Item (f item)
  end.

Definition mapCell {A B} (f : A → B) (c : Cell A) : Cell B :=
  mkCell (mapContent f (cellContent c)) (cellWidth c) (cellHeight c) (cellBorder c)
         (paddingLeft c) (paddingRight c) (paddingTop c) (paddingBottom c).

(** The page with every item [x] replaced by [f x]. *)
Definition mapPage {A B} (f : A → B) (pg : Page A) : Page B :=
  mkPage (pageWidth pg) (pageHeight pg) (areaBorder pg) (areaHeight pg) (areaWidth pg)
         (areaMargin pg) (areaMarginInset pg) (map (map (mapCell f)) (itemRows pg)).

(** The options of the paper size [Select] (lines 378-383): the keys of
    [paperDimensions], then ["custom"]. *)
Definition paperSizeOptions : list string := map fst paperDimensions ++ ["custom"].

(** ** Assignments to the fields of a settings object *)

Definition withMargin (v : option Margin.t) (s : PrintSettings.t) : PrintSettings.t :=
  PrintSettings.mk v (PrintSettings.printerMargin s) (PrintSettings.spacing s)
    (PrintSettings.columns s) (PrintSettings.rows s) (PrintSettings.skipItems s)
    (PrintSettings.itemCopies s) (PrintSettings.paperSize s)
    (PrintSettings.customPaperSize s) (PrintSettings.borderShowMode s).
Definition withPrinterMargin (v : option Margin.t) (s : PrintSettings.t) : PrintSettings.t :=
  PrintSettings.mk (PrintSettings.margin s) v (PrintSettings.spacing s)
    (PrintSettings.columns s) (PrintSettings.rows s) (PrintSettings.skipItems s)
    (PrintSettings.itemCopies s) (PrintSettings.paperSize s)
    (PrintSettings.customPaperSize s) (PrintSettings.borderShowMode s).
Definition withSpacing (v : option Spacing.t) (s : PrintSettings.t) : PrintSettings.t :=
  PrintSettings.mk (PrintSettings.margin s) (PrintSettings.printerMargin s) v
    (PrintSettings.columns s) (PrintSettings.rows s) (PrintSettings.skipItems s)
    (PrintSettings.itemCopies s) (PrintSettings.paperSize s)
    (PrintSettings.customPaperSize s) (PrintSettings.borderShowMode s).
Definition withPaperSize (v : option string) (s : PrintSettings.t) : PrintSettings.t :=
  PrintSettings.mk (PrintSettings.margin s) (PrintSettings.printerMargin s)
    (PrintSettings.spacing s) (PrintSettings.columns s) (PrintSettings.rows s)
    (PrintSettings.skipItems s) (PrintSettings.itemCopies s) v
    (PrintSettings.customPaperSize s) (PrintSettings.borderShowMode s).
Definition withCustomPaperSize (v : option PaperDimensions.t) (s : PrintSettings.t)
  : PrintSettings.t :=
  PrintSettings.mk (PrintSettings.margin s) (PrintSettings.printerMargin s)
    (PrintSettings.spacing s) (PrintSettings.columns s) (PrintSettings.rows s)
    (PrintSettings.skipItems s) (PrintSettings.itemCopies s) (PrintSettings.paperSize s)
    v (PrintSettings.borderShowMode s).
Definition withBorderShowMode (v : option string) (s : PrintSettings.t) : PrintSettings.t :=
  PrintSettings.mk (PrintSettings.margin s) (PrintSettings.printerMargin s)
    (PrintSettings.spacing s) (PrintSettings.columns s) (PrintSettings.rows s)
    (PrintSettings.skipItems s) (PrintSettings.itemCopies s) (PrintSettings.paperSize s)
    (PrintSettings.customPaperSize s) v.

Inductive side := Top | Bottom | Left | Right.
Inductive axis := Horizontal | Vertical.

Definition sideOf (sd : side) (m : Margin.t) : Q :=
  match sd with
  | Top => Margin.top m
  | Bottom => Margin.bottom m
  | Left => Margin.left m
  | Right => Margin.right m
  end.

(** [m.side = v]. *)
Definition setSide (sd : side) (v : Q) (m : Margin.t) : Margin.t :=
  match sd with
  | Top => Margin.mk v (Margin.bottom m) (Margin.left m) (Margin.right m)
  | Bottom => Margin.mk (Margin.top m) v (Margin.left m) (Margin.right m)
  | Left => Margin.mk (Margin.top m) (Margin.bottom m) v (Margin.right m)
  | Right => Margin.mk (Margin.top m) (Margin.bottom m) (Margin.left m) v
  end.

Definition axisOf (ax : axis) (sp : Spacing.t) : Q :=
  match ax with
  | Horizontal => Spacing.horizontal sp
  | Vertical => Spacing.vertical sp
  end.

Definition setAxis (ax : axis) (v : Q) (sp : Spacing.t) : Spacing.t :=
  match ax with
  | Horizontal => Spacing.mk v (Spacing.vertical sp)
  | Vertical => Spacing.mk (Spacing.horizontal sp) v
  end.

(** [v ?? d]: an [InputNumber] reports [null] when it is emptied. *)
Definition nullish {A} (v : option A) (d : A) : A :=
  match v with
  | Some a => a
  | None => d
  end.

(** ** The handlers of [PrintingDialog] (lines 257-783) *)

(** One constructor per [onChange] that writes to [printSettings], with
    the value the control reports. *)
Inductive edit :=
  | SkipItemsSlider (value : Z)
  | SkipItemsInput (value : option Z)
  | ItemCopiesSlider (value : Z)
  | ItemCopiesInput (value : option Z)
  | BorderShowModeRadio (value : string)
  | PaperSizeSelect (value : string)
  | CustomWidthInput (value : option Q)
  | CustomHeightInput (value : option Q)
  | ColumnsSlider (value : Z)
  | ColumnsInput (value : option Z)
  | RowsSlider (value : Z)
  | RowsInput (value : option Z)
  | MarginSlider (sd : side) (value : Q)
  | MarginInput (sd : side) (value : option Q)
  | PrinterMarginSlider (sd : side) (value : Q)
  | PrinterMarginInput (sd : side) (value : option Q)
  | SpacingSlider (ax : axis) (value : Q)
  | SpacingInput (ax : axis) (value : option Q).

(** The value of the settings object after a handler, from its value [s]
    before: the nested objects are read through here, so this is the edit
    as one settings object sees it.  The objects [margin], [printerMargin],
    [spacing] and [customPaperSize] the handler writes through are the
    constants of the render that made the handler: the object of the
    settings when there is one, the default object of lines 81-89
    otherwise.  [handleOnHeap] below has the same handlers on a heap where
    these objects can be shared. *)
Definition applyEdit (e : edit) (s : PrintSettings.t) : PrintSettings.t :=
  match e with
  | SkipItemsSlider value => PrintSettings.set_skipItems (Some value) s
  | SkipItemsInput value => PrintSettings.set_skipItems (Some (nullish value 1%Z)) s
  | ItemCopiesSlider value => PrintSettings.set_itemCopies (Some value) s
  | ItemCopiesInput value => PrintSettings.set_itemCopies (Some (nullish value 1%Z)) s
  | BorderShowModeRadio value => withBorderShowMode (Some value) s
  | PaperSizeSelect value => withPaperSize (Some value) s
  | CustomWidthInput value =>
      withCustomPaperSize
        (Some (PaperDimensions.mk (nullish value 0%Q)
                 (PaperDimensions.height (customPaperSize s)))) s
  | CustomHeightInput value =>
      withCustomPaperSize
        (Some (PaperDimensions.mk (PaperDimensions.width (customPaperSize s))
                 (nullish value 0%Q))) s
  | ColumnsSlider value => PrintSettings.set_columns (Some value) s
  | ColumnsInput value => PrintSettings.set_columns (Some (nullish value 1%Z)) s
  | RowsSlider value => PrintSettings.set_rows (Some value) s
  | RowsInput value => PrintSettings.set_rows (Some (nullish value 1%Z)) s
  | MarginSlider sd value => withMargin (Some (setSide sd value (margin s))) s
  | MarginInput sd value => withMargin (Some (setSide sd (nullish value 0%Q) (margin s))) s
  | PrinterMarginSlider sd value =>
      withPrinterMargin (Some (setSide sd value (printerMargin s))) s
  | PrinterMarginInput sd value =>
      withPrinterMargin (Some (setSide sd (nullish value 0%Q) (printerMargin s))) s
  | SpacingSlider ax value => withSpacing (Some (setAxis ax value (spacing s))) s
  | SpacingInput ax value => withSpacing (Some (setAxis ax (nullish value 0%Q) (spacing s))) s
  end.

(** A handler run on a store that keeps every settings object with its
    nested objects by value (no two settings objects share one): the
    assignment needs the settings object (a [TypeError] on [undefined]);
    the result is the store at the call of [setPrintSettings] and the
    reference passed to it. *)
Definition handle (e : edit) (printSettings : positive)
    (objects : gmap positive PrintSettings.t)
  : outcome (gmap positive PrintSettings.t * positive) :=
  match objects !! printSettings with
  | None => Throw TypeError
  | Some s => Return (<[printSettings := applyEdit e s]> objects, printSettings)
  end.

(** ** Settings objects on the heap *)

Module SettingsObject.
(** Modelled from the spec: an object of the interface [PrintSettings]
    (declared in [./printing], which is not among the sources) as the heap
    holds it.  The members [margin], [printerMargin], [spacing] and
    [customPaperSize] are objects themselves and held by reference, so
    that two settings objects can hold the same one; the other members
    are primitive values. *)
Record t := mk {
  margin : option positive;
  printerMargin : option positive;
  spacing : option positive;
  columns : option Z;
  rows : option Z;
  skipItems : option Z;
  itemCopies : option Z;
  paperSize : option string;
  customPaperSize : option positive;
  borderShowMode : option string;
}.

Definition empty : t := mk None None None None None None None None None None.

Definition set_margin (v : option positive) (o : t) : t :=
  mk v (printerMargin o) (spacing o) (columns o) (rows o) (skipItems o)
     (itemCopies o) (paperSize o) (customPaperSize o) (borderShowMode o).
Definition set_printerMargin (v : option positive) (o : t) : t :=
  mk (margin o) v (spacing o) (columns o) (rows o) (skipItems o)
     (itemCopies o) (paperSize o) (customPaperSize o) (borderShowMode o).
Definition set_spacing (v : option positive) (o : t) : t :=
  mk (margin o) (printerMargin o) v (columns o) (rows o) (skipItems o)
     (itemCopies o) (paperSize o) (customPaperSize o) (borderShowMode o).
Definition set_columns (v : option Z) (o : t) : t :=
  mk (margin o) (printerMargin o) (spacing o) v (rows o) (skipItems o)
     (itemCopies o) (paperSize o) (customPaperSize o) (borderShowMode o).
Definition set_rows (v : option Z) (o : t) : t :=
  mk (margin o) (printerMargin o) (spacing o) (columns o) v (skipItems o)
     (itemCopies o) (paperSize o) (customPaperSize o) (borderShowMode o).
Definition set_skipItems (v : option Z) (o : t) : t :=
  mk (margin o) (printerMargin o) (spacing o) (columns o) (rows o) v
     (itemCopies o) (paperSize o) (customPaperSize o) (borderShowMode o).
Definition set_itemCopies (v : option Z) (o : t) : t :=
  mk (margin o) (printerMargin o) (spacing o) (columns o) (rows o) (skipItems o)
     v (paperSize o) (customPaperSize o) (borderShowMode o).
Definition set_paperSize (v : option string) (o : t) : t :=
  mk (margin o) (printerMargin o) (spacing o) (columns o) (rows o) (skipItems o)
     (itemCopies o) v (customPaperSize o) (borderShowMode o).
Definition set_customPaperSize (v : option positive) (o : t) : t :=
  mk (margin o) (printerMargin o) (spacing o) (columns o) (rows o) (skipItems o)
     (itemCopies o) (paperSize o) v (borderShowMode o).
Definition set_borderShowMode (v : option string) (o : t) : t :=
  mk (margin o) (printerMargin o) (spacing o) (columns o) (rows o) (skipItems o)
     (itemCopies o) (paperSize o) (customPaperSize o) v.
End SettingsObject.

(** The heap: the settings objects, the objects with four sides (margins
    and printer margins), the spacing objects and the paper dimension
    objects, each kind under its own references. *)
Record Heap := mkHeap {
  settingsObjects : gmap positive SettingsObject.t;
  marginObjects : gmap positive Margin.t;
  spacingObjects : gmap positive Spacing.t;
  paperObjects : gmap positive PaperDimensions.t;
}.

(** The settings object [o] with its nested objects read through their
    references. *)
Definition valueOf (h : Heap) (o : SettingsObject.t) : PrintSettings.t :=
  PrintSettings.mk
    (r ← SettingsObject.margin o; marginObjects h !! r)
    (r ← SettingsObject.printerMargin o; marginObjects h !! r)
    (r ← SettingsObject.spacing o; spacingObjects h !! r)
    (SettingsObject.columns o) (SettingsObject.rows o)
    (SettingsObject.skipItems o) (SettingsObject.itemCopies o)
    (SettingsObject.paperSize o)
    (r ← SettingsObject.customPaperSize o; paperObjects h !! r)
    (SettingsObject.borderShowMode o).

(** Every nested object the settings object [o] refers to is on the heap. *)
Definition closedObject (h : Heap) (o : SettingsObject.t) : Prop :=
  (∀ r, SettingsObject.margin o = Some r → is_Some (marginObjects h !! r)) ∧
  (∀ r, SettingsObject.printerMargin o = Some r → is_Some (marginObjects h !! r)) ∧
  (∀ r, SettingsObject.spacing o = Some r → is_Some (spacingObjects h !! r)) ∧
  (∀ r, SettingsObject.customPaperSize o = Some r → is_Some (paperObjects h !! r)).

(** [member || { ... }] for a member that is an object or missing (lines
    81-83 and 89): the member's object, or a new object holding the
    defaults. *)
Definition objectOr {V} (member : option positive) (d : V) (objects : gmap positive V)
  : gmap positive V * positive :=
  match member with
  | Some r => (objects, r)
  | None => let r := fresh (dom objects) in (<[r := d]> objects, r)
  end.

(** The objects the handlers of one render close over: the constants
    [margin], [printerMargin], [spacing] and [customPaperSize] of lines
    81-83 and 89. *)
Record Captured := mkCaptured {
  marginRef : positive;
  printerMarginRef : positive;
  spacingRef : positive;
  customPaperSizeRef : positive;
}.

(** What the render body reads: the primitive members of the settings
    object and the objects the four constants refer to. *)
Definition constantsOf (h : Heap) (o : SettingsObject.t) (k : Captured) : PrintSettings.t :=
  PrintSettings.mk
    (marginObjects h !! marginRef k)
    (marginObjects h !! printerMarginRef k)
    (spacingObjects h !! spacingRef k)
    (SettingsObject.columns o) (SettingsObject.rows o)
    (SettingsObject.skipItems o) (SettingsObject.itemCopies o)
    (SettingsObject.paperSize o)
    (paperObjects h !! customPaperSizeRef k)
    (SettingsObject.borderShowMode o).

(** One render of [PrintingDialog] on the heap: [printSettings] is a
    reference, a reference to nothing stands for [undefined].  The result
    is the heap after the render, the objects its handlers close over, and
    the pages. *)
Definition renderOnHeap {A} (printSettings : positive) (items : list A) (h : Heap)
  : Heap * Captured * outcome (list (Page A)) :=
  let o := default SettingsObject.empty (settingsObjects h !! printSettings) in
  let '(margins, margin) :=
    objectOr (SettingsObject.margin o) (Margin.mk 10 10 10 10) (marginObjects h) in
  let '(margins', printerMargin) :=
    objectOr (SettingsObject.printerMargin o) (Margin.mk 5 5 5 5) margins in
  let '(spacings, spacing) :=
    objectOr (SettingsObject.spacing o) (Spacing.mk 0 0) (spacingObjects h) in
  let '(papers, customPaperSize) :=
    objectOr (SettingsObject.customPaperSize o) (PaperDimensions.mk 210 297)
             (paperObjects h) in
  let h' := mkHeap (settingsObjects h) margins' spacings papers in
  let k := mkCaptured margin printerMargin spacing customPaperSize in
  (h', k, layout (constantsOf h' o k) items).

(** [printSettings.member = v; setPrintSettings(printSettings)]: a
    [TypeError] when [printSettings] is [undefined], else the assignment on
    the object and the reference handed to [setPrintSettings]. *)
Definition assignMember (f : SettingsObject.t → SettingsObject.t) (printSettings : positive)
    (h : Heap) : Heap * outcome positive :=
  match settingsObjects h !! printSettings with
  | None => (h, Throw TypeError)
  | Some o =>
      (mkHeap (<[printSettings := f o]> (settingsObjects h))
              (marginObjects h) (spacingObjects h) (paperObjects h),
       Return printSettings)
  end.

(** [margin.side = v] and the like: a write into a nested object. *)
Definition writeMargin (r : positive) (f : Margin.t → Margin.t) (h : Heap) : Heap :=
  mkHeap (settingsObjects h) (alter f r (marginObjects h)) (spacingObjects h) (paperObjects h).
Definition writeSpacing (r : positive) (f : Spacing.t → Spacing.t) (h : Heap) : Heap :=
  mkHeap (settingsObjects h) (marginObjects h) (alter f r (spacingObjects h)) (paperObjects h).
Definition writePaper (r : positive) (f : PaperDimensions.t → PaperDimensions.t) (h : Heap)
  : Heap :=
  mkHeap (settingsObjects h) (marginObjects h) (spacingObjects h) (alter f r (paperObjects h)).

(** The handlers of lines 257-783 on the heap, with the objects [k] their
    render closed over.  The result is the heap when the handler returns
    or throws, and the reference passed to [setPrintSettings]. *)
Definition handleOnHeap (e : edit) (printSettings : positive) (k : Captured) (h : Heap)
  : Heap * outcome positive :=
  match e with
  | SkipItemsSlider value =>
      assignMember (SettingsObject.set_skipItems (Some value)) printSettings h
  | SkipItemsInput value =>
      assignMember (SettingsObject.set_skipItems (Some (nullish value 1%Z))) printSettings h
  | ItemCopiesSlider value =>
      assignMember (SettingsObject.set_itemCopies (Some value)) printSettings h
  | ItemCopiesInput value =>
      assignMember (SettingsObject.set_itemCopies (Some (nullish value 1%Z))) printSettings h
  | BorderShowModeRadio value =>
      assignMember (SettingsObject.set_borderShowMode (Some value)) printSettings h
  | PaperSizeSelect value =>
      assignMember (SettingsObject.set_paperSize (Some value)) printSettings h
  | CustomWidthInput value =>
      assignMember (SettingsObject.set_customPaperSize (Some (customPaperSizeRef k)))
        printSettings
        (writePaper (customPaperSizeRef k)
           (λ d, PaperDimensions.mk (nullish value 0%Q) (PaperDimensions.height d)) h)
  | CustomHeightInput value =>
      assignMember (SettingsObject.set_customPaperSize (Some (customPaperSizeRef k)))
        printSettings
        (writePaper (customPaperSizeRef k)
           (λ d, PaperDimensions.mk (PaperDimensions.width d) (nullish value 0%Q)) h)
  | ColumnsSlider value =>
      assignMember (SettingsObject.set_columns (Some value)) printSettings h
  | ColumnsInput value =>
      assignMember (SettingsObject.set_columns (Some (nullish value 1%Z))) printSettings h
  | RowsSlider value =>
      assignMember (SettingsObject.set_rows (Some value)) printSettings h
  | RowsInput value =>
      assignMember (SettingsObject.set_rows (Some (nullish value 1%Z))) printSettings h
  | MarginSlider sd value =>
      assignMember (SettingsObject.set_margin (Some (marginRef k))) printSettings
        (writeMargin (marginRef k) (setSide sd value) h)
  | MarginInput sd value =>
      assignMember (SettingsObject.set_margin (Some (marginRef k))) printSettings
        (writeMargin (marginRef k) (setSide sd (nullish value 0%Q)) h)
  | PrinterMarginSlider sd value =>
      assignMember (SettingsObject.set_printerMargin (Some (printerMarginRef k))) printSettings
        (writeMargin (printerMarginRef k) (setSide sd value) h)
  | PrinterMarginInput sd value =>
      assignMember (SettingsObject.set_printerMargin (Some (printerMarginRef k))) printSettings
        (writeMargin (printerMarginRef k) (setSide sd (nullish value 0%Q)) h)
  | SpacingSlider ax value =>
      assignMember (SettingsObject.set_spacing (Some (spacingRef k))) printSettings
        (writeSpacing (spacingRef k) (setAxis ax value) h)
  | SpacingInput ax value =>
      assignMember (SettingsObject.set_spacing (Some (spacingRef k))) printSettings
        (writeSpacing (spacingRef k) (setAxis ax (nullish value 0%Q)) h)
  end.

(** Two settings objects, at references 1 and 2, that hold the same margin
    object (all sides 0) and nothing else. *)
Definition sharedMargin : Heap :=
  mkHeap {[1%positive := SettingsObject.set_margin (Some 1%positive) SettingsObject.empty;
           2%positive := SettingsObject.set_margin (Some 1%positive) SettingsObject.empty]}
         {[1%positive := Margin.mk 0 0 0 0]} ∅ ∅.

(** The handlers that write neither a count nor the paper's name. *)
Definition keepsPagination (e : edit) : bool :=
  match e with
  | BorderShowModeRadio _ | CustomWidthInput _ | CustomHeightInput _
  | MarginSlider _ _ | MarginInput _ _ | PrinterMarginSlider _ _ | PrinterMarginInput _ _
  | SpacingSlider _ _ | SpacingInput _ _ => true
  | _ => false
  end.

(** What is in the cells of a page, row by row. *)
Definition pageContents {A} (pg : Page A) : list (list (content A)) :=
  map (map cellContent) (itemRows pg).

(** ** [QRCodePrintingDialog] *)

Inductive errorLevel := LevelL | LevelM | LevelQ | LevelH.

Module QRCodeData.
(** The interface [QRCodeData] of lines 7-11; [L] is the type of a label
    element. *)
Record t (L : Type) := mk {
  value : string;
  label : option L;
  errorLevel : option errorLevel;
}.
Arguments mk {L}.
Arguments value {L}.
Arguments label {L}.
Arguments errorLevel {L}.
End QRCodeData.

(** One [div.print-qrcode-item] (lines 40-52): the props of the [QRCode]
    and, when the content is shown, the title, which is the label or else
    the encoded value. *)
Record QRElement (L : Type) := mkQRElement {
  qrIcon : option string;
  qrValue : string;
  qrErrorLevel : option errorLevel;
  qrTitle : option (L + string);
}.
Arguments mkQRElement {L}.
Arguments qrIcon {L}.
Arguments qrValue {L}.
Arguments qrErrorLevel {L}.
Arguments qrTitle {L}.

#[global] Instance Q_toBoolean : ToBoolean Q := λ q, negb (Qeq_bool q 0).

Definition withShowContent (v : option bool) (q : QRCodePrintSettings.t)
  : QRCodePrintSettings.t :=
  QRCodePrintSettings.mk v (QRCodePrintSettings.textSize q)
    (QRCodePrintSettings.showSpoolmanIcon q) (QRCodePrintSettings.printSettings q).
Definition withTextSize (v : option Q) (q : QRCodePrintSettings.t) : QRCodePrintSettings.t :=
  QRCodePrintSettings.mk (QRCodePrintSettings.showContent q) v
    (QRCodePrintSettings.showSpoolmanIcon q) (QRCodePrintSettings.printSettings q).
Definition withShowSpoolmanIcon (v : option bool) (q : QRCodePrintSettings.t)
  : QRCodePrintSettings.t :=
  QRCodePrintSettings.mk (QRCodePrintSettings.showContent q)
    (QRCodePrintSettings.textSize q) v (QRCodePrintSettings.printSettings q).

Section QRConstants.
(** [printSettings] as the component got it, [None] for [undefined]. *)
Variable printSettings : option QRCodePrintSettings.t.

(** Lines 34-36. *)
Definition showContent : bool :=
  match printSettings ≫= QRCodePrintSettings.showContent with
  | None => true
  | Some b => b
  end.
Definition textSize : Q := logicalOr (printSettings ≫= QRCodePrintSettings.textSize) 5%Q.
Definition showSpoolmanIcon : bool :=
  match printSettings ≫= QRCodePrintSettings.showSpoolmanIcon with
  | None => true
  | Some b => b
  end.

(** Lines 38-54. *)
Definition elements {L} (items : list (QRCodeData.t L)) : list (QRElement L) :=
  map (λ item,
         {| qrIcon := if showSpoolmanIcon then Some "/favicon.svg" else None;
            qrValue := QRCodeData.value item;
            qrErrorLevel := QRCodeData.errorLevel item;
            qrTitle :=
              if showContent
              then Some (match QRCodeData.label item with
                         | Some l => inl l
                         | None => inr (QRCodeData.value item)
                         end)
              else None |})
      items.

(** What the style of lines 122-155 takes from the settings: the
    [max-width] of the code and the [font-size] of the title in mm. *)
Definition qrStyle : string * Q := (if showContent then "50%" else "100%", textSize).

End QRConstants.

(** One render of [QRCodePrintingDialog] (lines 32-158): the props it
    hands to [PrintingDialog] and what that renders.  Reading
    [printSettings.printSettings] of [undefined] (line 61) throws. *)
Definition QRCodePrintingDialog {L} (printSettings : positive)
    (items : list (QRCodeData.t L))
    (qrObjects : gmap positive QRCodePrintSettings.t)
    (objects : gmap positive PrintSettings.t)
  : outcome (string * Q * list (Page (QRElement L))) :=
  let settings := qrObjects !! printSettings in
  let elements := elements settings items in
  match settings with
  | None => Throw TypeError
  | Some q =>
      ps ← (PrintingDialog (QRCodePrintSettings.printSettings q) elements objects).2;
      mret (qrStyle settings, ps)
  end.

(** The handlers of lines 72-75, 88-91, 102-105 and 113-116. *)
Inductive qrEdit :=
  | ShowContentSwitch (checked : bool)
  | TextSizeSlider (value : Q)
  | TextSizeInput (value : option Q)
  | ShowSpoolmanIconSwitch (checked : bool).

Definition applyQrEdit (e : qrEdit) (q : QRCodePrintSettings.t) : QRCodePrintSettings.t :=
  match e with
  | ShowContentSwitch checked => withShowContent (Some checked) q
  | TextSizeSlider value => withTextSize (Some value) q
  | TextSizeInput value => withTextSize (Some (nullish value 5%Q)) q
  | ShowSpoolmanIconSwitch checked => withShowSpoolmanIcon (Some checked) q
  end.

Definition qrHandle (e : qrEdit) (printSettings : positive)
    (qrObjects : gmap positive QRCodePrintSettings.t)
  : outcome (gmap positive QRCodePrintSettings.t * positive) :=
  match qrObjects !! printSettings with
  | None => Throw TypeError
  | Some q => Return (<[printSettings := applyQrEdit e q]> qrObjects, printSettings)
  end.

(** A handler of the inner [PrintingDialog] run inside
    [QRCodePrintingDialog]: it edits the object [printSettings.printSettings]
    and calls the callback of lines 62-65 with that reference.  The result
    is both stores and the reference the host's [setPrintSettings] gets. *)
Definition handleInQRCodeDialog (e : edit) (printSettings : positive)
    (qrObjects : gmap positive QRCodePrintSettings.t)
    (objects : gmap positive PrintSettings.t)
  : outcome (gmap positive QRCodePrintSettings.t * gmap positive PrintSettings.t * positive) :=
  match qrObjects !! printSettings with
  | None => Throw TypeError
  | Some q =>
      '(objects', newSettings) ← handle e (QRCodePrintSettings.printSettings q) objects;
      '(qrObjects', passed) ← qrSetPrintSettings printSettings newSettings qrObjects;
      mret (qrObjects', objects', passed)
  end.

(** Three items for the code dialog, the second with a label. *)
Definition exampleCodes : list (QRCodeData.t string) :=
  [ QRCodeData.mk "web+spoolman:s-1" None None;
    QRCodeData.mk "web+spoolman:s-2" (Some "PLA black") (Some LevelH);
    QRCodeData.mk "web+spoolman:s-3" None None ].

(** * Properties *)

(** ** Loops *)

Ltac outcome_step := cbn [mbind outcome_bind mret outcome_ret].
Ltac outcome_step_in H := cbn [mbind outcome_bind mret outcome_ret] in H.


Lemma bind_Return {A B} (m : outcome A) (f : A → outcome B) (b : B) :
  m ≫= f = Return b → ∃ a, m = Return a ∧ f a = Return b.
Proof. destruct m as [a| |]; [|done..]. intros Hf. by exists a. Qed.

Lemma forPush_counted {B} (k fuel : nat) (cond : Z → bool) (body : Z → B) (i : Z) :
  (∀ j, (j < k)%nat → cond (i + Z.of_nat j)%Z = true) →
  cond (i + Z.of_nat k)%Z = false →
  (k < fuel)%nat →
  forPush fuel cond body i = Return (map (λ j, body (i + Z.of_nat j)%Z) (seq 0 k)).
Proof.
  revert fuel i. induction k as [|k IH]; intros fuel i Htrue Hfalse Hfuel.
  - destruct fuel as [|fuel]; [lia|]. simpl.
    rewrite Z.add_0_r in Hfalse. by rewrite Hfalse.
  - destruct fuel as [|fuel]; [lia|]. simpl.
    specialize (Htrue 0%nat ltac:(lia)) as H0. rewrite Z.add_0_r in H0 |- *.
    rewrite H0, (IH fuel (i + 1)%Z); [| | |lia].
    + simpl. f_equal. f_equal. rewrite <- seq_shift, map_map.
      apply map_ext. intros j. f_equal. lia.
    + intros j Hj. rewrite <- (Htrue (S j)) by lia. f_equal. lia.
    + rewrite <- Hfalse. f_equal. lia.
Qed.

Lemma divUp_lt (a b j : nat) : (1 ≤ b)%nat → (j < divUp a b)%nat ↔ (j * b < a)%nat.
Proof.
  intros Hb. unfold divUp.
  pose proof (Nat.div_mod_eq (a + b - 1) b) as Hdm.
  pose proof (Nat.mod_upper_bound (a + b - 1) b ltac:(lia)) as Hr.
  set (q := ((a + b - 1) / b)%nat) in *. set (r := ((a + b - 1) mod b)%nat) in *.
  split; intros H; nia.
Qed.

Lemma divUp_le (a b : nat) : (1 ≤ b)%nat → (divUp a b ≤ a)%nat.
Proof.
  intros Hb. destruct (decide (divUp a b ≤ a)%nat) as [|Hn]; [done|].
  assert (Hlt : (a < divUp a b)%nat) by lia.
  apply divUp_lt in Hlt; [nia|done].
Qed.

Lemma ltNumber_div (len n i : Z) :
  (1 ≤ n)%Z → ltNumber i (ndiv (Num (inject_Z len)) n) = bool_decide (i * n < len)%Z.
Proof.
  intros Hn. unfold ndiv. destruct (Z.eqb_spec n 0) as [|_]; [lia|]. simpl.
  destruct (Qle_bool _ _) eqn:Hle; simpl; symmetry.
  - apply bool_decide_eq_false. apply Qle_bool_iff in Hle.
    destruct n as [|p|p]; [lia| |lia].
    unfold Qle, Qdiv, Qmult, Qinv, inject_Z in Hle. simpl in Hle. lia.
  - apply bool_decide_eq_true.
    destruct (decide (i * n < len)%Z) as [|Hge]; [done|exfalso].
    assert (Hq : Qle_bool (inject_Z len / inject_Z n) (inject_Z i) = true); [|congruence].
    apply Qle_bool_iff. destruct n as [|p|p]; [lia| |lia].
    unfold Qle, Qdiv, Qmult, Qinv, inject_Z. simpl. lia.
Qed.

Lemma ltNumber_div_neg (len n : Z) :
  (0 ≤ len)%Z → (n < 0)%Z → ltNumber 0 (ndiv (Num (inject_Z len)) n) = false.
Proof.
  intros Hlen Hn. unfold ndiv. destruct (Z.eqb_spec n 0) as [|_]; [lia|]. simpl.
  apply negb_false_iff, Qle_bool_iff. destruct n as [|p|p]; [lia|lia|].
  unfold Qle, Qdiv, Qmult, Qinv, inject_Z. simpl. lia.
Qed.

Lemma slice_chunk {A} (xs : list A) (j n : nat) :
  (j * n < length xs)%nat →
  slice xs (Z.of_nat j * Z.of_nat n) ((Z.of_nat j + 1) * Z.of_nat n)
  = take n (drop (j * n) xs).
Proof.
  intros Hlt. unfold slice, sliceIndex.
  replace (Z.of_nat j * Z.of_nat n)%Z with (Z.of_nat (j * n)) by lia.
  replace ((Z.of_nat j + 1) * Z.of_nat n)%Z with (Z.of_nat ((j + 1) * n)) by lia.
  destruct (Z.ltb_spec (Z.of_nat (j * n)) 0) as [|_]; [lia|].
  destruct (Z.ltb_spec (Z.of_nat ((j + 1) * n)) 0) as [|_]; [lia|].
  replace (Z.to_nat (Z.of_nat (j * n) `min` Z.of_nat (length xs))) with (j * n)%nat by lia.
  destruct (decide ((j + 1) * n ≤ length xs)%nat) as [Hfull|Hshort].
  - f_equal. lia.
  - rewrite !take_ge; [done|rewrite length_drop; lia|rewrite length_drop; lia].
Qed.

Lemma chunks_groups {A} (xs : list A) (n : Z) :
  (1 ≤ n)%Z → chunks xs n = Return (groups (Z.to_nat n) xs).
Proof.
  intros Hn. unfold chunks, groups.
  set (m := Z.to_nat n). assert (Hm : n = Z.of_nat m) by lia.
  assert (1 ≤ m)%nat by lia. clearbody m. subst n.
  rewrite (forPush_counted (divUp (length xs) m)).
  - f_equal. apply map_ext_in. intros j Hj%in_seq. simpl.
    apply slice_chunk, divUp_lt; lia.
  - intros j Hj. rewrite ltNumber_div by lia. apply bool_decide_eq_true.
    apply divUp_lt in Hj; lia.
  - rewrite ltNumber_div by lia. apply bool_decide_eq_false.
    intros Hlt. assert (Hk : (divUp (length xs) m < divUp (length xs) m)%nat); [|lia].
    apply divUp_lt; lia.
  - pose proof (divUp_le (length xs) m). lia.
Qed.

Lemma chunks_negative {A} (xs : list A) (n : Z) :
  (n < 0)%Z → chunks xs n = Return [].
Proof.
  intros Hn. unfold chunks. cbn [forPush]. by rewrite ltNumber_div_neg by lia.
Qed.

(** With a non-zero group size the slicing loop always leaves. *)
Lemma chunks_Return {A} (xs : list A) (n : Z) :
  n ≠ 0%Z → ∃ rows, chunks xs n = Return rows.
Proof.
  intros Hn. destruct (decide (1 ≤ n)%Z).
  - eexists. by apply chunks_groups.
  - eexists. apply chunks_negative. lia.
Qed.

(** ** Groups *)

Section Groups.
Context {A : Type}.
Implicit Types (xs : list A) (n j : nat).

Lemma divUp_mul_ge (a b : nat) : (1 ≤ b)%nat → (a ≤ divUp a b * b)%nat.
Proof.
  intros Hb. destruct (decide (a ≤ divUp a b * b)%nat) as [|Hn]; [done|].
  assert (Hlt : (divUp a b < divUp a b)%nat); [|lia].
  apply divUp_lt; lia.
Qed.

Lemma groups_length n xs : length (groups n xs) = divUp (length xs) n.
Proof. unfold groups. by rewrite length_map, length_seq. Qed.

Lemma groups_lookup n xs j :
  (j < divUp (length xs) n)%nat → groups n xs !! j = Some (take n (drop (j * n) xs)).
Proof.
  intros Hj. unfold groups. rewrite list_lookup_fmap.
  by rewrite lookup_seq_lt.
Qed.

Lemma concat_take_drop n xs k :
  concat (map (λ j, take n (drop (j * n) xs)) (seq 0 k)) = take (k * n) xs.
Proof.
  induction k as [|k IH]; [done|].
  rewrite seq_S, map_app, concat_app, IH. simpl. rewrite app_nil_r.
  rewrite take_take_drop. f_equal. lia.
Qed.

Lemma groups_concat n xs : (1 ≤ n)%nat → concat (groups n xs) = xs.
Proof.
  intros Hn. unfold groups. rewrite concat_take_drop.
  apply take_ge. by apply divUp_mul_ge.
Qed.

(** Every group but the last is full; the last is not empty. *)
Lemma groups_full n xs j g :
  (1 ≤ n)%nat → groups n xs !! j = Some g → (S j < length (groups n xs))%nat → length g = n.
Proof.
  intros Hn Hg Hj. rewrite groups_length in Hj.
  rewrite groups_lookup in Hg by lia. injection Hg as <-.
  apply divUp_lt in Hj; [|done].
  rewrite length_take, length_drop. lia.
Qed.

Lemma groups_bounds n xs j g :
  (1 ≤ n)%nat → groups n xs !! j = Some g → (1 ≤ length g ≤ n)%nat.
Proof.
  intros Hn Hg.
  assert (Hj : (j < divUp (length xs) n)%nat).
  { rewrite <- groups_length. by eapply lookup_lt_Some. }
  rewrite groups_lookup in Hg by done. injection Hg as <-.
  apply divUp_lt in Hj; [|done].
  rewrite length_take, length_drop. lia.
Qed.

End Groups.

(** ** The expanded sequence *)

Lemma mapM_Return {A B} (f : A → outcome B) (g : A → B) (xs : list A) :
  (∀ x, f x = Return (g x)) → mapM f xs = Return (map g xs).
Proof.
  intros Hf. induction xs as [|x xs IH]; [done|].
  simpl. rewrite Hf. simpl. by rewrite IH.
Qed.

Lemma copies_replicate {A} (copies : Z) (item : A) :
  forPush (S (Z.to_nat copies)) (λ i, (i <? copies)%Z) (λ _, Item item) 0%Z
  = Return (replicate (Z.to_nat copies) (Item item)).
Proof.
  rewrite (forPush_counted (Z.to_nat copies)).
  - f_equal. generalize (Z.to_nat copies) as k. intros k.
    generalize 0%nat as s. induction k as [|k IH]; intros s; [done|].
    simpl. by rewrite IH.
  - intros j Hj. apply Z.ltb_lt. lia.
  - apply Z.ltb_ge. lia.
  - lia.
Qed.

Lemma itemsIncludingSkipped_Return {A} (s : PrintSettings.t) (items : list A) :
  (0 ≤ skipItems s < 2 ^ 32)%Z →
  itemsIncludingSkipped s items
  = Return (expanded (Z.to_nat (skipItems s)) (Z.to_nat (itemCopies s)) items).
Proof.
  intros Hs. unfold itemsIncludingSkipped, newArray.
  destruct (Z.leb_spec 0 (skipItems s)); [|lia].
  destruct (Z.ltb_spec (skipItems s) (2 ^ 32)); [|lia]. simpl.
  by rewrite (mapM_Return _ (λ item, replicate (Z.to_nat (itemCopies s)) (Item item)))
    by (intros; apply copies_replicate).
Qed.

Lemma itemsIncludingSkipped_Throw {A} (s : PrintSettings.t) (items : list A) :
  ¬ (0 ≤ skipItems s < 2 ^ 32)%Z → itemsIncludingSkipped s items = Throw RangeError.
Proof.
  intros Hs. unfold itemsIncludingSkipped, newArray.
  destruct (Z.leb_spec 0 (skipItems s)); [|done].
  destruct (Z.ltb_spec (skipItems s) (2 ^ 32)); [lia|done].
Qed.

Lemma expanded_occupied {A} (skip copies : nat) (items : list A) :
  length (filter (λ c, occupied c = true) (expanded skip copies items))
  = (length items * copies)%nat.
Proof.
  unfold expanded. rewrite filter_app, length_app.
  assert (H0 : filter (λ c : content A, occupied c = true) (replicate skip Empty) = []).
  { induction skip as [|k IH]; [done|]. cbn [replicate]. by rewrite filter_cons_False. }
  rewrite H0. simpl. induction items as [|x items IH]; [done|].
  simpl. rewrite filter_app, length_app, IH. f_equal.
  clear. induction copies as [|k IH]; [done|].
  cbn [replicate]. rewrite filter_cons_True by done. simpl. by rewrite IH.
Qed.

(** ** The render body as a whole *)

Lemma logicalOr_Z_nonzero (v : option Z) (d : Z) : d ≠ 0%Z → logicalOr v d ≠ 0%Z.
Proof.
  intros Hd. unfold logicalOr, toBoolean, Z_toBoolean.
  destruct v as [n|]; [|done]. by destruct (Z.eqb_spec n 0).
Qed.

Lemma paperColumns_nonzero (s : PrintSettings.t) : paperColumns s ≠ 0%Z.
Proof. by apply logicalOr_Z_nonzero. Qed.

Lemma paperRows_nonzero (s : PrintSettings.t) : paperRows s ≠ 0%Z.
Proof. by apply logicalOr_Z_nonzero. Qed.

Lemma paperSide_terminates (s : PrintSettings.t) (side : PaperDimensions.t → Q) :
  paperSide s side ≠ Diverge.
Proof. unfold paperSide. by repeat case_match. Qed.

Lemma logicalOr_Z_Some (n d : Z) : n ≠ 0%Z → logicalOr (Some n) d = n.
Proof.
  intros Hn. unfold logicalOr, toBoolean, Z_toBoolean.
  by destruct (Z.eqb_spec n 0).
Qed.

Section Layout.
Context {A : Type}.
Implicit Types (s : PrintSettings.t) (items : list A) (ps : list (Page A)).

(** What a completed layout went through. *)
Lemma layout_Return_inv s items ps :
  layout s items = Return ps →
  ∃ pw ph rowsOfItems pageBlocks,
    paperWidth s = Return pw ∧ paperHeight s = Return ph ∧
    (0 ≤ skipItems s < 2 ^ 32)%Z ∧
    chunks (expanded (Z.to_nat (skipItems s)) (Z.to_nat (itemCopies s)) items)
           (paperColumns s) = Return rowsOfItems ∧
    chunks rowsOfItems (paperRows s) = Return pageBlocks ∧
    ps = pages s pw ph pageBlocks.
Proof.
  unfold layout. intros H.
  apply bind_Return in H as (pw & Hpw & H).
  apply bind_Return in H as (ph & Hph & H).
  apply bind_Return in H as (xs & Hxs & H).
  apply bind_Return in H as (rs & Hrs & H).
  apply bind_Return in H as (bs & Hbs & H).
  destruct (decide (0 ≤ skipItems s < 2 ^ 32)%Z) as [Hs|Hs].
  - rewrite itemsIncludingSkipped_Return in Hxs by done. injection Hxs as <-.
    exists pw, ph, rs, bs. repeat split; try done; try lia.
    by injection H as <-.
  - by rewrite itemsIncludingSkipped_Throw in Hxs.
Qed.

(** A layout with positive [columns] and [rows]. *)
Lemma layout_positive s items ps :
  layout s items = Return ps → (1 ≤ paperColumns s)%Z → (1 ≤ paperRows s)%Z →
  ∃ pw ph,
    paperWidth s = Return pw ∧ paperHeight s = Return ph ∧
    (0 ≤ skipItems s < 2 ^ 32)%Z ∧
    ps = pages s pw ph
           (blocksOf s (expanded (Z.to_nat (skipItems s)) (Z.to_nat (itemCopies s)) items)).
Proof.
  intros H Hc Hr.
  apply layout_Return_inv in H as (pw & ph & rs & bs & Hpw & Hph & Hs & Hrs & Hbs & ->).
  rewrite chunks_groups in Hrs by done. injection Hrs as <-.
  rewrite chunks_groups in Hbs by done. injection Hbs as <-.
  by exists pw, ph.
Qed.

(** The render body never loops forever: [columns || 3] and [rows || 8]
    are not zero, so both slicing loops leave. *)
Lemma layout_terminates s items : layout s items ≠ Diverge.
Proof.
  unfold layout, itemsPerRow, rowsPerPage.
  destruct (paperWidth s) as [pw| |] eqn:Hpw; outcome_step; [|done|].
  2:{ by apply paperSide_terminates in Hpw. }
  destruct (paperHeight s) as [ph| |] eqn:Hph; outcome_step; [|done|].
  2:{ by apply paperSide_terminates in Hph. }
  destruct (decide (0 ≤ skipItems s < 2 ^ 32)%Z) as [Hs|Hs].
  - rewrite itemsIncludingSkipped_Return by done. outcome_step.
    destruct (chunks_Return
                (expanded (Z.to_nat (skipItems s)) (Z.to_nat (itemCopies s)) items)
                (paperColumns s) (paperColumns_nonzero s)) as [rs ->]. outcome_step.
    destruct (chunks_Return rs (paperRows s) (paperRows_nonzero s)) as [bs ->].
    done.
  - by rewrite itemsIncludingSkipped_Throw.
Qed.

(** It completes whenever the paper size resolves and [skipItems] is an
    array length. *)
Lemma layout_completes s items pw ph :
  paperWidth s = Return pw → paperHeight s = Return ph →
  (0 ≤ skipItems s < 2 ^ 32)%Z →
  ∃ ps, layout s items = Return ps.
Proof.
  intros Hpw Hph Hs. unfold layout, itemsPerRow, rowsPerPage.
  rewrite Hpw, Hph. outcome_step.
  rewrite itemsIncludingSkipped_Return by done. outcome_step.
  destruct (chunks_Return
              (expanded (Z.to_nat (skipItems s)) (Z.to_nat (itemCopies s)) items)
              (paperColumns s) (paperColumns_nonzero s)) as [rs ->]. outcome_step.
  destruct (chunks_Return rs (paperRows s) (paperRows_nonzero s)) as [bs ->].
  by eexists.
Qed.

(** *** Cells *)

Lemma page_contents s pw ph (block : list (list (content A))) :
  map (map cellContent) (itemRows (page s pw ph block)) = block.
Proof.
  simpl. change (map (map cellContent)) with (fmap (M:=list) (map (@cellContent A))).
  rewrite fmap_imap. rewrite <- (list_fmap_id block) at 2.
  rewrite <- imap_const. apply imap_ext. intros i row _. simpl.
  change (map cellContent) with (fmap (M:=list) (@cellContent A)).
  rewrite fmap_imap. rewrite <- (list_fmap_id row) at 2.
  rewrite <- imap_const. by apply imap_ext.
Qed.

Lemma cells_contents s pw ph (blocks : list (list (list (content A)))) :
  map cellContent (cells (pages s pw ph blocks)) = concat (concat blocks).
Proof.
  unfold cells, pages. rewrite !concat_map. f_equal.
  induction blocks as [|b blocks IH]; [done|].
  cbn [map concat]. rewrite IH. f_equal. apply page_contents.
Qed.

Lemma cellAt_pages s pw ph (blocks : list (list (list (content A)))) pageIdx rowIdx colIdx c :
  cellAt (pages s pw ph blocks) pageIdx rowIdx colIdx = Some c →
  ∃ block row item,
    blocks !! pageIdx = Some block ∧ block !! rowIdx = Some row ∧
    row !! colIdx = Some item ∧ c = cell s pw ph rowIdx colIdx item.
Proof.
  unfold cellAt, pages. intros H.
  change (map (page s pw ph) blocks) with (page s pw ph <$> blocks) in H.
  rewrite list_lookup_fmap in H.
  destruct (blocks !! pageIdx) as [block|] eqn:Hb; [|done]. simpl in H.
  rewrite list_lookup_imap in H.
  destruct (block !! rowIdx) as [row|] eqn:Hr; [|done]. simpl in H.
  rewrite list_lookup_imap in H.
  destruct (row !! colIdx) as [item|] eqn:Hi; [|done]. simpl in H.
  injection H as <-. by exists block, row, item.
Qed.

Lemma cells_cellAt ps c :
  c ∈ cells ps → ∃ pageIdx rowIdx colIdx, cellAt ps pageIdx rowIdx colIdx = Some c.
Proof.
  unfold cells. intros Hc%list_elem_of_In.
  apply in_concat in Hc as (row & Hrow & Hc).
  apply in_concat in Hrow as (rows & Hrows & Hrow).
  apply in_map_iff in Hrows as (pg & <- & Hpg).
  apply list_elem_of_In, list_elem_of_lookup in Hpg as [pageIdx Hpg].
  apply list_elem_of_In, list_elem_of_lookup in Hrow as [rowIdx Hrow].
  apply list_elem_of_In, list_elem_of_lookup in Hc as [colIdx Hc].
  exists pageIdx, rowIdx, colIdx. unfold cellAt. rewrite Hpg. simpl.
  rewrite Hrow. simpl. done.
Qed.

End Layout.

(** ** The ceiling *)

Lemma ceilDiv_divUp (a b : nat) : (1 ≤ b)%nat → ceilDiv a b = divUp a b.
Proof.
  intros Hb. unfold ceilDiv, divUp, Qceiling, Qfloor.
  destruct b as [|b]; [lia|].
  unfold Qdiv, Qmult, Qinv, Qopp, inject_Z. simpl Qnum. simpl Qden.
  cbn [Z.of_nat Qnum Qden]. 
  apply Nat2Z.inj. rewrite Nat2Z.inj_div, Z2Nat.id.
  - set (d := Z.pos (1 * Pos.of_succ_nat b)).
    assert (Hd : d = Z.of_nat (S b)) by (unfold d; lia).
    replace (Z.of_nat (a + S b - 1)) with (Z.of_nat a + d - 1)%Z by lia.
    rewrite <- Hd. clearbody d.
    replace (- (Z.of_nat a * 1))%Z with (- Z.of_nat a)%Z by lia.
    assert (0 < d)%Z by lia.
    Z.to_euclidean_division_equations. nia.
  - set (d := Z.pos (1 * Pos.of_succ_nat b)).
    assert (0 < d)%Z by (unfold d; lia).
    replace (- (Z.of_nat a * 1))%Z with (- Z.of_nat a)%Z by lia.
    Z.to_euclidean_division_equations. nia.
Qed.

(** ** The order of the cells *)

Lemma layout_contents {A} (s : PrintSettings.t) (items : list A) ps :
  layout s items = Return ps → (1 ≤ paperColumns s)%Z → (1 ≤ paperRows s)%Z →
  map cellContent (cells ps)
  = expanded (Z.to_nat (skipItems s)) (Z.to_nat (itemCopies s)) items.
Proof.
  intros H Hc Hr.
  apply layout_positive in H as (pw & ph & _ & _ & _ & ->); [|done..].
  rewrite cells_contents. unfold blocksOf.
  rewrite !groups_concat by lia. done.
Qed.

(** C1 (as the code has it).  For settings with [columns] and [rows] at
    least 1 after the defaults, [skipItems = S >= 0] and
    [itemCopies = C >= 1], and [N] items, the cells of all pages of a
    completed layout, read page after page and row after row, hold exactly
    [S] empty placeholders followed by each item [C] times, in input
    order, with no further cell after them; the occupied cells number
    [N * C]. *)
Theorem flatten_order {A} (s : PrintSettings.t) (items : list A) (skip copies : nat) ps :
  PrintSettings.skipItems s = Some (Z.of_nat skip) →
  PrintSettings.itemCopies s = Some (Z.of_nat copies) →
  (1 ≤ copies)%nat →
  (1 ≤ paperColumns s)%Z →
  (1 ≤ paperRows s)%Z →
  layout s items = Return ps →
  map cellContent (cells ps)
  = replicate skip Empty ++ concat (map (λ item, replicate copies (Item item)) items)
  ∧ length (filter (λ c, occupied c = true) (map cellContent (cells ps)))
    = (length items * copies)%nat.
Proof.
  intros Hskip Hcopies Hpos Hc Hr H.
  assert (Hs : skipItems s = Z.of_nat skip).
  { unfold skipItems. rewrite Hskip. unfold logicalOr, toBoolean, Z_toBoolean.
    destruct (Z.eqb_spec (Z.of_nat skip) 0); simpl; lia. }
  assert (Hi : itemCopies s = Z.of_nat copies).
  { unfold itemCopies. rewrite Hcopies. apply logicalOr_Z_Some. lia. }
  rewrite (layout_contents s items ps H Hc Hr), Hs, Hi, !Nat2Z.id.
  split; [done|]. apply expanded_occupied.
Qed.

Lemma flatten_order_witness :
  ∃ ps, layout twoSkippedTwoCopies (exampleItems 3) = Return ps ∧
        map cellContent (cells ps)
        = [Empty; Empty; Item 1; Item 1; Item 2; Item 2; Item 3; Item 3]%nat ∧
        length (filter (λ c, occupied c = true) (map cellContent (cells ps))) = 6%nat.
Proof.
  eexists. split; [vm_compute; reflexivity|].
  apply (flatten_order twoSkippedTwoCopies (exampleItems 3) 2 2); [reflexivity|reflexivity|lia|..].
  - vm_compute. discriminate.
  - vm_compute. discriminate.
  - vm_compute. reflexivity.
Defined.

(** [itemCopies: 0] with three items: each item is laid out once, so three
    cells are occupied and not [3 * 0]. *)
Lemma zero_copies_fill_cells :
  PrintSettings.itemCopies zeroCopies = Some 0%Z ∧
  ∃ ps, layout zeroCopies (exampleItems 3) = Return ps ∧
        map cellContent (cells ps) = [Item 1; Item 2; Item 3]%nat ∧
        length (filter (λ c, occupied c = true) (map cellContent (cells ps))) = 3%nat.
Proof.
  split; [reflexivity|]. eexists. split; [vm_compute; reflexivity|].
  split; reflexivity.
Qed.

(** ** Rows and pages *)

Lemma pages_length {A} (s : PrintSettings.t) pw ph (blocks : list (list (list (content A)))) :
  length (pages s pw ph blocks) = length blocks.
Proof. unfold pages. apply length_map. Qed.

Lemma groups_spec {B} (n : nat) (ys : list B) (j : nat) g :
  (1 ≤ n)%nat → groups n ys !! j = Some g →
  g = take n (drop (j * n) ys) ∧ (1 ≤ length g ≤ n)%nat ∧
  ((S j < length (groups n ys))%nat → length g = n).
Proof.
  intros Hn Hg. split; [|split].
  - assert (Hj : (j < divUp (length ys) n)%nat).
    { rewrite <- groups_length. by eapply lookup_lt_Some. }
    rewrite groups_lookup in Hg by done. by injection Hg.
  - by eapply groups_bounds.
  - by eapply groups_full.
Qed.

Lemma pages_pageContents {A} (s : PrintSettings.t) pw ph
    (blocks : list (list (list (content A)))) :
  map pageContents (pages s pw ph blocks) = blocks.
Proof.
  unfold pages. rewrite map_map. rewrite <- (map_id blocks) at 2.
  apply map_ext. intros block. apply page_contents.
Qed.

(** C5.  For settings with [columns = c >= 1] and [rows = r >= 1], the
    sequence of length [L] that lines 103-108 build is cut, in a completed
    layout, into [ceil(L / c)] consecutive rows of [c] elements (only the
    last may be shorter, none is empty), and the rows into
    [ceil(ceil(L / c) / r)] consecutive pages of [r] rows (only the last
    may have fewer); the two slicing loops do so for every sequence and
    every [c] and [r].  With 3 columns, 8 rows, nothing skipped and one
    copy, 25 items give 9 rows on 2 pages: 8 rows with 24 items, then one
    row with the last item. *)
Theorem rows_and_pages :
  (∀ (A : Type) (s : PrintSettings.t) (items : list A) (c r : nat) ps xs rows,
     paperColumns s = Z.of_nat c → paperRows s = Z.of_nat r →
     (1 ≤ c)%nat → (1 ≤ r)%nat →
     itemsIncludingSkipped s items = Return xs →
     layout s items = Return ps →
     rows = concat (map pageContents ps) →
     concat rows = xs ∧
     length rows = ceilDiv (length xs) c ∧
     length ps = ceilDiv (ceilDiv (length xs) c) r ∧
     (∀ j row, rows !! j = Some row →
        row = take c (drop (j * c) xs) ∧ (1 ≤ length row ≤ c)%nat ∧
        ((S j < length rows)%nat → length row = c)) ∧
     (∀ j pg, ps !! j = Some pg →
        pageContents pg = take r (drop (j * r) rows) ∧
        (1 ≤ length (pageContents pg) ≤ r)%nat ∧
        ((S j < length ps)%nat → length (pageContents pg) = r)))
  ∧
  (∀ (A : Type) (xs : list A) (c r : nat),
     (1 ≤ c)%nat → (1 ≤ r)%nat →
     ∃ rows blocks,
       chunks xs (Z.of_nat c) = Return rows ∧
       chunks rows (Z.of_nat r) = Return blocks ∧
       length rows = ceilDiv (length xs) c ∧
       length blocks = ceilDiv (ceilDiv (length xs) c) r ∧
       concat rows = xs ∧
       concat blocks = rows ∧
       (∀ j row, rows !! j = Some row →
          row = take c (drop (j * c) xs) ∧ (1 ≤ length row ≤ c)%nat ∧
          ((S j < length rows)%nat → length row = c)) ∧
       (∀ j block, blocks !! j = Some block →
          block = take r (drop (j * r) rows) ∧ (1 ≤ length block ≤ r)%nat ∧
          ((S j < length blocks)%nat → length block = r)))
  ∧
  (∃ rows page1 page2,
     chunks (expanded 0 1 (exampleItems 25)) 3 = Return rows ∧ length rows = 9%nat ∧
     layout threeByEight (exampleItems 25) = Return [page1; page2] ∧
     length (itemRows page1) = 8%nat ∧
     length (filter (λ c, occupied (cellContent c) = true) (concat (itemRows page1))) = 24%nat ∧
     map (map cellContent) (itemRows page2) = [[Item 25%nat]]).
Proof.
  split; [|split].
  - intros A s items c r ps xs rows Hc Hr Hc1 Hr1 Hxs H ->.
    apply layout_positive in H as (pw & ph & _ & _ & Hs & ->); [|lia..].
    rewrite itemsIncludingSkipped_Return in Hxs by done. injection Hxs as Hxs.
    rewrite pages_pageContents. unfold blocksOf. rewrite Hxs, Hc, Hr, !Nat2Z.id.
    rewrite groups_concat by done.
    split; [by apply groups_concat|].
    split; [by rewrite groups_length, ceilDiv_divUp|].
    split; [by rewrite pages_length, !groups_length, !ceilDiv_divUp|].
    split; [intros j row Hrow; by apply groups_spec|].
    intros j pg Hpg.
    assert (Hb : groups r (groups c xs) !! j = Some (pageContents pg)).
    { rewrite <- (pages_pageContents s pw ph (groups r (groups c xs))).
      change (map pageContents ?l) with (pageContents <$> l).
      by rewrite list_lookup_fmap, Hpg. }
    rewrite pages_length. by apply groups_spec.
  - intros A xs c r Hc Hr.
    exists (groups c xs), (groups r (groups c xs)).
    split; [rewrite chunks_groups by lia; by rewrite Nat2Z.id|].
    split; [rewrite chunks_groups by lia; by rewrite Nat2Z.id|].
    split; [by rewrite groups_length, ceilDiv_divUp|].
    split; [by rewrite !groups_length, !ceilDiv_divUp|].
    split; [by apply groups_concat|].
    split; [by apply groups_concat|].
    split; intros j g Hg; by apply groups_spec.
  - do 3 eexists. split; [vm_compute; reflexivity|].
    split; [reflexivity|]. split; [vm_compute; reflexivity|].
    split; [reflexivity|]. split; vm_compute; reflexivity.
Qed.

Lemma rows_and_pages_witness :
  ∃ ps, layout fourByTwo (exampleItems 10) = Return ps ∧
        length (concat (map pageContents ps)) = 3%nat ∧ length ps = 2%nat ∧
        concat (concat (map pageContents ps)) = map Item (exampleItems 10).
Proof.
  destruct (layout fourByTwo (exampleItems 10)) as [ps| |] eqn:H;
    [|vm_compute in H; discriminate..].
  destruct (proj1 rows_and_pages nat fourByTwo (exampleItems 10) 4%nat 2%nat ps
              (map Item (exampleItems 10)) (concat (map pageContents ps))
              eq_refl eq_refl ltac:(lia) ltac:(lia) eq_refl H eq_refl)
    as (Hcat & Hrows & Hpages & _).
  exists ps. split; [reflexivity|]. split; [exact Hrows|]. split; [exact Hpages|exact Hcat].
Defined.

(** ** What the layout reads of the settings *)

(** The pages depend on the settings only through the ten constants of
    lines 81-90. *)
Lemma layout_ext {A} (s s' : PrintSettings.t) (items : list A) :
  margin s = margin s' → printerMargin s = printerMargin s' → spacing s = spacing s' →
  paperColumns s = paperColumns s' → paperRows s = paperRows s' →
  skipItems s = skipItems s' → itemCopies s = itemCopies s' →
  paperSize s = paperSize s' → customPaperSize s = customPaperSize s' →
  borderShowMode s = borderShowMode s' →
  layout s items = layout s' items.
Proof.
  intros Hm Hp Hsp Hc Hr Hsk Hi Hps Hcp Hb.
  unfold layout, pages, page, cell, itemsIncludingSkipped, paperWidth, paperHeight,
    paperSide, itemWidth, itemHeight, itemsPerRow, rowsPerPage.
  by rewrite Hm, Hp, Hsp, Hc, Hr, Hsk, Hi, Hps, Hcp, Hb.
Qed.

Lemma chunks_nil {A} (n : Z) : n ≠ 0%Z → chunks (@nil A) n = Return [].
Proof.
  intros Hn. destruct (decide (1 ≤ n)%Z).
  - rewrite chunks_groups by done. unfold groups, divUp. simpl length.
    rewrite Nat.div_small by lia. done.
  - apply chunks_negative. lia.
Qed.

(** ** Zero and negative columns or rows *)

(** C2 (as the code has it).  [columns: 0] or [rows: 0] is no error: the
    zero gives way to the default (3 columns, 8 rows) and the layout is the
    one of the settings without that field.  Negative counts are no error
    either: the layout then throws only what it throws as well with
    [columns] and [rows] left out, it has no page when it completes, and it
    does complete, with no page, whenever the layout with [columns] and
    [rows] left out completes. *)
Theorem zero_falls_back {A} (s : PrintSettings.t) (items : list A) :
  (PrintSettings.columns s = Some 0%Z →
     paperColumns s = 3%Z ∧ layout s items = layout (PrintSettings.set_columns None s) items) ∧
  (PrintSettings.rows s = Some 0%Z →
     paperRows s = 8%Z ∧ layout s items = layout (PrintSettings.set_rows None s) items) ∧
  ((paperColumns s < 0 ∨ paperRows s < 0)%Z →
     (∀ e, layout s items = Throw e →
           layout (PrintSettings.set_columns None (PrintSettings.set_rows None s)) items
           = Throw e) ∧
     (∀ ps, layout s items = Return ps → ps = []) ∧
     (∀ ps, layout (PrintSettings.set_columns None (PrintSettings.set_rows None s)) items
            = Return ps →
            layout s items = Return [])).
Proof.
  split; [|split].
  - intros H0. assert (Hc : paperColumns s = 3%Z) by (unfold paperColumns; by rewrite H0).
    split; [done|]. by apply layout_ext.
  - intros H0. assert (Hr : paperRows s = 8%Z) by (unfold paperRows; by rewrite H0).
    split; [done|]. by apply layout_ext.
  - intros Hneg.
    set (s0 := PrintSettings.set_columns None (PrintSettings.set_rows None s)).
    assert (Hnone : ∀ xs : list (content A),
              (rs ← chunks xs (paperColumns s); chunks rs (paperRows s)) = Return []).
    { intros xs. destruct (decide (paperColumns s < 0)%Z) as [Hc|Hc].
      - rewrite chunks_negative by done. outcome_step.
        by rewrite chunks_nil by apply paperRows_nonzero.
      - destruct (chunks_Return xs (paperColumns s) (paperColumns_nonzero s)) as [rs ->].
        outcome_step. by rewrite chunks_negative by lia. }
    assert (Hsome : ∀ xs : list (content A),
              ∃ bs, (rs ← chunks xs (paperColumns s0); chunks rs (paperRows s0))
                    = Return bs).
    { intros xs.
      destruct (chunks_Return xs (paperColumns s0) (paperColumns_nonzero s0)) as [rs ->].
      outcome_step. apply chunks_Return, paperRows_nonzero. }
    assert (Hl : ∀ t : PrintSettings.t,
              layout t items
              = pw ← paperWidth t; ph ← paperHeight t;
                xs ← itemsIncludingSkipped t items;
                bs ← (rs ← chunks xs (paperColumns t); chunks rs (paperRows t));
                mret (pages t pw ph bs)).
    { intros t. unfold layout, itemsPerRow, rowsPerPage.
      destruct (paperWidth t); [|done..]. outcome_step.
      destruct (paperHeight t); [|done..]. outcome_step.
      destruct (itemsIncludingSkipped t items); [|done..]. outcome_step.
      by destruct (chunks _ (paperColumns t)). }
    rewrite !Hl.
    change (paperWidth s0) with (paperWidth s). change (paperHeight s0) with (paperHeight s).
    change (itemsIncludingSkipped s0 items) with (itemsIncludingSkipped s items).
    destruct (paperWidth s) as [pw|e1|]; outcome_step; [|by repeat split..].
    destruct (paperHeight s) as [ph|e1|]; outcome_step; [|by repeat split..].
    destruct (itemsIncludingSkipped s items) as [xs|e1|]; outcome_step; [|by repeat split..].
    rewrite Hnone. destruct (Hsome xs) as [bs ->]. outcome_step.
    split; [done|]. split; [by intros ps [= <-]|done].
Qed.

Lemma zero_falls_back_witness :
  (paperColumns zeroColumns = 3%Z ∧
   layout zeroColumns (exampleItems 4)
   = layout (PrintSettings.set_columns None zeroColumns) (exampleItems 4)) ∧
  (paperColumns negativeColumns < 0)%Z ∧
  layout negativeColumns (exampleItems 4) = Return [].
Proof.
  split; [|split].
  - apply (proj1 (zero_falls_back zeroColumns (exampleItems 4))). reflexivity.
  - reflexivity.
  - destruct (layout (PrintSettings.set_columns None
                        (PrintSettings.set_rows None negativeColumns)) (exampleItems 4))
      as [ps| |] eqn:H; [|vm_compute in H; discriminate..].
    apply (proj2 (proj2 (proj2 (proj2 (zero_falls_back negativeColumns (exampleItems 4)))
                          (or_introl eq_refl))) ps H).
Defined.

(** [columns: 0] with four items: one page of two rows, no error. *)
Lemma zero_columns_no_error :
  ∃ ps, layout zeroColumns (exampleItems 4) = Return ps ∧
        map (λ pg, map (map cellContent) (itemRows pg)) ps
        = [[[Item 1; Item 2; Item 3]; [Item 4]]]%nat.
Proof. eexists. split; vm_compute; reflexivity. Qed.

(** ** Cell dimensions *)

Lemma layout_cell {A} (s : PrintSettings.t) (items : list A) ps pageIdx rowIdx colIdx c :
  layout s items = Return ps → cellAt ps pageIdx rowIdx colIdx = Some c →
  ∃ pw ph item,
    paperWidth s = Return pw ∧ paperHeight s = Return ph ∧
    c = cell s pw ph rowIdx colIdx item.
Proof.
  intros H Hc.
  apply layout_Return_inv in H as (pw & ph & rs & bs & Hpw & Hph & _ & _ & _ & ->).
  apply cellAt_pages in Hc as (block & row & item & _ & _ & _ & ->).
  by exists pw, ph, item.
Qed.

Lemma layout_cells_dimensions {A} (s : PrintSettings.t) (items : list A) ps c :
  layout s items = Return ps → c ∈ cells ps →
  ∃ pw ph,
    paperWidth s = Return pw ∧ paperHeight s = Return ph ∧
    cellWidth c = itemWidth s pw ∧ cellHeight c = itemHeight s ph.
Proof.
  intros H Hc. apply cells_cellAt in Hc as (pageIdx & rowIdx & colIdx & Hc).
  destruct (layout_cell s items ps pageIdx rowIdx colIdx c H Hc)
    as (pw & ph & item & Hpw & Hph & ->).
  by exists pw, ph.
Qed.

(** C4 (with the example's value put right).  The width and the height of
    every emitted cell are
    [(paperWidth - margin.left - margin.right - spacing.horizontal) / columns - spacing.horizontal]
    and
    [(paperHeight - margin.top - margin.bottom - spacing.vertical) / rows - spacing.vertical],
    the spacing taken off before and after the division; for a paper width
    of 210, margins of 10, a horizontal spacing of 2 and 3 columns the
    width is [188 / 3 - 2 = 182 / 3], that is 60.666... *)
Theorem cell_dimension_formula :
  (∀ (A : Type) (s : PrintSettings.t) (items : list A) ps c w h,
     paperWidth s = Return (Num w) → paperHeight s = Return (Num h) →
     layout s items = Return ps → c ∈ cells ps →
     cellWidth c
     = Num ((w - Margin.left (margin s) - Margin.right (margin s)
               - Spacing.horizontal (spacing s)) / inject_Z (paperColumns s)
            - Spacing.horizontal (spacing s)) ∧
     cellHeight c
     = Num ((h - Margin.top (margin s) - Margin.bottom (margin s)
               - Spacing.vertical (spacing s)) / inject_Z (paperRows s)
            - Spacing.vertical (spacing s)))
  ∧
  (paperWidth spacedA4 = Return (Num 210) ∧
   ∃ q, itemWidth spacedA4 (Num 210) = Num q ∧ (q == 182 # 3)%Q).
Proof.
  split.
  - intros A s items ps c w h Hw Hh H Hc.
    destruct (layout_cells_dimensions s items ps c H Hc)
      as (pw & ph & Hpw & Hph & -> & ->).
    rewrite Hw in Hpw. rewrite Hh in Hph. injection Hpw as <-. injection Hph as <-.
    unfold itemWidth, itemHeight, ndiv, nsub.
    destruct (Z.eqb_spec (paperColumns s) 0) as [H0|_]; [by apply paperColumns_nonzero in H0|].
    destruct (Z.eqb_spec (paperRows s) 0) as [H0|_]; [by apply paperRows_nonzero in H0|].
    done.
  - split; [reflexivity|]. eexists. split; reflexivity.
Qed.

Lemma cell_dimension_formula_witness :
  ∃ ps c q, layout spacedA4 (exampleItems 1) = Return ps ∧ cellAt ps 0 0 0 = Some c ∧
            cellWidth c = Num q ∧ (q == 182 # 3)%Q.
Proof.
  eexists. eexists. eexists. split; [vm_compute; reflexivity|].
  split; [reflexivity|].
  split.
  - refine (proj1 (proj1 cell_dimension_formula nat spacedA4 (exampleItems 1) _ _
                     210%Q 297%Q _ _ _ _)).
    + reflexivity.
    + reflexivity.
    + vm_compute. reflexivity.
    + apply list_elem_of_here.
  - reflexivity.
Defined.

(** The example's width is [182 / 3], above 60, and not the [176 / 3]
    (58.666...) the specification gives. *)
Lemma spaced_width_value :
  ∃ q, itemWidth spacedA4 (Num 210) = Num q ∧ (q == 182 # 3)%Q ∧ (176 # 3 < q)%Q.
Proof. eexists. split; [reflexivity|]. split; reflexivity. Qed.

(** ** Edge padding *)

(** C6 (as the code has it).  A cell in column 0 has left padding
    [max(printerMargin.left - margin.left, 0)], a cell in column
    [columns - 1] the like right padding, a cell in row 0 of its page the
    like top padding, and a cell in row [rows - 1] of its page the like
    bottom padding; every other padding is 0.  The bottom padding goes by
    the position in the grid, so no cell of a page with fewer than [rows]
    rows has any.  Width and height are the nominal ones whatever the
    padding. *)
Theorem edge_padding {A} (s : PrintSettings.t) (items : list A) ps pageIdx rowIdx colIdx c :
  layout s items = Return ps →
  cellAt ps pageIdx rowIdx colIdx = Some c →
  paddingLeft c
  = (if decide (colIdx = 0%nat)
     then Qmax (Margin.left (printerMargin s) - Margin.left (margin s)) 0 else 0%Q) ∧
  paddingRight c
  = (if decide (Z.of_nat colIdx = paperColumns s - 1)%Z
     then Qmax (Margin.right (printerMargin s) - Margin.right (margin s)) 0 else 0%Q) ∧
  paddingTop c
  = (if decide (rowIdx = 0%nat)
     then Qmax (Margin.top (printerMargin s) - Margin.top (margin s)) 0 else 0%Q) ∧
  paddingBottom c
  = (if decide (Z.of_nat rowIdx = paperRows s - 1)%Z
     then Qmax (Margin.bottom (printerMargin s) - Margin.bottom (margin s)) 0 else 0%Q) ∧
  (∀ pg, ps !! pageIdx = Some pg →
         (Z.of_nat (length (itemRows pg)) < paperRows s)%Z → paddingBottom c = 0%Q) ∧
  (∃ pw ph, paperWidth s = Return pw ∧ paperHeight s = Return ph ∧
            cellWidth c = itemWidth s pw ∧ cellHeight c = itemHeight s ph).
Proof.
  intros H Hc.
  destruct (layout_cell s items ps pageIdx rowIdx colIdx c H Hc)
    as (pw & ph & item & Hpw & Hph & ->).
  cbn [paddingLeft paddingRight paddingTop paddingBottom cellWidth cellHeight cell].
  repeat split.
  - destruct (Z.eqb_spec (Z.of_nat colIdx) 0), (decide (colIdx = 0%nat)); done || lia.
  - by destruct (Z.eqb_spec (Z.of_nat colIdx) (paperColumns s - 1)), (decide _).
  - destruct (Z.eqb_spec (Z.of_nat rowIdx) 0), (decide (rowIdx = 0%nat)); done || lia.
  - by destruct (Z.eqb_spec (Z.of_nat rowIdx) (paperRows s - 1)), (decide _).
  - intros pg Hpg Hshort.
    assert (Hrow : (rowIdx < length (itemRows pg))%nat).
    { unfold cellAt in Hc. rewrite Hpg in Hc. simpl in Hc.
      destruct (itemRows pg !! rowIdx) as [row|] eqn:Hrow; [|done].
      by eapply lookup_lt_Some. }
    destruct (Z.eqb_spec (Z.of_nat rowIdx) (paperRows s - 1)); [lia|done].
  - by exists pw, ph.
Qed.

Lemma edge_padding_witness :
  ∃ ps c, layout noMargin (exampleItems 1) = Return ps ∧ cellAt ps 0 0 0 = Some c ∧
          (paddingLeft c == 5)%Q ∧ (paddingRight c == 0)%Q ∧
          (paddingTop c == 5)%Q ∧ (paddingBottom c == 0)%Q.
Proof.
  eexists. eexists. split; [vm_compute; reflexivity|]. split; [reflexivity|].
  edestruct (edge_padding noMargin (exampleItems 1) _ 0 0 0 _ ltac:(vm_compute; reflexivity)
               ltac:(reflexivity)) as (Hl & Hr & Ht & Hb & _).
  rewrite Hl, Hr, Ht, Hb. repeat split; reflexivity.
Defined.

(** One item on a page of 8 rows: the page's last (and only) row gets no
    bottom padding, though [max(printerMargin.bottom - margin.bottom, 0)]
    is 5. *)
Lemma short_page_no_bottom_padding :
  ∃ pg c, layout noMargin (exampleItems 1) = Return [pg] ∧ itemRows pg = [[c]] ∧
          paddingBottom c = 0%Q ∧
          (Qmax (Margin.bottom (printerMargin noMargin) - Margin.bottom (margin noMargin)) 0
           == 5)%Q.
Proof.
  do 2 eexists. split; [vm_compute; reflexivity|].
  split; [reflexivity|]. split; reflexivity.
Qed.

(** ** Paper size *)

Lemma ownProperty_None (table : list (string * PaperDimensions.t)) (key : string) :
  key ∉ map fst table → ownProperty table key = None.
Proof.
  induction table as [|[k d] table IH]; [done|].
  simpl. intros Hk. destruct (String.eqb_spec k key) as [->|_].
  - exfalso. apply Hk, list_elem_of_here.
  - apply IH. intros Hin. apply Hk. by apply list_elem_of_further.
Qed.

Lemma paperSize_Some (s : PrintSettings.t) (name : string) :
  PrintSettings.paperSize s = Some name → name ≠ "" → paperSize s = name.
Proof.
  intros Hs Hne. unfold paperSize. rewrite Hs.
  unfold logicalOr, toBoolean, string_toBoolean.
  by destruct (String.eqb_spec name "").
Qed.

(** C7 (as the code has it).  With [paperSize: "custom"] the paper
    dimensions are those of [customPaperSize]; with the name of a preset
    they are the preset's.  Any other name that is not empty (an empty name
    reads as missing, so as A4) and not the name of a member every object
    inherits makes the render throw, the [TypeError] of reading [width] of
    [undefined], and no page is produced.  The pages of a completed layout
    carry the resolved dimensions. *)
Theorem paper_size_resolution {A} (s : PrintSettings.t) (items : list A) :
  (PrintSettings.paperSize s = Some "custom" →
     paperWidth s = Return (Num (PaperDimensions.width (customPaperSize s))) ∧
     paperHeight s = Return (Num (PaperDimensions.height (customPaperSize s)))) ∧
  (∀ name d,
     (name, d) ∈ paperDimensions → PrintSettings.paperSize s = Some name →
     paperWidth s = Return (Num (PaperDimensions.width d)) ∧
     paperHeight s = Return (Num (PaperDimensions.height d))) ∧
  (∀ name,
     PrintSettings.paperSize s = Some name →
     name ≠ "" → name ≠ "custom" → name ∉ presets → name ∉ objectPrototype →
     layout s items = Throw TypeError) ∧
  (∀ ps pg,
     layout s items = Return ps → pg ∈ ps →
     paperWidth s = Return (pageWidth pg) ∧ paperHeight s = Return (pageHeight pg)).
Proof.
  split; [|split; [|split]].
  - intros Hs. unfold paperWidth, paperHeight, paperSide.
    by rewrite (paperSize_Some s "custom" Hs).
  - intros name d Hin Hs.
    assert (Hname : name ≠ "" ∧ name ≠ "custom" ∧ ownProperty paperDimensions name = Some d).
    { unfold paperDimensions in Hin.
      repeat (apply elem_of_cons in Hin as [[= -> ->]|Hin]; [done|]).
      by apply elem_of_nil in Hin. }
    destruct Hname as (Hne & Hcustom & Hown).
    unfold paperWidth, paperHeight, paperSide, paperDimensionsAt.
    rewrite (paperSize_Some s name Hs Hne), Hown.
    by destruct (String.eqb_spec name "custom").
  - intros name Hs Hne Hcustom Hpreset Hproto.
    unfold layout, paperWidth, paperSide, paperDimensionsAt.
    rewrite (paperSize_Some s name Hs Hne), (ownProperty_None _ _ Hpreset).
    destruct (String.eqb_spec name "custom"); [done|].
    by rewrite bool_decide_eq_false_2.
  - intros ps pg H Hpg.
    apply layout_Return_inv in H as (pw & ph & rs & bs & Hpw & Hph & _ & _ & _ & ->).
    unfold pages in Hpg. apply list_elem_of_In, in_map_iff in Hpg as (b & <- & _).
    done.
Qed.

Lemma paper_size_resolution_witness :
  layout (paperNamed "B5") (exampleItems 3) = Throw TypeError ∧
  paperWidth customPaper = Return (Num 100) ∧ paperHeight customPaper = Return (Num 150).
Proof.
  split.
  - apply (proj1 (proj2 (proj2 (paper_size_resolution (paperNamed "B5") (exampleItems 3))))
             "B5"); [reflexivity|done|done|..].
    + intros Hin. apply (bool_decide_pack _) in Hin. vm_compute in Hin. exact Hin.
    + intros Hin. apply (bool_decide_pack _) in Hin. vm_compute in Hin. exact Hin.
  - apply (proj1 (paper_size_resolution customPaper (exampleItems 3))). reflexivity.
Defined.

(** An empty name and an inherited name are neither ["custom"] nor a
    preset, and the layout completes for both: on A4 for the first, with
    sizes that are not numbers for the second. *)
Lemma unlisted_paper_names_complete :
  (∃ pg, layout (paperNamed "") (exampleItems 1) = Return [pg] ∧
         pageWidth pg = Num 210 ∧ pageHeight pg = Num 297) ∧
  (∃ pg, layout (paperNamed "constructor") (exampleItems 1) = Return [pg] ∧
         pageWidth pg = NaN ∧ pageHeight pg = NaN).
Proof.
  split; eexists; (split; [vm_compute; reflexivity|]); split; reflexivity.
Qed.

(** ** Settings objects *)

Lemma objectOr_spec {V} (member : option positive) (d : V)
    (objects objects' : gmap positive V) (r : positive) :
  objectOr member d objects = (objects', r) →
  (member = Some r ∧ objects' = objects) ∨
  (member = None ∧ objects !! r = None ∧ objects' = <[r := d]> objects).
Proof.
  unfold objectOr. destruct member as [r'|]; intros [= <- <-]; [by left|right].
  split; [done|]. split; [|done]. apply not_elem_of_dom, is_fresh.
Qed.

Lemma objectOr_frame {V} (member : option positive) (d : V)
    (objects objects' : gmap positive V) (r q : positive) (v : V) :
  objectOr member d objects = (objects', r) →
  objects !! q = Some v → objects' !! q = Some v.
Proof.
  intros [[_ ->]|(_ & Hr & ->)]%objectOr_spec Hq; [done|].
  rewrite lookup_insert_ne; [done|]. intros ->. by rewrite Hr in Hq.
Qed.

Lemma renderOnHeap_frame {A} (p : positive) (items : list A) (h h' : Heap) k out :
  renderOnHeap p items h = (h', k, out) →
  settingsObjects h' = settingsObjects h ∧
  (∀ r m, marginObjects h !! r = Some m → marginObjects h' !! r = Some m) ∧
  (∀ r sp, spacingObjects h !! r = Some sp → spacingObjects h' !! r = Some sp) ∧
  (∀ r d, paperObjects h !! r = Some d → paperObjects h' !! r = Some d).
Proof.
  unfold renderOnHeap.
  destruct (objectOr (SettingsObject.margin _) _ (marginObjects h)) as [ms rm] eqn:Hm.
  destruct (objectOr (SettingsObject.printerMargin _) _ ms) as [ms' rpm] eqn:Hpm.
  destruct (objectOr (SettingsObject.spacing _) _ (spacingObjects h)) as [ss rs] eqn:Hs.
  destruct (objectOr (SettingsObject.customPaperSize _) _ (paperObjects h)) as [cs rc] eqn:Hc.
  intros [= <- <- <-]. cbn [settingsObjects marginObjects spacingObjects paperObjects].
  split; [done|]. split; [|split].
  - intros r m Hr. eapply objectOr_frame; [exact Hpm|]. by eapply objectOr_frame.
  - intros r sp Hr. by eapply objectOr_frame.
  - intros r d Hr. by eapply objectOr_frame.
Qed.

Lemma valueOf_frame (h h' : Heap) (o : SettingsObject.t) :
  (∀ r m, marginObjects h !! r = Some m → marginObjects h' !! r = Some m) →
  (∀ r sp, spacingObjects h !! r = Some sp → spacingObjects h' !! r = Some sp) →
  (∀ r d, paperObjects h !! r = Some d → paperObjects h' !! r = Some d) →
  closedObject h o → valueOf h' o = valueOf h o.
Proof.
  intros Hm Hs Hc (Hom & Hopm & Hos & Hoc). unfold valueOf.
  assert (E1 : (r ← SettingsObject.margin o; marginObjects h' !! r)
               = (r ← SettingsObject.margin o; marginObjects h !! r)).
  { destruct (SettingsObject.margin o) as [r|]; [|done]. simpl.
    destruct (Hom r eq_refl) as [m Hr]. by rewrite Hr, (Hm r m Hr). }
  assert (E2 : (r ← SettingsObject.printerMargin o; marginObjects h' !! r)
               = (r ← SettingsObject.printerMargin o; marginObjects h !! r)).
  { destruct (SettingsObject.printerMargin o) as [r|]; [|done]. simpl.
    destruct (Hopm r eq_refl) as [m Hr]. by rewrite Hr, (Hm r m Hr). }
  assert (E3 : (r ← SettingsObject.spacing o; spacingObjects h' !! r)
               = (r ← SettingsObject.spacing o; spacingObjects h !! r)).
  { destruct (SettingsObject.spacing o) as [r|]; [|done]. simpl.
    destruct (Hos r eq_refl) as [m Hr]. by rewrite Hr, (Hs r m Hr). }
  assert (E4 : (r ← SettingsObject.customPaperSize o; paperObjects h' !! r)
               = (r ← SettingsObject.customPaperSize o; paperObjects h !! r)).
  { destruct (SettingsObject.customPaperSize o) as [r|]; [|done]. simpl.
    destruct (Hoc r eq_refl) as [m Hr]. by rewrite Hr, (Hc r m Hr). }
  by rewrite E1, E2, E3, E4.
Qed.

Lemma assignMember_spec (f : SettingsObject.t → SettingsObject.t) (p : positive)
    (h h' : Heap) (out : outcome positive) :
  assignMember f p h = (h', out) →
  marginObjects h' = marginObjects h ∧ spacingObjects h' = spacingObjects h ∧
  paperObjects h' = paperObjects h ∧
  ((settingsObjects h !! p = None ∧ out = Throw TypeError ∧
    settingsObjects h' = settingsObjects h) ∨
   (∃ o, settingsObjects h !! p = Some o ∧ out = Return p ∧
         settingsObjects h' = <[p := f o]> (settingsObjects h))).
Proof.
  unfold assignMember. destruct (settingsObjects h !! p) as [o|] eqn:Hp; intros [= <- <-].
  - repeat (split; [done|]). right. by exists o.
  - repeat (split; [done|]). by left.
Qed.

(** C8 (as the code has it).  A render writes to no object it was given:
    on the heap after it every settings object has the members it had, and
    every margin, spacing and paper dimension object that was there holds
    what it held (the render only adds the default objects of the missing
    members), so the settings object the render received reads as before
    in every field.  The handler of the [skipItems] slider (lines 264-267)
    does not make a new settings value: it writes [skipItems] into the
    very object the render read and passes that same reference to
    [setPrintSettings], and the callback of [QRCodePrintingDialog] (lines
    62-65) writes the reference it is given into the outer object and
    passes the outer reference on.  Neither creates an object nor changes
    another one; on the heap the slider handler leaves every nested object
    as it was, too. *)
Theorem settings_edited_in_place :
  (∀ (A : Type) (p : positive) (items : list A) (h h' : Heap) k out,
     renderOnHeap p items h = (h', k, out) →
     settingsObjects h' = settingsObjects h ∧
     (∀ r m, marginObjects h !! r = Some m → marginObjects h' !! r = Some m) ∧
     (∀ r sp, spacingObjects h !! r = Some sp → spacingObjects h' !! r = Some sp) ∧
     (∀ r d, paperObjects h !! r = Some d → paperObjects h' !! r = Some d) ∧
     (∀ q o, settingsObjects h !! q = Some o → closedObject h o →
             settingsObjects h' !! q = Some o ∧ valueOf h' o = valueOf h o)) ∧
  (∀ (v : Z) (p r : positive) (objects objects' : gmap positive PrintSettings.t),
     skipItemsOnChange v p objects = Return (objects', r) →
     r = p ∧ dom objects' = dom objects ∧
     (∀ q, q ≠ p → objects' !! q = objects !! q) ∧
     ∃ s, objects !! p = Some s ∧
          objects' !! p = Some (PrintSettings.set_skipItems (Some v) s)) ∧
  (∀ (p new r : positive) (objects objects' : gmap positive QRCodePrintSettings.t),
     qrSetPrintSettings p new objects = Return (objects', r) →
     r = p ∧ dom objects' = dom objects ∧
     (∀ q, q ≠ p → objects' !! q = objects !! q) ∧
     ∃ o, objects !! p = Some o ∧
          objects' !! p = Some (QRCodePrintSettings.set_printSettings new o)) ∧
  (∀ (v : Z) (p : positive) (k : Captured) (h h' : Heap) (out : outcome positive),
     handleOnHeap (SkipItemsSlider v) p k h = (h', out) →
     marginObjects h' = marginObjects h ∧ spacingObjects h' = spacingObjects h ∧
     paperObjects h' = paperObjects h ∧
     dom (settingsObjects h') = dom (settingsObjects h) ∧
     (∀ q, q ≠ p → settingsObjects h' !! q = settingsObjects h !! q) ∧
     (settingsObjects h !! p = None → out = Throw TypeError ∧ h' = h) ∧
     (∀ o, settingsObjects h !! p = Some o →
           out = Return p ∧
           settingsObjects h' !! p = Some (SettingsObject.set_skipItems (Some v) o))).
Proof.
  split; [|split; [|split]].
  - intros A p items h h' k out H.
    destruct (renderOnHeap_frame p items h h' k out H) as (Hs & Hm & Hsp & Hc).
    split; [done|]. split; [done|]. split; [done|]. split; [done|].
    intros q o Hq Ho. split; [by rewrite Hs|]. by apply valueOf_frame.
  - intros v p r objects objects'. unfold skipItemsOnChange.
    destruct (objects !! p) as [s|] eqn:Hp; [|done]. intros [= <- <-].
    split; [done|]. split; [by apply dom_insert_lookup_L|].
    split; [intros q Hq; by apply lookup_insert_ne|].
    exists s. split; [done|]. apply lookup_insert_eq.
  - intros p new r objects objects'. unfold qrSetPrintSettings.
    destruct (objects !! p) as [o|] eqn:Hp; [|done]. intros [= <- <-].
    split; [done|]. split; [by apply dom_insert_lookup_L|].
    split; [intros q Hq; by apply lookup_insert_ne|].
    exists o. split; [done|]. apply lookup_insert_eq.
  - intros v p k h h' out H. cbn [handleOnHeap] in H. unfold assignMember in H.
    destruct (settingsObjects h !! p) as [o|] eqn:Hp; injection H as <- <-;
      cbn [settingsObjects marginObjects spacingObjects paperObjects].
    + split_and!; try done.
      * by apply dom_insert_lookup_L.
      * intros q Hq. by apply lookup_insert_ne.
      * intros o' [= <-]. split; [done|]. apply lookup_insert_eq.
    + by split_and!.
Qed.

Lemma settings_edited_in_place_witness :
  (∃ h' k (out : outcome (list (Page nat))),
     renderOnHeap 1 (exampleItems 2) sharedMargin = (h', k, out) ∧
     settingsObjects h' = settingsObjects sharedMargin ∧
     marginObjects h' !! 1%positive = Some (Margin.mk 0 0 0 0) ∧
     valueOf h' (SettingsObject.set_margin (Some 1%positive) SettingsObject.empty)
     = valueOf sharedMargin
         (SettingsObject.set_margin (Some 1%positive) SettingsObject.empty)) ∧
  (∃ s, ({[1%positive := PrintSettings.empty]} : gmap positive PrintSettings.t) !! 1%positive
        = Some s ∧
        (<[1%positive := PrintSettings.set_skipItems (Some 5%Z) PrintSettings.empty]>
           ({[1%positive := PrintSettings.empty]} : gmap positive PrintSettings.t))
          !! 1%positive
        = Some (PrintSettings.set_skipItems (Some 5%Z) s)).
Proof.
  split.
  - destruct (renderOnHeap 1 (exampleItems 2) sharedMargin) as [[h' k] out] eqn:H.
    assert (Hm1 : marginObjects sharedMargin !! 1%positive = Some (Margin.mk 0 0 0 0))
      by apply lookup_singleton_eq.
    destruct (proj1 settings_edited_in_place nat 1%positive (exampleItems 2)
                sharedMargin h' k out H) as (Hs & Hm & _ & _ & Hv).
    exists h', k, out. split; [done|]. split; [exact Hs|]. split; [by apply Hm|].
    apply (Hv 1%positive).
    + apply lookup_insert_eq.
    + split_and!; intros r [= <-]. by rewrite Hm1.
  - refine (proj2 (proj2 (proj2 (proj1 (proj2 settings_edited_in_place) 5%Z 1%positive
                                   1%positive {[1%positive := PrintSettings.empty]} _ _)))).
    unfold skipItemsOnChange. rewrite lookup_singleton_eq. reflexivity.
Defined.

(** The settings object at reference 1 is read by a render with
    [skipItems] 0; after the slider is moved to 5 the object at that same
    reference holds 5, and reference 1 is what [setPrintSettings] gets. *)
Lemma slider_mutates_consumed_settings :
  ∃ objects' : gmap positive PrintSettings.t,
    skipItemsOnChange 5 1 {[1%positive := PrintSettings.empty]}
    = Return (objects', 1%positive) ∧
    skipItems (default PrintSettings.empty
                 (({[1%positive := PrintSettings.empty]} : gmap positive PrintSettings.t)
                    !! 1%positive)) = 0%Z ∧
    skipItems (default PrintSettings.empty (objects' !! 1%positive)) = 5%Z.
Proof.
  eexists. split; [|split].
  - unfold skipItemsOnChange. rewrite lookup_singleton_eq. reflexivity.
  - rewrite lookup_singleton_eq. reflexivity.
  - rewrite lookup_insert_eq. reflexivity.
Qed.

(** ** Defaults *)

Lemma filled_logicalOr {A} `{ToBoolean A} (d : A) (before after : option A) :
  filled d before after → logicalOr after d = logicalOr before d.
Proof.
  intros [->|[-> ->]]; [done|]. unfold logicalOr. by destruct (toBoolean d).
Qed.

(** C9.  A settings record with missing fields gives the layout of the
    record in which any of them holds its documented default: [paperSize]
    "A4", [customPaperSize] 210 x 297, [margin] 10 and [printerMargin] 5
    on each side, [spacing] 0, [columns] 3, [rows] 8, [skipItems] 0,
    [itemCopies] 1, [borderShowMode] "grid". *)
Theorem missing_fields_default {A} (s s' : PrintSettings.t) (items : list A) :
  defaultsFilled s s' → layout s' items = layout s items.
Proof.
  intros (Hm & Hp & Hsp & Hc & Hr & Hsk & Hi & Hps & Hcp & Hb).
  apply layout_ext; by apply filled_logicalOr.
Qed.

Lemma missing_fields_default_witness :
  layout (PrintSettings.mk (Some (Margin.mk 10 10 10 10)) None (Some (Spacing.mk 0 0))
            (Some 3%Z) (Some 5%Z) (Some 0%Z) (Some 1%Z) (Some "A4") None (Some "grid"))
         (exampleItems 7)
  = layout fiveRows (exampleItems 7).
Proof.
  apply missing_fields_default.
  unfold defaultsFilled, filled, fiveRows. simpl.
  split; [right; split; reflexivity|].
  split; [left; reflexivity|].
  split; [right; split; reflexivity|].
  split; [right; split; reflexivity|].
  split; [left; reflexivity|].
  split; [right; split; reflexivity|].
  split; [right; split; reflexivity|].
  split; [right; split; reflexivity|].
  split; [left; reflexivity|].
  right; split; reflexivity.
Defined.

(** ** Copies *)

Lemma expanded_elem {A} (skip copies : nat) (items : list A) (x : A) :
  (1 ≤ copies)%nat → x ∈ items → Item x ∈ expanded skip copies items.
Proof.
  intros Hc Hx. unfold expanded. apply elem_of_app. right.
  apply list_elem_of_In, in_concat. exists (replicate copies (Item x)). split.
  - apply in_map_iff. exists x. split; [done|]. by apply list_elem_of_In.
  - destruct copies as [|k]; [lia|]. by left.
Qed.

(** C10 (as the code has it).  [itemCopies: 0] gives the layout of
    [itemCopies: 1], every item in exactly one cell, and no missing, zero
    or positive [itemCopies] loses an item (a negative one is read as it
    is and gives no copy at all). *)
Theorem zero_copies_is_one :
  (∀ (A : Type) (s : PrintSettings.t) (items : list A),
     PrintSettings.itemCopies s = Some 0%Z →
     layout s items = layout (PrintSettings.set_itemCopies (Some 1%Z) s) items ∧
     ∀ ps, (1 ≤ paperColumns s)%Z → (1 ≤ paperRows s)%Z → layout s items = Return ps →
           map cellContent (cells ps)
           = replicate (Z.to_nat (skipItems s)) Empty ++ map Item items) ∧
  (∀ (A : Type) (s : PrintSettings.t) (items : list A) ps x,
     (∀ n, PrintSettings.itemCopies s = Some n → (0 ≤ n)%Z) →
     (1 ≤ paperColumns s)%Z → (1 ≤ paperRows s)%Z →
     layout s items = Return ps → x ∈ items →
     Item x ∈ map cellContent (cells ps)).
Proof.
  split.
  - intros A s items H0.
    assert (Hi : itemCopies s = 1%Z) by (unfold itemCopies; by rewrite H0).
    split; [by apply layout_ext|].
    intros ps Hc Hr H. rewrite (layout_contents s items ps H Hc Hr), Hi.
    unfold expanded. f_equal. change (Z.to_nat 1) with 1%nat.
    clear. induction items as [|x items IH]; [done|].
    simpl. f_equal. exact IH.
  - intros A s items ps x Hn Hc Hr H Hx.
    rewrite (layout_contents s items ps H Hc Hr). apply expanded_elem; [|done].
    assert (1 ≤ itemCopies s)%Z; [|lia].
    unfold itemCopies, logicalOr, toBoolean, Z_toBoolean.
    destruct (PrintSettings.itemCopies s) as [n|] eqn:Hi; [|lia].
    specialize (Hn n eq_refl). destruct (Z.eqb_spec n 0); simpl; lia.
Qed.

Lemma zero_copies_is_one_witness :
  layout zeroCopies (exampleItems 4)
  = layout (PrintSettings.set_itemCopies (Some 1%Z) zeroCopies) (exampleItems 4).
Proof.
  apply (proj1 (proj1 zero_copies_is_one nat zeroCopies (exampleItems 4) eq_refl)).
Defined.

(** [itemCopies: -1] with two items: no cell, no page, both items gone. *)
Lemma negative_copies_drop_items :
  layout negativeCopies (exampleItems 2) = Return [] ∧
  PrintSettings.itemCopies negativeCopies = Some (-1)%Z.
Proof. split; reflexivity. Qed.

(** * Further properties of the layout *)

(** ** Outcomes *)

Ltac outcome_cases :=
  split; intros;
  repeat match goal with
         | H : _ ∧ _ |- _ => destruct H
         | H : ∃ _, _ |- _ => destruct H
         end;
  try done; eauto; try (exfalso; lia).

Lemma paperSide_cases (s : PrintSettings.t) :
  (∃ pw ph, paperWidth s = Return pw ∧ paperHeight s = Return ph) ∨
  (paperWidth s = Throw TypeError ∧ paperHeight s = Throw TypeError).
Proof.
  unfold paperWidth, paperHeight, paperSide.
  destruct (String.eqb (paperSize s) "custom"); [left; eauto|].
  destruct (paperDimensionsAt (paperSize s)); [left; eauto|left; eauto|by right].
Qed.

(** X1.  A render never loops forever.  It throws a [TypeError] exactly
    when the paper size does not resolve.  When the paper size resolves and
    [skipItems] is not an array length (negative, or [2^32] and more), it
    throws a [RangeError], whatever the items.  A render that completes
    therefore had a paper size that resolves and a [skipItems] within
    [0, 2^32). *)
Theorem layout_outcome {A} (s : PrintSettings.t) (items : list A) :
  layout s items ≠ Diverge ∧
  (layout s items = Throw TypeError ↔ paperWidth s = Throw TypeError) ∧
  ((∃ pw, paperWidth s = Return pw) ∧ ¬ (0 ≤ skipItems s < 2 ^ 32)%Z →
     layout s items = Throw RangeError) ∧
  (∀ ps, layout s items = Return ps →
         (∃ pw ph, paperWidth s = Return pw ∧ paperHeight s = Return ph) ∧
         (0 ≤ skipItems s < 2 ^ 32)%Z).
Proof.
  split; [apply layout_terminates|].
  destruct (paperSide_cases s) as [(pw & ph & Hpw & Hph)|[Hpw Hph]].
  - destruct (decide (0 ≤ skipItems s < 2 ^ 32)%Z) as [Hs|Hs].
    + destruct (layout_completes s items pw ph Hpw Hph Hs) as [ps Hps].
      rewrite Hps, Hpw. split_and!; [done| |by eauto]. by intros [_ ?].
    + assert (Hl : layout s items = Throw RangeError).
      { unfold layout. rewrite Hpw, Hph. outcome_step.
        by rewrite itemsIncludingSkipped_Throw. }
      rewrite Hl, Hpw. by split_and!.
  - assert (Hl : layout s items = Throw TypeError).
    { unfold layout. by rewrite Hpw. }
    rewrite Hl, Hpw. split_and!; [done| |done]. by intros [[? ?] _].
Qed.

Lemma layout_outcome_witness :
  layout (PrintSettings.set_skipItems (Some (-1)%Z) PrintSettings.empty) (exampleItems 2)
  = Throw RangeError.
Proof.
  apply (proj1 (proj2 (proj2 (layout_outcome _ (exampleItems 2))))).
  split; [by eexists|]. vm_compute. intros [H _]. by apply H.
Defined.

(** ** How many pages *)

Lemma expanded_length {A} (skip copies : nat) (items : list A) :
  length (expanded skip copies items) = (skip + length items * copies)%nat.
Proof.
  unfold expanded. rewrite length_app, length_replicate. f_equal.
  induction items as [|x items IH]; [done|].
  simpl. by rewrite length_app, length_replicate, IH.
Qed.

(** X2.  With [c >= 1] columns and [r >= 1] rows, [S] skipped positions,
    [C >= 0] copies and [N] items, a completed layout has
    [ceil(ceil((S + N * C) / c) / r)] pages. *)
Theorem page_count {A} (s : PrintSettings.t) (items : list A) (c r skip copies : nat) ps :
  paperColumns s = Z.of_nat c → paperRows s = Z.of_nat r →
  skipItems s = Z.of_nat skip → itemCopies s = Z.of_nat copies →
  (1 ≤ c)%nat → (1 ≤ r)%nat →
  layout s items = Return ps →
  length ps = ceilDiv (ceilDiv (skip + length items * copies) c) r.
Proof.
  intros Hc Hr Hs Hi Hc1 Hr1 H.
  apply layout_positive in H as (pw & ph & _ & _ & _ & ->); [|lia..].
  rewrite pages_length. unfold blocksOf.
  rewrite Hc, Hr, Hs, Hi, !Nat2Z.id, !groups_length, expanded_length.
  by rewrite !ceilDiv_divUp.
Qed.

Lemma page_count_witness :
  ∃ ps, layout twoSkippedTwoCopies (exampleItems 30) = Return ps ∧ length ps = 3%nat.
Proof.
  eexists. split; [vm_compute; reflexivity|].
  rewrite (page_count twoSkippedTwoCopies (exampleItems 30) 3 8 2 2); try reflexivity; lia.
Defined.

(** X9.  With positive [columns] and [rows], a completed layout has no
    page at all exactly when there is nothing to lay out: nothing skipped,
    and no item or no copy of the items. *)
Theorem no_page_iff_nothing_to_print {A} (s : PrintSettings.t) (items : list A) ps :
  (1 ≤ paperColumns s)%Z → (1 ≤ paperRows s)%Z →
  layout s items = Return ps →
  ps = [] ↔ skipItems s = 0%Z ∧ (items = [] ∨ (itemCopies s ≤ 0)%Z).
Proof.
  intros Hc Hr H.
  apply layout_positive in H as (pw & ph & _ & _ & Hs & ->); [|lia..].
  set (c := Z.to_nat (paperColumns s)). set (r := Z.to_nat (paperRows s)).
  set (xs := expanded (Z.to_nat (skipItems s)) (Z.to_nat (itemCopies s)) items).
  assert (Hlen : length (pages s pw ph (blocksOf s xs)) = divUp (divUp (length xs) c) r).
  { rewrite pages_length. unfold blocksOf. by rewrite !groups_length. }
  assert (Hzero : ∀ a b, (1 ≤ b)%nat → divUp a b = 0%nat ↔ a = 0%nat).
  { intros a b Hb. pose proof (divUp_lt a b 0 Hb). pose proof (divUp_mul_ge a b Hb).
    split; intros; [nia|]. destruct (divUp a b); [done|lia]. }
  assert (Hxs : length xs = 0%nat ↔ skipItems s = 0%Z ∧ (items = [] ∨ (itemCopies s ≤ 0)%Z)).
  { unfold xs. rewrite expanded_length. split.
    - intros H0. split; [lia|]. destruct items as [|x items]; [by left|right].
      simpl in H0. lia.
    - intros [H0 [->|Hi]]; [simpl; lia|].
      replace (Z.to_nat (itemCopies s)) with 0%nat by lia. lia. }
  rewrite <- Hxs, <- (Hzero (length xs) c) by lia.
  rewrite <- (Hzero (divUp (length xs) c) r) by lia. rewrite <- Hlen.
  split; [by intros ->|]. by destruct (pages _ _ _ _).
Qed.

Lemma no_page_iff_nothing_to_print_witness :
  layout PrintSettings.empty (@nil nat) = Return [].
Proof.
  destruct (layout PrintSettings.empty (@nil nat)) as [ps| |] eqn:H; try (vm_compute in H; discriminate).
  f_equal.
  apply (no_page_iff_nothing_to_print PrintSettings.empty (@nil nat) ps); try done.
  split; [reflexivity|by left].
Defined.

(** ** Where an item lands *)

Lemma groups_lookup_None {A} (n : nat) (xs : list A) (j : nat) :
  (divUp (length xs) n ≤ j)%nat → groups n xs !! j = None.
Proof. intros Hj. apply lookup_ge_None_2. by rewrite groups_length. Qed.

Lemma groups_nested_lookup {A} (xs : list A) (c r p ri ci : nat) :
  (1 ≤ c)%nat → (1 ≤ r)%nat → (ri < r)%nat → (ci < c)%nat →
  (block ← groups r (groups c xs) !! p; row ← block !! ri; row !! ci)
  = xs !! ((p * r + ri) * c + ci)%nat.
Proof.
  intros Hc Hr Hri Hci.
  assert (Hout : ∀ j, ¬ (j < divUp (length xs) c)%nat → xs !! (j * c + ci)%nat = None).
  { intros j Hj. apply lookup_ge_None_2.
    assert (¬ (j * c < length xs)%nat) by (by rewrite <- divUp_lt). lia. }
  destruct (decide (p < divUp (length (groups c xs)) r)%nat) as [Hp|Hp].
  - rewrite groups_lookup by done. simpl.
    rewrite lookup_take_lt, lookup_drop by done.
    destruct (decide (p * r + ri < divUp (length xs) c)%nat) as [Hj|Hj].
    + rewrite groups_lookup by done. simpl.
      by rewrite lookup_take_lt, lookup_drop by done.
    + rewrite groups_lookup_None by lia. simpl. symmetry. by apply Hout.
  - rewrite groups_lookup_None by lia. simpl. symmetry. apply Hout.
    assert (¬ (p * r < length (groups c xs))%nat) by (by rewrite <- divUp_lt).
    rewrite groups_length in *. lia.
Qed.

Lemma cellAt_content {A} (s : PrintSettings.t) pw ph
    (blocks : list (list (list (content A)))) (p ri ci : nat) :
  cellContent <$> cellAt (pages s pw ph blocks) p ri ci
  = (block ← blocks !! p; row ← block !! ri; row !! ci).
Proof.
  unfold cellAt, pages.
  change (map (page s pw ph) blocks) with (page s pw ph <$> blocks).
  rewrite list_lookup_fmap.
  destruct (blocks !! p) as [block|]; [|done]. simpl.
  rewrite list_lookup_imap. destruct (block !! ri) as [row|]; [|done]. simpl.
  rewrite list_lookup_imap. by destruct (row !! ci).
Qed.

Lemma expanded_lookup_skip {A} (skip copies : nat) (items : list A) (i : nat) :
  (i < skip)%nat → expanded skip copies items !! i = Some Empty.
Proof.
  intros Hi. unfold expanded.
  rewrite lookup_app_l by (by rewrite length_replicate).
  by apply lookup_replicate_2.
Qed.

Lemma expanded_lookup_item {A} (skip copies : nat) (items : list A) (k j : nat) :
  (j < copies)%nat →
  expanded skip copies items !! (skip + k * copies + j)%nat = Item <$> items !! k.
Proof.
  intros Hj. unfold expanded.
  rewrite lookup_app_r by (rewrite length_replicate; lia).
  rewrite length_replicate.
  replace (skip + k * copies + j - skip)%nat with (k * copies + j)%nat by lia.
  revert k. induction items as [|x items IH]; intros k.
  - simpl. by rewrite !lookup_nil.
  - cbn [map concat]. destruct k as [|k].
    + rewrite lookup_app_l by (rewrite length_replicate; lia).
      simpl. by apply lookup_replicate_2.
    + rewrite lookup_app_r by (rewrite length_replicate; lia).
      rewrite length_replicate.
      replace (S k * copies + j - copies)%nat with (k * copies + j)%nat by lia.
      apply IH.
Qed.

Lemma layout_position {A} (s : PrintSettings.t) (items : list A) (c r i : nat) ps :
  paperColumns s = Z.of_nat c → paperRows s = Z.of_nat r →
  (1 ≤ c)%nat → (1 ≤ r)%nat →
  layout s items = Return ps →
  cellContent <$> cellAt ps (i / (c * r)) ((i / c) mod r) (i mod c)
  = expanded (Z.to_nat (skipItems s)) (Z.to_nat (itemCopies s)) items !! i.
Proof.
  intros Hc Hr Hc1 Hr1 H.
  apply layout_positive in H as (pw & ph & _ & _ & _ & ->); [|lia..].
  rewrite cellAt_content. unfold blocksOf. rewrite Hc, Hr, !Nat2Z.id.
  rewrite groups_nested_lookup; [|done|done|apply Nat.mod_upper_bound; lia..].
  f_equal. rewrite <- Nat.Div0.div_div.
  pose proof (Nat.div_mod_eq i c). pose proof (Nat.div_mod_eq (i / c) r). lia.
Qed.

(** X3.  With [c >= 1] columns, [r >= 1] rows, [S] skipped positions and
    [C] copies, count the positions of the sheets from 0, row after row and
    page after page, so that position [i] is column [i mod c] of row
    [(i / c) mod r] of page [i / (c * r)].  In a completed layout the first
    [S] positions are empty and copy [j < C] of the item of index [k] is at
    position [S + k * C + j]. *)
Theorem item_position {A} (s : PrintSettings.t) (items : list A) (c r skip copies : nat) ps :
  paperColumns s = Z.of_nat c → paperRows s = Z.of_nat r →
  skipItems s = Z.of_nat skip → itemCopies s = Z.of_nat copies →
  (1 ≤ c)%nat → (1 ≤ r)%nat →
  layout s items = Return ps →
  (∀ i, (i < skip)%nat →
        cellContent <$> cellAt ps (i / (c * r)) ((i / c) mod r) (i mod c) = Some Empty) ∧
  (∀ k j x, items !! k = Some x → (j < copies)%nat →
            cellContent <$> cellAt ps ((skip + k * copies + j) / (c * r))
                                      (((skip + k * copies + j) / c) mod r)
                                      ((skip + k * copies + j) mod c)
            = Some (Item x)).
Proof.
  intros Hc Hr Hs Hi Hc1 Hr1 H. split.
  - intros i Hlt. rewrite (layout_position s items c r i ps) by done.
    rewrite Hs, Nat2Z.id. by apply expanded_lookup_skip.
  - intros k j x Hk Hj.
    rewrite (layout_position s items c r _ ps) by done.
    rewrite Hs, Hi, !Nat2Z.id, expanded_lookup_item by done. by rewrite Hk.
Qed.

Lemma item_position_witness :
  ∃ ps, layout twoSkippedTwoCopies (exampleItems 30) = Return ps ∧
        cellContent <$> cellAt ps 1 0 1 = Some (Item 12%nat).
Proof.
  eexists. split; [vm_compute; reflexivity|].
  refine (proj2 (item_position twoSkippedTwoCopies (exampleItems 30) 3 8 2 2 _
                   eq_refl eq_refl eq_refl eq_refl _ _ _) 11%nat 1%nat 12%nat eq_refl _);
    [lia|lia|vm_compute; reflexivity|lia].
Defined.

(** ** Full and partial pages *)

Lemma blocks_rows {A} (c r : nat) (xs : list A) (p ri : nat) block row :
  (1 ≤ c)%nat → (1 ≤ r)%nat →
  groups r (groups c xs) !! p = Some block → block !! ri = Some row →
  (ri < r)%nat ∧ groups c xs !! (p * r + ri)%nat = Some row ∧
  ((S p < length (groups r (groups c xs)))%nat →
     length block = r ∧ (S (p * r + ri) < length (groups c xs))%nat).
Proof.
  intros Hc Hr Hb Hrow.
  assert (Hp : (p < divUp (length (groups c xs)) r)%nat).
  { rewrite <- groups_length. by eapply lookup_lt_Some. }
  pose proof (groups_bounds r (groups c xs) p block Hr Hb) as Hlen.
  pose proof (lookup_lt_Some _ _ _ Hrow) as Hri.
  rewrite groups_lookup in Hb by done. injection Hb as <-.
  rewrite lookup_take_lt, lookup_drop in Hrow by lia.
  split; [lia|]. split; [done|]. intros Hlast.
  rewrite groups_length in Hlast. apply divUp_lt in Hlast; [|done].
  rewrite length_take, length_drop in *. lia.
Qed.

(** X4.  No sheet is wasted and none is overfull: every page of a
    completed layout has between 1 and [rows] rows and every row between 1
    and [columns] cells; every page but the last has exactly [rows] rows of
    exactly [columns] cells. *)
Theorem pages_filled {A} (s : PrintSettings.t) (items : list A) ps (p : nat) pg :
  layout s items = Return ps →
  ps !! p = Some pg →
  (1 ≤ Z.of_nat (length (itemRows pg)) ≤ paperRows s)%Z ∧
  (∀ row, row ∈ itemRows pg → (1 ≤ Z.of_nat (length row) ≤ paperColumns s)%Z) ∧
  ((S p < length ps)%nat →
     Z.of_nat (length (itemRows pg)) = paperRows s ∧
     ∀ row, row ∈ itemRows pg → Z.of_nat (length row) = paperColumns s).
Proof.
  intros H Hpg.
  apply layout_Return_inv in H as (pw & ph & rs & bs & _ & _ & _ & Hrs & Hbs & ->).
  assert (Hc : (1 ≤ paperColumns s)%Z).
  { destruct (decide (1 ≤ paperColumns s)%Z) as [|Hn]; [done|exfalso].
    rewrite chunks_negative in Hrs by (pose proof (paperColumns_nonzero s); lia).
    injection Hrs as <-. rewrite chunks_nil in Hbs by apply paperRows_nonzero.
    by injection Hbs as <-. }
  assert (Hr : (1 ≤ paperRows s)%Z).
  { destruct (decide (1 ≤ paperRows s)%Z) as [|Hn]; [done|exfalso].
    rewrite chunks_negative in Hbs by (pose proof (paperRows_nonzero s); lia).
    by injection Hbs as <-. }
  rewrite chunks_groups in Hrs by done. injection Hrs as <-.
  rewrite chunks_groups in Hbs by done. injection Hbs as <-.
  set (c := Z.to_nat (paperColumns s)) in *. set (r := Z.to_nat (paperRows s)) in *.
  set (xs := expanded _ _ _) in *.
  rewrite pages_length. unfold pages in Hpg.
  change (map ?f ?l) with (f <$> l) in Hpg. rewrite list_lookup_fmap in Hpg.
  destruct (groups r (groups c xs) !! p) as [block|] eqn:Hb; [|done].
  injection Hpg as <-.
  assert (Hrows : length (itemRows (page s pw ph block)) = length block).
  { simpl. by rewrite length_imap. }
  assert (Hrow : ∀ row, row ∈ itemRows (page s pw ph block) →
            ∃ ri crow, block !! ri = Some crow ∧ length row = length crow).
  { intros row Hin. simpl in Hin. apply elem_of_lookup_imap in Hin as (ri & crow & -> & Hri).
    exists ri, crow. split; [done|]. by rewrite length_imap. }
  pose proof (groups_bounds r (groups c xs) p block ltac:(lia) Hb) as Hlen.
  split; [lia|]. split.
  - intros row (ri & crow & Hri & ->)%Hrow.
    destruct (blocks_rows c r xs p ri block crow) as (_ & Hg & _); [lia|lia|done|done|].
    pose proof (groups_bounds c xs _ crow ltac:(lia) Hg). lia.
  - intros Hlast. split.
    + pose proof (groups_full r (groups c xs) p block ltac:(lia) Hb Hlast). lia.
    + intros row (ri & crow & Hri & ->)%Hrow.
      destruct (blocks_rows c r xs p ri block crow) as (_ & Hg & Hfull); [lia|lia|done|done|].
      destruct (Hfull Hlast) as [_ Hnext].
      pose proof (groups_full c xs _ crow ltac:(lia) Hg Hnext). lia.
Qed.

Lemma pages_filled_witness :
  ∃ ps pg, layout threeByEight (exampleItems 25) = Return ps ∧ ps !! 0%nat = Some pg ∧
           Z.of_nat (length (itemRows pg)) = 8%Z ∧
           ∀ row, row ∈ itemRows pg → Z.of_nat (length row) = 3%Z.
Proof.
  eexists. eexists. split; [vm_compute; reflexivity|]. split; [reflexivity|].
  eapply (λ H1 H2 H3,
            proj2 (proj2 (pages_filled threeByEight (exampleItems 25) _ 0%nat _ H1 H2)) H3).
  - vm_compute. reflexivity.
  - reflexivity.
  - simpl. lia.
Defined.

(** ** Pages and their cells *)

Lemma pages_elem {A} (s : PrintSettings.t) pw ph
    (blocks : list (list (list (content A)))) pg :
  pg ∈ pages s pw ph blocks → ∃ block, pg = page s pw ph block.
Proof.
  unfold pages. intros (block & <- & _)%list_elem_of_In%in_map_iff. by exists block.
Qed.

Lemma cellAt_cells {A} (ps : list (Page A)) (pageIdx rowIdx colIdx : nat) c :
  cellAt ps pageIdx rowIdx colIdx = Some c → c ∈ cells ps.
Proof.
  unfold cellAt, cells. intros H.
  destruct (ps !! pageIdx) as [pg|] eqn:Hpg; [|done]. simpl in H.
  destruct (itemRows pg !! rowIdx) as [row|] eqn:Hrow; [|done]. simpl in H.
  apply list_elem_of_In, in_concat. exists row. split.
  - apply in_concat. exists (itemRows pg). split.
    + apply in_map, list_elem_of_In. by eapply list_elem_of_lookup_2.
    + apply list_elem_of_In. by eapply list_elem_of_lookup_2.
  - apply list_elem_of_In. by eapply list_elem_of_lookup_2.
Qed.

(** ** Padding *)

(** X6.  The extra padding of a cell is never negative, and when on every
    side the margin is at least the printer margin (as with the defaults,
    10 against 5) no cell has any. *)
Theorem padding_bounds {A} (s : PrintSettings.t) (items : list A) ps c :
  layout s items = Return ps → c ∈ cells ps →
  ((0 <= paddingLeft c)%Q ∧ (0 <= paddingRight c)%Q ∧
   (0 <= paddingTop c)%Q ∧ (0 <= paddingBottom c)%Q) ∧
  ((∀ sd, (sideOf sd (printerMargin s) <= sideOf sd (margin s))%Q) →
   (paddingLeft c == 0)%Q ∧ (paddingRight c == 0)%Q ∧
   (paddingTop c == 0)%Q ∧ (paddingBottom c == 0)%Q).
Proof.
  intros H Hc. apply cells_cellAt in Hc as (pageIdx & rowIdx & colIdx & Hc).
  destruct (layout_cell s items ps pageIdx rowIdx colIdx c H Hc)
    as (pw & ph & item & _ & _ & ->).
  cbn [paddingLeft paddingRight paddingTop paddingBottom cell].
  split.
  - repeat split; case_match; (apply Q.le_max_r || apply Qle_refl).
  - intros Hle.
    pose proof (Hle Top) as Ht. pose proof (Hle Bottom) as Hb.
    pose proof (Hle Left) as Hl. pose proof (Hle Right) as Hr. simpl in Ht, Hb, Hl, Hr.
    repeat split; case_match; try reflexivity; apply Q.max_r;
      match goal with
      | |- (?a - ?b <= 0)%Q => apply (Qplus_le_l _ _ b); ring_simplify; assumption
      end.
Qed.

Lemma padding_bounds_witness :
  ∃ ps c, layout PrintSettings.empty (exampleItems 1) = Return ps ∧
          cellAt ps 0 0 0 = Some c ∧ (paddingLeft c == 0)%Q ∧ (paddingTop c == 0)%Q.
Proof.
  destruct (layout PrintSettings.empty (exampleItems 1)) as [ps| |] eqn:H;
    [|vm_compute in H; discriminate..].
  assert (Hps : ∃ c, cellAt ps 0 0 0 = Some c).
  { vm_compute in H. injection H as <-. eexists. reflexivity. }
  destruct Hps as (c & Hc).
  destruct (padding_bounds PrintSettings.empty (exampleItems 1) ps c H
              (cellAt_cells ps 0 0 0 c Hc)) as [_ Hzero].
  destruct Hzero as (Hl & _ & Ht & _).
  - intros []; vm_compute; discriminate.
  - exists ps, c. split; [reflexivity|]. split; [exact Hc|]. split; [exact Hl|exact Ht].
Defined.

(** ** Settings that move nothing *)

Lemma layout_pageBlocksOf {A} (s : PrintSettings.t) (items : list A) :
  layout s items
  = '(pw, ph, pageBlocks) ← pageBlocksOf s items; mret (pages s pw ph pageBlocks).
Proof.
  unfold layout, pageBlocksOf.
  destruct (paperWidth s); [|done..]. outcome_step.
  destruct (paperHeight s); [|done..]. outcome_step.
  destruct (itemsIncludingSkipped s items); [|done..]. outcome_step.
  destruct (chunks _ (itemsPerRow s)); [|done..]. outcome_step.
  by destruct (chunks _ (rowsPerPage s)).
Qed.

Lemma rows_view_ext {A B} (f : Cell A → B) (s s' : PrintSettings.t) pw ph
    (block : list (list (content A))) :
  (∀ rowIdx colIdx item,
     f (cell s' pw ph rowIdx colIdx item) = f (cell s pw ph rowIdx colIdx item)) →
  map (map f) (itemRows (page s' pw ph block)) = map (map f) (itemRows (page s pw ph block)).
Proof.
  intros Hf. simpl.
  change (map (map f)) with (fmap (M:=list) (map f)). rewrite !fmap_imap.
  apply imap_ext. intros rowIdx row _. simpl.
  change (map f) with (fmap (M:=list) f). rewrite !fmap_imap.
  apply imap_ext. intros colIdx item _. apply Hf.
Qed.

(** X7.  [borderShowMode] moves nothing: whatever it is set to, the
    outcome of the layout is the same and so is every page apart from the
    borders and the border's 1px taken off the area margins (paper and
    area sizes, margins, and the content, size and padding of every cell).
    It only decides the borders: cells are outlined for ["grid"] alone, the
    page area for everything but ["none"]. *)
Theorem border_mode_keeps_geometry {A} (s : PrintSettings.t) (items : list A) :
  (∀ mode,
     map pageGeometry <$> layout (withBorderShowMode mode s) items
     = map pageGeometry <$> layout s items) ∧
  (∀ ps, layout s items = Return ps →
     (∀ c, c ∈ cells ps →
           cellBorder c
           = if String.eqb (borderShowMode s) "grid" then "1px solid #000" else "none") ∧
     (∀ pg, pg ∈ ps →
            areaBorder pg
            = if String.eqb (borderShowMode s) "none" then "none" else "1px solid #000")).
Proof.
  split.
  - intros mode. rewrite !layout_pageBlocksOf.
    change (pageBlocksOf (withBorderShowMode mode s) items) with (pageBlocksOf s items).
    destruct (pageBlocksOf s items) as [[[pw ph] blocks]| |]; [|done..].
    cbn [mbind outcome_bind mret outcome_ret fmap outcome_fmap]. f_equal.
    unfold pages. rewrite !map_map. apply map_ext. intros block.
    unfold pageGeometry. f_equal. by apply rows_view_ext.
  - intros ps H. split.
    + intros c Hc. apply cells_cellAt in Hc as (pageIdx & rowIdx & colIdx & Hc).
      by destruct (layout_cell s items ps pageIdx rowIdx colIdx c H Hc)
        as (pw & ph & item & _ & _ & ->).
    + intros pg Hpg.
      apply layout_Return_inv in H as (pw & ph & rs & bs & _ & _ & _ & _ & _ & ->).
      apply pages_elem in Hpg as [block ->]. simpl.
      by destruct (String.eqb (borderShowMode s) "none").
Qed.

Lemma border_mode_keeps_geometry_witness :
  ∃ ps c, layout (withBorderShowMode (Some "border") PrintSettings.empty) (exampleItems 1)
          = Return ps ∧ cellAt ps 0 0 0 = Some c ∧ cellBorder c = "none".
Proof.
  destruct (layout (withBorderShowMode (Some "border") PrintSettings.empty) (exampleItems 1))
    as [ps| |] eqn:H; [|vm_compute in H; discriminate..].
  assert (Hps : ∃ c, cellAt ps 0 0 0 = Some c).
  { vm_compute in H. injection H as <-. eexists. reflexivity. }
  destruct Hps as (c & Hc).
  exists ps, c. split; [reflexivity|]. split; [exact Hc|].
  apply (proj1 (proj2 (border_mode_keeps_geometry
                         (withBorderShowMode (Some "border") PrintSettings.empty)
                         (exampleItems 1)) ps H) c (cellAt_cells ps 0 0 0 c Hc)).
Defined.

(** X8.  [printerMargin] changes nothing but padding: whatever it is set
    to, the outcome of the layout is the same and so are the pages, their
    areas and borders, and the content, width, height and border of every
    cell. *)
Theorem printer_margin_keeps_cells {A} (s : PrintSettings.t) (items : list A) v :
  map pageBoxes <$> layout (withPrinterMargin v s) items
  = map pageBoxes <$> layout s items.
Proof.
  rewrite !layout_pageBlocksOf.
  change (pageBlocksOf (withPrinterMargin v s) items) with (pageBlocksOf s items).
  destruct (pageBlocksOf s items) as [[[pw ph] blocks]| |]; [|done..].
  cbn [mbind outcome_bind mret outcome_ret fmap outcome_fmap]. f_equal.
  unfold pages. rewrite !map_map. apply map_ext. intros block.
  unfold pageBoxes. f_equal. by apply rows_view_ext.
Qed.

(** * The handlers *)

(** A handler is a write into a nested object the render read, or none,
    and then the assignment on the settings object. *)
Lemma handleOnHeap_parts (e : edit) (p : positive) (k : Captured) (h : Heap) :
  ∃ f h1,
    handleOnHeap e p k h = assignMember f p h1 ∧
    settingsObjects h1 = settingsObjects h ∧
    dom (marginObjects h1) = dom (marginObjects h) ∧
    dom (spacingObjects h1) = dom (spacingObjects h) ∧
    dom (paperObjects h1) = dom (paperObjects h) ∧
    (∀ r, r ≠ marginRef k → r ≠ printerMarginRef k →
          marginObjects h1 !! r = marginObjects h !! r) ∧
    (∀ r, r ≠ spacingRef k → spacingObjects h1 !! r = spacingObjects h !! r) ∧
    (∀ r, r ≠ customPaperSizeRef k → paperObjects h1 !! r = paperObjects h !! r).
Proof.
  destruct e; eexists _, _; (split; [reflexivity|]);
    cbn [writeMargin writeSpacing writePaper settingsObjects marginObjects spacingObjects
           paperObjects];
    split_and!; try done; try apply dom_alter_L;
    intros; by rewrite lookup_alter_ne.
Qed.

(** X10.  Every handler of [PrintingDialog] edits in place.  It throws a
    [TypeError] exactly when the settings object is [undefined] and
    otherwise passes the reference of that object to [setPrintSettings].
    It creates no object, changes no other settings object, and among the
    nested objects changes at most those the render read as [margin],
    [printerMargin], [spacing] and [customPaperSize].  These are written
    in place as well: after a margin slider is moved, any other
    settings object that holds the same margin object reads the new
    value. *)
Theorem handlers_in_place (e : edit) (p : positive) (k : Captured) (h h' : Heap)
    (out : outcome positive) :
  handleOnHeap e p k h = (h', out) →
  (out = Throw TypeError ↔ settingsObjects h !! p = None) ∧
  (out = Return p ↔ is_Some (settingsObjects h !! p)) ∧
  dom (settingsObjects h') = dom (settingsObjects h) ∧
  dom (marginObjects h') = dom (marginObjects h) ∧
  dom (spacingObjects h') = dom (spacingObjects h) ∧
  dom (paperObjects h') = dom (paperObjects h) ∧
  (∀ q, q ≠ p → settingsObjects h' !! q = settingsObjects h !! q) ∧
  (∀ r, r ≠ marginRef k → r ≠ printerMarginRef k →
        marginObjects h' !! r = marginObjects h !! r) ∧
  (∀ r, r ≠ spacingRef k → spacingObjects h' !! r = spacingObjects h !! r) ∧
  (∀ r, r ≠ customPaperSizeRef k → paperObjects h' !! r = paperObjects h !! r) ∧
  (∀ sd v m q o,
     e = MarginSlider sd v → marginObjects h !! marginRef k = Some m →
     q ≠ p → settingsObjects h !! q = Some o →
     SettingsObject.margin o = Some (marginRef k) →
     settingsObjects h' !! q = Some o ∧
     PrintSettings.margin (valueOf h' o) = Some (setSide sd v m)).
Proof.
  intros H.
  assert (Halias : ∀ sd v m,
            e = MarginSlider sd v → marginObjects h !! marginRef k = Some m →
            marginObjects h' !! marginRef k = Some (setSide sd v m)).
  { intros sd v m -> Hk. cbn [handleOnHeap] in H.
    apply assignMember_spec in H as (-> & _). cbn [writeMargin marginObjects].
    by rewrite lookup_alter_eq, Hk. }
  destruct (handleOnHeap_parts e p k h)
    as (f & h1 & Hh & Hs1 & Hdm & Hds & Hdc & Hm & Hsp & Hc).
  rewrite Hh in H. apply assignMember_spec in H as (Hm' & Hsp' & Hc' & Hcase).
  rewrite Hs1 in Hcase. rewrite Hm', Hsp', Hc'. rewrite Hm' in Halias.
  assert (Hq : ∀ q, q ≠ p → settingsObjects h' !! q = settingsObjects h !! q).
  { intros q Hq. destruct Hcase as [(_ & _ & ->)|(o & _ & _ & ->)]; [done|].
    by rewrite lookup_insert_ne. }
  split; [|split; [|split; [|repeat (split; [done|])]]].
  - destruct Hcase as [(Hp & -> & _)|(o & Hp & -> & _)]; rewrite Hp; by split.
  - destruct Hcase as [(Hp & -> & _)|(o & Hp & -> & _)]; rewrite Hp; split; try done;
      by intros [? ?].
  - destruct Hcase as [(_ & _ & ->)|(o & Hp & _ & ->)]; [done|].
    by apply dom_insert_lookup_L.
  - intros sd v m q o He Hk Hqp Ho Hom. split; [by rewrite Hq|].
    unfold valueOf. cbn [PrintSettings.margin]. rewrite Hom. simpl.
    rewrite Hm'. by apply (Halias sd v m).
Qed.

Lemma renderOnHeap_inv {A} (p : positive) (items : list A) (h h' : Heap) k out :
  renderOnHeap p items h = (h', k, out) →
  ∃ ms,
    objectOr (SettingsObject.margin (default SettingsObject.empty (settingsObjects h !! p)))
             (Margin.mk 10 10 10 10) (marginObjects h) = (ms, marginRef k) ∧
    objectOr (SettingsObject.printerMargin
                (default SettingsObject.empty (settingsObjects h !! p)))
             (Margin.mk 5 5 5 5) ms = (marginObjects h', printerMarginRef k) ∧
    objectOr (SettingsObject.spacing (default SettingsObject.empty (settingsObjects h !! p)))
             (Spacing.mk 0 0) (spacingObjects h) = (spacingObjects h', spacingRef k) ∧
    objectOr (SettingsObject.customPaperSize
                (default SettingsObject.empty (settingsObjects h !! p)))
             (PaperDimensions.mk 210 297) (paperObjects h)
    = (paperObjects h', customPaperSizeRef k) ∧
    settingsObjects h' = settingsObjects h ∧
    out = layout (constantsOf h' (default SettingsObject.empty (settingsObjects h !! p)) k)
                 items.
Proof.
  unfold renderOnHeap.
  destruct (objectOr (SettingsObject.margin _) _ (marginObjects h)) as [ms rm] eqn:Hm.
  destruct (objectOr (SettingsObject.printerMargin _) _ ms) as [ms' rpm] eqn:Hpm.
  destruct (objectOr (SettingsObject.spacing _) _ (spacingObjects h)) as [ss rs] eqn:Hs.
  destruct (objectOr (SettingsObject.customPaperSize _) _ (paperObjects h)) as [cs rc] eqn:Hc.
  intros [= <- <- <-]. exists ms.
  cbn [settingsObjects marginObjects spacingObjects paperObjects
         marginRef printerMarginRef spacingRef customPaperSizeRef].
  by rewrite Hpm.
Qed.

Lemma handlers_in_place_witness :
  ∃ h1 k (out : outcome (list (Page nat))) h2 o,
    renderOnHeap 1 (exampleItems 2) sharedMargin = (h1, k, out) ∧
    handleOnHeap (MarginSlider Left 12) 1 k h1 = (h2, Return 1%positive) ∧
    settingsObjects h2 !! 2%positive = Some o ∧
    PrintSettings.margin (valueOf h2 o) = Some (Margin.mk 0 0 12 0).
Proof.
  destruct (renderOnHeap 1 (exampleItems 2) sharedMargin) as [[h1 k] out] eqn:Hr.
  destruct (handleOnHeap (MarginSlider Left 12) 1 k h1) as [h2 res] eqn:Hh.
  destruct (renderOnHeap_frame _ _ _ _ _ _ Hr) as (Hs & Hm & _).
  destruct (renderOnHeap_inv _ _ _ _ _ _ Hr) as (ms & Hk & _).
  assert (H1 : settingsObjects sharedMargin !! 1%positive
               = Some (SettingsObject.set_margin (Some 1%positive) SettingsObject.empty))
    by apply lookup_insert_eq.
  assert (H2 : settingsObjects sharedMargin !! 2%positive
               = Some (SettingsObject.set_margin (Some 1%positive) SettingsObject.empty)).
  { unfold sharedMargin. cbn [settingsObjects].
    rewrite lookup_insert_ne by done. apply lookup_singleton_eq. }
  rewrite H1 in Hk. apply objectOr_spec in Hk as [[[= Hk] _]|[[=] _]].
  destruct (handlers_in_place _ _ _ _ _ _ Hh) as (_ & Hres & _ & _ & _ & _ & _ & _ & _ & _ & Ha).
  destruct (Ha Left 12%Q (Margin.mk 0 0 0 0) 2%positive
              (SettingsObject.set_margin (Some 1%positive) SettingsObject.empty) eq_refl)
    as [Ho Hv].
  - apply Hm. rewrite <- Hk. apply lookup_singleton_eq.
  - done.
  - by rewrite Hs.
  - by rewrite <- Hk.
  - exists h1, k, out, h2, (SettingsObject.set_margin (Some 1%positive) SettingsObject.empty).
    split; [reflexivity|]. split; [|split; [exact Ho|exact Hv]].
    rewrite Hh. f_equal. apply Hres. rewrite Hs, H1. by eexists.
Defined.

(** ** The heap and the values *)

Lemma objectOr_lookup {V} `{ToBoolean V} (member : option positive) (d : V)
    (objects objects' : gmap positive V) (r : positive) :
  (∀ v : V, toBoolean v = true) →
  objectOr member d objects = (objects', r) →
  (∀ r', member = Some r' → is_Some (objects !! r')) →
  objects' !! r = Some (logicalOr (r' ← member; objects !! r') d).
Proof.
  intros Htrue [[-> ->]|(-> & Hr & ->)]%objectOr_spec Hclosed.
  - destruct (Hclosed r eq_refl) as [v Hv]. simpl. rewrite Hv.
    unfold logicalOr. by rewrite Htrue.
  - by rewrite lookup_insert_eq.
Qed.

Lemma renderOnHeap_constants {A} (p : positive) (items : list A) (h h' : Heap) k out o :
  renderOnHeap p items h = (h', k, out) →
  o = default SettingsObject.empty (settingsObjects h !! p) →
  closedObject h o →
  marginObjects h' !! marginRef k = Some (margin (valueOf h o)) ∧
  marginObjects h' !! printerMarginRef k = Some (printerMargin (valueOf h o)) ∧
  spacingObjects h' !! spacingRef k = Some (spacing (valueOf h o)) ∧
  paperObjects h' !! customPaperSizeRef k = Some (customPaperSize (valueOf h o)) ∧
  (∀ r, SettingsObject.printerMargin o = Some r → SettingsObject.margin o ≠ Some r →
        r ≠ marginRef k) ∧
  (∀ r, SettingsObject.margin o = Some r → SettingsObject.printerMargin o ≠ Some r →
        r ≠ printerMarginRef k).
Proof.
  intros H -> (Hom & Hopm & Hos & Hoc).
  apply renderOnHeap_inv in H as (ms & Hm & Hpm & Hs & Hc & _ & _).
  set (o := default SettingsObject.empty (settingsObjects h !! p)) in *.
  assert (Hms : ∀ r m, marginObjects h !! r = Some m → ms !! r = Some m).
  { intros r m. by eapply objectOr_frame. }
  split_and!.
  - pose proof (objectOr_lookup _ _ _ _ _ (λ _, eq_refl) Hm Hom) as Hr.
    eapply objectOr_frame; [exact Hpm|exact Hr].
  - assert (Hclosed : ∀ r', SettingsObject.printerMargin o = Some r' → is_Some (ms !! r')).
    { intros r' Hr'. destruct (Hopm r' Hr') as [m Hr]. exists m. by apply Hms. }
    pose proof (objectOr_lookup _ _ _ _ _ (λ _, eq_refl) Hpm Hclosed) as Hr.
    rewrite Hr. f_equal. unfold printerMargin, valueOf. cbn [PrintSettings.printerMargin].
    f_equal. destruct (SettingsObject.printerMargin o) as [r'|]; [|done]. simpl.
    destruct (Hopm r' eq_refl) as [m Hr']. by rewrite Hr', (Hms r' m Hr').
  - exact (objectOr_lookup _ _ _ _ _ (λ _, eq_refl) Hs Hos).
  - exact (objectOr_lookup _ _ _ _ _ (λ _, eq_refl) Hc Hoc).
  - intros r Hr Hne ->.
    apply objectOr_spec in Hm as [[Hm _]|(_ & Hnone & _)]; [done|].
    destruct (Hopm _ Hr) as [m Hsome]. by rewrite Hnone in Hsome.
  - intros r Hr Hne ->.
    apply objectOr_spec in Hpm as [[Hpm _]|(_ & Hnone & _)]; [done|].
    destruct (Hom _ Hr) as [m Hsome]. by rewrite (Hms _ _ Hsome) in Hnone.
Qed.

Lemma bind_lookup_alter_ne {V} (f : V → V) (member : option positive) (r : positive)
    (objects : gmap positive V) :
  (∀ r', member = Some r' → r' ≠ r) →
  (r' ← member; alter f r objects !! r') = (r' ← member; objects !! r').
Proof.
  intros Hne. destruct member as [r'|]; [|done]. simpl.
  apply lookup_alter_ne. intros ->. by apply (Hne r').
Qed.

(** X20.  The heap and the values agree.  For a settings object whose
    [margin] and [printerMargin] are not one and the same object, the pages
    of a render on the heap are the layout of the value of the settings
    object, and a handler of that render leaves at the same reference an
    object whose value is [applyEdit] of the value before. *)
Theorem heap_handlers_refine {A} (e : edit) (p : positive) (items : list A)
    (h h1 h2 : Heap) (k : Captured) (o : SettingsObject.t)
    (out : outcome (list (Page A))) (res : outcome positive) :
  settingsObjects h !! p = Some o → closedObject h o →
  (∀ r, SettingsObject.margin o = Some r → SettingsObject.printerMargin o ≠ Some r) →
  renderOnHeap p items h = (h1, k, out) →
  handleOnHeap e p k h1 = (h2, res) →
  out = layout (valueOf h o) items ∧
  res = Return p ∧
  ∃ o', settingsObjects h2 !! p = Some o' ∧ valueOf h2 o' = applyEdit e (valueOf h o).
Proof.
  intros Hp Hclosed Hdist Hr Hh.
  destruct (renderOnHeap_frame _ _ _ _ _ _ Hr) as (Hs & Hfm & Hfs & Hfc).
  pose proof (valueOf_frame h h1 o Hfm Hfs Hfc Hclosed) as Hv.
  assert (Ho : o = default SettingsObject.empty (settingsObjects h !! p)) by (by rewrite Hp).
  destruct (renderOnHeap_constants _ _ _ _ _ _ _ Hr Ho Hclosed)
    as (K1 & K2 & K3 & K4 & D1 & D2).
  rewrite <- Hv in K1, K2, K3, K4.
  assert (Hp1 : settingsObjects h1 !! p = Some o) by (by rewrite Hs).
  split.
  - apply renderOnHeap_inv in Hr as (_ & _ & _ & _ & _ & _ & ->). rewrite <- Ho, <- Hv.
    apply layout_ext; try reflexivity.
    + unfold margin at 1, constantsOf. cbn [PrintSettings.margin]. by rewrite K1.
    + unfold printerMargin at 1, constantsOf. cbn [PrintSettings.printerMargin]. by rewrite K2.
    + unfold spacing at 1, constantsOf. cbn [PrintSettings.spacing]. by rewrite K3.
    + unfold customPaperSize at 1, constantsOf. cbn [PrintSettings.customPaperSize].
      by rewrite K4.
  - rewrite <- Hv.
    assert (E1 : ∀ f, (r ← SettingsObject.printerMargin o;
                        alter f (marginRef k) (marginObjects h1) !! r)
                      = (r ← SettingsObject.printerMargin o; marginObjects h1 !! r)).
    { intros f. apply bind_lookup_alter_ne. intros r Hr' . apply D1; [done|].
      intros Hm. by apply (Hdist r). }
    assert (E2 : ∀ f, (r ← SettingsObject.margin o;
                        alter f (printerMarginRef k) (marginObjects h1) !! r)
                      = (r ← SettingsObject.margin o; marginObjects h1 !! r)).
    { intros f. apply bind_lookup_alter_ne. intros r Hr'. apply D2; [done|].
      by apply Hdist. }
    destruct e; cbn [handleOnHeap] in Hh; unfold assignMember in Hh;
      cbn [writeMargin writeSpacing writePaper settingsObjects marginObjects spacingObjects
             paperObjects] in Hh;
      rewrite Hp1 in Hh; injection Hh as <- <-;
      (split; [reflexivity|]); eexists; (split; [apply lookup_insert_eq|]);
      unfold valueOf;
      cbn [settingsObjects marginObjects spacingObjects paperObjects applyEdit
             SettingsObject.margin SettingsObject.printerMargin SettingsObject.spacing
             SettingsObject.columns SettingsObject.rows SettingsObject.skipItems
             SettingsObject.itemCopies SettingsObject.paperSize
             SettingsObject.customPaperSize SettingsObject.borderShowMode
             SettingsObject.set_margin SettingsObject.set_printerMargin
             SettingsObject.set_spacing SettingsObject.set_columns SettingsObject.set_rows
             SettingsObject.set_skipItems SettingsObject.set_itemCopies
             SettingsObject.set_paperSize SettingsObject.set_customPaperSize
             SettingsObject.set_borderShowMode mbind option_bind];
      try reflexivity.
    all: rewrite ?E1, ?E2, ?lookup_alter_eq, ?K1, ?K2, ?K3, ?K4; reflexivity.
Qed.

Lemma heap_handlers_refine_witness :
  ∃ h1 k h2 o',
    renderOnHeap 1 (exampleItems 2) sharedMargin
    = (h1, k, layout noMargin (exampleItems 2)) ∧
    handleOnHeap (MarginSlider Left 12) 1 k h1 = (h2, Return 1%positive) ∧
    settingsObjects h2 !! 1%positive = Some o' ∧
    valueOf h2 o' = applyEdit (MarginSlider Left 12) noMargin.
Proof.
  destruct (renderOnHeap 1 (exampleItems 2) sharedMargin) as [[h1 k] out] eqn:Hr.
  destruct (handleOnHeap (MarginSlider Left 12) 1 k h1) as [h2 res] eqn:Hh.
  assert (Hm : marginObjects sharedMargin !! 1%positive = Some (Margin.mk 0 0 0 0))
    by apply lookup_singleton_eq.
  assert (Hv : valueOf sharedMargin
                 (SettingsObject.set_margin (Some 1%positive) SettingsObject.empty)
               = noMargin).
  { unfold valueOf.
    cbn [SettingsObject.set_margin SettingsObject.empty SettingsObject.margin
           SettingsObject.printerMargin SettingsObject.spacing SettingsObject.customPaperSize
           mbind option_bind].
    by rewrite Hm. }
  destruct (heap_handlers_refine (MarginSlider Left 12) 1 (exampleItems 2)
              sharedMargin h1 h2 k
              (SettingsObject.set_margin (Some 1%positive) SettingsObject.empty) out res)
    as (Hout & Hres & o' & Ho' & Hv'); [| | |exact Hr|exact Hh|].
  - apply lookup_insert_eq.
  - split_and!; intros r [= <-]. by rewrite Hm.
  - by intros r _.
  - exists h1, k, h2, o'. rewrite Hv in Hout, Hv'. rewrite Hh, Hout, Hres. done.
Defined.

(** ** Edits and defaults *)

Lemma logicalOr_truthy {A} `{ToBoolean A} (a d : A) :
  toBoolean a = true → logicalOr (Some a) d = a.
Proof. intros Ha. unfold logicalOr. by rewrite Ha. Qed.

(** X11.  An edit does not tell a missing field from one that holds its
    default: if [s'] is [s] with defaults put into missing fields, then
    after the same edit the two settings still give the same layout.  So
    writing one side of a missing margin keeps the other sides at the
    default the render showed, and the like for the spacing, the printer
    margin and the custom paper size. *)
Theorem edits_respect_defaults {A} (e : edit) (s s' : PrintSettings.t) (items : list A) :
  defaultsFilled s s' →
  layout (applyEdit e s') items = layout (applyEdit e s) items.
Proof.
  intros (Hm & Hp & Hsp & Hc & Hr & Hsk & Hi & Hps & Hcp & Hb).
  apply filled_logicalOr in Hm, Hp, Hsp, Hc, Hr, Hsk, Hi, Hps, Hcp, Hb.
  fold (margin s') (margin s) in Hm. fold (printerMargin s') (printerMargin s) in Hp.
  fold (spacing s') (spacing s) in Hsp. fold (customPaperSize s') (customPaperSize s) in Hcp.
  apply layout_ext; destruct e; try assumption; try reflexivity;
    unfold margin, printerMargin, spacing, customPaperSize; cbn [applyEdit
      withMargin withPrinterMargin withSpacing withCustomPaperSize
      PrintSettings.margin PrintSettings.printerMargin PrintSettings.spacing
      PrintSettings.customPaperSize];
    rewrite !logicalOr_truthy by done;
    fold (margin s') (margin s) (printerMargin s') (printerMargin s)
         (spacing s') (spacing s) (customPaperSize s') (customPaperSize s);
    congruence.
Qed.

Lemma edits_respect_defaults_witness :
  layout (applyEdit (MarginSlider Left 12)
            (withMargin (Some (Margin.mk 10 10 10 10)) PrintSettings.empty)) (exampleItems 4)
  = layout (applyEdit (MarginSlider Left 12) PrintSettings.empty) (exampleItems 4).
Proof.
  apply edits_respect_defaults.
  unfold defaultsFilled, filled. simpl.
  split; [right; split; reflexivity|]. repeat split; left; reflexivity.
Defined.

(** ** What the next render reads *)

Lemma logicalOr_Z_Some_or (n d : Z) :
  logicalOr (Some n) d = if decide (n = 0%Z) then d else n.
Proof.
  unfold logicalOr, toBoolean, Z_toBoolean.
  by destruct (Z.eqb_spec n 0), (decide (n = 0%Z)).
Qed.

Lemma logicalOr_string_Some_or (v d : string) :
  logicalOr (Some v) d = if decide (v = "") then d else v.
Proof.
  unfold logicalOr, toBoolean, string_toBoolean.
  by destruct (String.eqb_spec v ""), (decide (v = "")).
Qed.

(** X12.  The value a control reports is the value the next render uses,
    but for what [||] takes for missing: a 0 written to [itemCopies],
    [columns] or [rows] reads as 1, 3 or 8 and an empty paper size or
    border mode as "A4" or "grid", while a 0 written to a margin, a
    spacing or a custom paper dimension is kept.  An emptied number field
    writes 1 for the four counts ([skipItems] too, whose default is 0) and
    0 for the lengths. *)
Theorem edit_read_back (s : PrintSettings.t) :
  (∀ v, skipItems (applyEdit (SkipItemsSlider v) s) = v) ∧
  (∀ v, itemCopies (applyEdit (ItemCopiesSlider v) s) = if decide (v = 0%Z) then 1%Z else v) ∧
  (∀ v, paperColumns (applyEdit (ColumnsSlider v) s) = if decide (v = 0%Z) then 3%Z else v) ∧
  (∀ v, paperRows (applyEdit (RowsSlider v) s) = if decide (v = 0%Z) then 8%Z else v) ∧
  (skipItems (applyEdit (SkipItemsInput None) s) = 1%Z ∧
   itemCopies (applyEdit (ItemCopiesInput None) s) = 1%Z ∧
   paperColumns (applyEdit (ColumnsInput None) s) = 1%Z ∧
   paperRows (applyEdit (RowsInput None) s) = 1%Z) ∧
  (∀ v, paperSize (applyEdit (PaperSizeSelect v) s) = if decide (v = "") then "A4" else v) ∧
  (∀ v, borderShowMode (applyEdit (BorderShowModeRadio v) s)
        = if decide (v = "") then "grid" else v) ∧
  (∀ sd v, sideOf sd (margin (applyEdit (MarginSlider sd v) s)) = v ∧
           sideOf sd (margin (applyEdit (MarginInput sd None) s)) = 0%Q ∧
           sideOf sd (printerMargin (applyEdit (PrinterMarginSlider sd v) s)) = v ∧
           sideOf sd (printerMargin (applyEdit (PrinterMarginInput sd None) s)) = 0%Q) ∧
  (∀ ax v, axisOf ax (spacing (applyEdit (SpacingSlider ax v) s)) = v ∧
           axisOf ax (spacing (applyEdit (SpacingInput ax None) s)) = 0%Q) ∧
  (∀ v, PaperDimensions.width (customPaperSize (applyEdit (CustomWidthInput v) s))
        = nullish v 0%Q ∧
        PaperDimensions.height (customPaperSize (applyEdit (CustomHeightInput v) s))
        = nullish v 0%Q).
Proof.
  split_and!; try done.
  - intros v. change (logicalOr (Some v) 0%Z = v).
    rewrite logicalOr_Z_Some_or. by case_decide.
  - intros v. exact (logicalOr_Z_Some_or v 1).
  - intros v. exact (logicalOr_Z_Some_or v 3).
  - intros v. exact (logicalOr_Z_Some_or v 8).
  - intros v. exact (logicalOr_string_Some_or v "A4").
  - intros v. exact (logicalOr_string_Some_or v "grid").
  - intros sd v. by destruct sd.
  - intros ax v. by destruct ax.
Qed.

(** ** Edits that move no item *)

Lemma paperSide_same_outcome (s s' : PrintSettings.t) (side side' : PaperDimensions.t → Q) :
  paperSize s' = paperSize s →
  (λ _, ()) <$> paperSide s' side' = (λ _, ()) <$> paperSide s side.
Proof.
  intros Hps. unfold paperSide. rewrite Hps.
  destruct (String.eqb (paperSize s) "custom"); [done|].
  by destruct (paperDimensionsAt (paperSize s)).
Qed.

Lemma pageBlocksOf_blocks {A} (s s' : PrintSettings.t) (items : list A) :
  paperSize s' = paperSize s →
  paperColumns s' = paperColumns s → paperRows s' = paperRows s →
  skipItems s' = skipItems s → itemCopies s' = itemCopies s →
  snd <$> pageBlocksOf s' items = snd <$> pageBlocksOf s items.
Proof.
  intros Hps Hc Hr Hsk Hi. unfold pageBlocksOf, itemsPerRow, rowsPerPage.
  pose proof (paperSide_same_outcome s s' PaperDimensions.width PaperDimensions.width Hps) as Hw.
  pose proof (paperSide_same_outcome s s' PaperDimensions.height PaperDimensions.height Hps)
    as Hh.
  fold (paperWidth s') (paperWidth s) in Hw. fold (paperHeight s') (paperHeight s) in Hh.
  assert (Hx : itemsIncludingSkipped s' items = itemsIncludingSkipped s items).
  { unfold itemsIncludingSkipped. by rewrite Hsk, Hi. }
  rewrite Hx, Hc, Hr.
  destruct (paperWidth s'), (paperWidth s);
    cbn [fmap outcome_fmap] in Hw; simplify_eq; outcome_step; try done.
  destruct (paperHeight s'), (paperHeight s);
    cbn [fmap outcome_fmap] in Hh; simplify_eq; outcome_step; try done.
  destruct (itemsIncludingSkipped s items); [|done..]. outcome_step.
  destruct (chunks _ (paperColumns s)); [|done..]. outcome_step.
  by destruct (chunks _ (paperRows s)).
Qed.

Lemma layout_contents_blocks {A} (s : PrintSettings.t) (items : list A) :
  map pageContents <$> layout s items = snd <$> pageBlocksOf s items.
Proof.
  rewrite layout_pageBlocksOf.
  destruct (pageBlocksOf s items) as [[[pw ph] blocks]| |]; [|done..].
  cbn [mbind outcome_bind mret outcome_ret fmap outcome_fmap snd]. f_equal.
  unfold pages. rewrite map_map. rewrite <- (map_id blocks) at 2.
  apply map_ext. intros block. apply page_contents.
Qed.

(** ** No clamping *)

(** C3 (as the code has it).  Nothing is clamped and nothing is warned of.
    On a paper of finite size every emitted cell carries the value of the
    dimension formula as it is: where the formula is negative the cell has
    a negative width or height, not 0.  Margins and spacing have no say in
    whether the layout completes nor in what the cells hold: with any other
    margins and spacing the layout fails or completes alike, with the same
    content in the same cells. *)
Theorem dimensions_unclamped {A} (s : PrintSettings.t) (items : list A) :
  (∀ ps c w h,
     paperWidth s = Return (Num w) → paperHeight s = Return (Num h) →
     layout s items = Return ps → c ∈ cells ps →
     cellWidth c
     = Num ((w - Margin.left (margin s) - Margin.right (margin s)
               - Spacing.horizontal (spacing s)) / inject_Z (paperColumns s)
            - Spacing.horizontal (spacing s)) ∧
     cellHeight c
     = Num ((h - Margin.top (margin s) - Margin.bottom (margin s)
               - Spacing.vertical (spacing s)) / inject_Z (paperRows s)
            - Spacing.vertical (spacing s)) ∧
     (((w - Margin.left (margin s) - Margin.right (margin s)
          - Spacing.horizontal (spacing s)) / inject_Z (paperColumns s)
       - Spacing.horizontal (spacing s) < 0)%Q →
      ∃ q, cellWidth c = Num q ∧ (q < 0)%Q) ∧
     (((h - Margin.top (margin s) - Margin.bottom (margin s)
          - Spacing.vertical (spacing s)) / inject_Z (paperRows s)
       - Spacing.vertical (spacing s) < 0)%Q →
      ∃ q, cellHeight c = Num q ∧ (q < 0)%Q))
  ∧
  (∀ m sp,
     map pageContents <$> layout (withMargin m (withSpacing sp s)) items
     = map pageContents <$> layout s items).
Proof.
  split.
  - intros ps c w h Hw Hh H Hc.
    destruct (layout_cells_dimensions s items ps c H Hc)
      as (pw & ph & Hpw & Hph & Hcw & Hch).
    rewrite Hw in Hpw. rewrite Hh in Hph. injection Hpw as <-. injection Hph as <-.
    unfold itemWidth, itemHeight, ndiv, nsub in Hcw, Hch.
    destruct (Z.eqb_spec (paperColumns s) 0) as [H0|_]; [by apply paperColumns_nonzero in H0|].
    destruct (Z.eqb_spec (paperRows s) 0) as [H0|_]; [by apply paperRows_nonzero in H0|].
    split; [exact Hcw|]. split; [exact Hch|]. split; intros Hneg; eauto.
  - intros m sp. rewrite !layout_contents_blocks. by apply pageBlocksOf_blocks.
Qed.

Lemma dimensions_unclamped_witness :
  ∃ ps c q, layout narrowCells (exampleItems 1) = Return ps ∧ c ∈ cells ps ∧
            cellWidth c = Num q ∧ (q < 0)%Q.
Proof.
  destruct (layout narrowCells (exampleItems 1)) as [ps| |] eqn:H;
    [|vm_compute in H; discriminate..].
  assert (Hc : ∃ c, c ∈ cells ps).
  { vm_compute in H. injection H as <-. eexists. apply list_elem_of_here. }
  destruct Hc as [c Hc].
  destruct (proj1 (proj2 (proj2 (proj1 (dimensions_unclamped narrowCells (exampleItems 1))
                                   ps c 210%Q 297%Q eq_refl eq_refl H Hc))))
    as (q & Hq & Hneg); [vm_compute; reflexivity|].
  by exists ps, c, q.
Defined.

(** Margins of 50, spacing of 20 and 5 columns on A4: the cell is emitted
    with the width [(210 - 50 - 50 - 20) / 5 - 20 = -2]. *)
Lemma narrow_cells_negative_width :
  ∃ ps c q, layout narrowCells (exampleItems 1) = Return ps ∧
            cellAt ps 0 0 0 = Some c ∧ cellWidth c = Num q ∧ (q == -2)%Q ∧ (q < 0)%Q.
Proof.
  do 3 eexists. split; [vm_compute; reflexivity|].
  split; [reflexivity|]. split; [reflexivity|]. split; reflexivity.
Qed.

(** X13.  Moving a margin, a printer margin, a spacing, a custom paper
    dimension or the border mode moves no item: after such an edit the
    layout fails or completes as before, and when it completes every cell
    of every row of every page holds what it held. *)
Theorem edits_keep_pagination {A} (e : edit) (s : PrintSettings.t) (items : list A) :
  keepsPagination e = true →
  map pageContents <$> layout (applyEdit e s) items = map pageContents <$> layout s items.
Proof.
  intros He. rewrite !layout_contents_blocks.
  apply pageBlocksOf_blocks; by destruct e.
Qed.

Lemma edits_keep_pagination_witness :
  map pageContents <$> layout (applyEdit (SpacingSlider Horizontal 4) threeByEight)
                              (exampleItems 25)
  = map pageContents <$> layout threeByEight (exampleItems 25).
Proof. apply edits_keep_pagination. reflexivity. Defined.

(** * The code dialog *)

Lemma QRCodePrintingDialog_Some {L} (p : positive) (items : list (QRCodeData.t L))
    (qrObjects : gmap positive QRCodePrintSettings.t)
    (objects : gmap positive PrintSettings.t) q :
  qrObjects !! p = Some q →
  QRCodePrintingDialog p items qrObjects objects
  = (λ ps, (qrStyle (Some q), ps))
      <$> layout (default PrintSettings.empty (objects !! QRCodePrintSettings.printSettings q))
                 (elements (Some q) items).
Proof.
  intros Hq. unfold QRCodePrintingDialog, PrintingDialog. rewrite Hq. simpl.
  by destruct (layout _ _).
Qed.

(** X14.  The code dialog lays out one code per item and copy, in the
    order of the items: with [c >= 1] columns, [r >= 1] rows, [S] skipped
    positions and [C] copies, position [S + k * C + j] (counted from 0, row
    after row, page after page) holds for [j < C] the code of item [k]: its
    value and error level, the icon unless it is switched off, and as
    title the item's label, or its value when it has none, or nothing when
    the content is switched off. *)
Theorem qr_codes_laid_out {L} (p : positive) (items : list (QRCodeData.t L))
    (qrObjects : gmap positive QRCodePrintSettings.t)
    (objects : gmap positive PrintSettings.t) q s (c r skip copies : nat) style ps :
  qrObjects !! p = Some q →
  s = default PrintSettings.empty (objects !! QRCodePrintSettings.printSettings q) →
  paperColumns s = Z.of_nat c → paperRows s = Z.of_nat r →
  skipItems s = Z.of_nat skip → itemCopies s = Z.of_nat copies →
  (1 ≤ c)%nat → (1 ≤ r)%nat →
  QRCodePrintingDialog p items qrObjects objects = Return (style, ps) →
  ∀ k j item,
    items !! k = Some item → (j < copies)%nat →
    ∃ el,
      cellContent <$> cellAt ps ((skip + k * copies + j) / (c * r))
                                (((skip + k * copies + j) / c) mod r)
                                ((skip + k * copies + j) mod c)
      = Some (Item el) ∧
      qrValue el = QRCodeData.value item ∧
      qrErrorLevel el = QRCodeData.errorLevel item ∧
      qrIcon el = (if showSpoolmanIcon (Some q) then Some "/favicon.svg" else None) ∧
      qrTitle el = (if showContent (Some q)
                    then Some (match QRCodeData.label item with
                               | Some l => inl l
                               | None => inr (QRCodeData.value item)
                               end)
                    else None).
Proof.
  intros Hq -> Hc Hr Hs Hi Hc1 Hr1 H k j item Hk Hj.
  rewrite (QRCodePrintingDialog_Some p items qrObjects objects q Hq) in H.
  destruct (layout _ _) as [ps'| |] eqn:Hl; [|done..].
  cbn [fmap outcome_fmap] in H. injection H as <- <-.
  eexists. split.
  - rewrite (layout_position _ _ c r _ ps' Hc Hr Hc1 Hr1 Hl).
    rewrite Hs, Hi, !Nat2Z.id, expanded_lookup_item by done.
    unfold elements. change (map ?f ?l) with (f <$> l).
    rewrite list_lookup_fmap, Hk. reflexivity.
  - repeat split.
Qed.

Lemma qr_codes_laid_out_witness :
  ∃ style ps el,
    QRCodePrintingDialog 1 exampleCodes
      {[1%positive := QRCodePrintSettings.mk None None None 2]} ∅ = Return (style, ps) ∧
    cellContent <$> cellAt ps 0 0 1 = Some (Item el) ∧
    qrValue el = "web+spoolman:s-2" ∧ qrTitle el = Some (inl "PLA black").
Proof.
  destruct (QRCodePrintingDialog 1 exampleCodes
              {[1%positive := QRCodePrintSettings.mk None None None 2]} ∅)
    as [[style ps]| |] eqn:H;
    [|unfold QRCodePrintingDialog in H; rewrite lookup_singleton_eq in H;
      vm_compute in H; discriminate..].
  assert (Hs : PrintSettings.empty
               = default PrintSettings.empty
                   ((∅ : gmap positive PrintSettings.t) !! 2%positive))
    by (by rewrite lookup_empty).
  destruct (qr_codes_laid_out 1 exampleCodes _ ∅ (QRCodePrintSettings.mk None None None 2)
              PrintSettings.empty 3 8 0 1 style ps (lookup_singleton_eq _ _)
              Hs eq_refl eq_refl eq_refl eq_refl ltac:(lia) ltac:(lia) H
              1%nat 0%nat _ eq_refl ltac:(lia))
    as (el & Hel & Hv & _ & _ & Ht).
  exists style, ps, el. split; [reflexivity|]. split; [exact Hel|]. split; [exact Hv|exact Ht].
Defined.

(** X15.  The code dialog needs its own settings object and nothing more:
    with an [undefined] settings object it throws a [TypeError], although
    each of its own fields has a default; with a settings object whose
    inner layout settings are [undefined] it completes, on the defaults of
    the layout.  It never loops forever, and besides the missing object
    only an unresolved paper size makes it throw a [TypeError]. *)
Theorem qr_dialog_outcome {L} (p : positive) (items : list (QRCodeData.t L))
    (qrObjects : gmap positive QRCodePrintSettings.t)
    (objects : gmap positive PrintSettings.t) :
  QRCodePrintingDialog p items qrObjects objects ≠ Diverge ∧
  (QRCodePrintingDialog p items qrObjects objects = Throw TypeError ↔
     qrObjects !! p = None ∨
     ∃ q, qrObjects !! p = Some q ∧
          paperWidth (default PrintSettings.empty
                        (objects !! QRCodePrintSettings.printSettings q))
          = Throw TypeError) ∧
  (∀ q, qrObjects !! p = Some q →
        objects !! QRCodePrintSettings.printSettings q = None →
        ∃ ps, QRCodePrintingDialog p items qrObjects objects
              = Return (qrStyle (Some q), ps)).
Proof.
  destruct (qrObjects !! p) as [q|] eqn:Hq.
  - rewrite (QRCodePrintingDialog_Some p items qrObjects objects q Hq).
    set (s := default PrintSettings.empty (objects !! QRCodePrintSettings.printSettings q)).
    pose proof (layout_terminates s (elements (Some q) items)) as Hterm.
    split; [by destruct (layout s _)|]. split.
    + split.
      * intros H. right. exists q. split; [done|].
        destruct (paperSide_cases s) as [(pw & ph & Hpw & Hph)|[Hpw _]]; [|done].
        exfalso. destruct (decide (0 ≤ skipItems s < 2 ^ 32)%Z) as [Hs|Hs].
        -- destruct (layout_completes s (elements (Some q) items) pw ph Hpw Hph Hs)
             as [ps Hps]. by rewrite Hps in H.
        -- unfold layout in H. rewrite Hpw, Hph in H. outcome_step_in H.
           by rewrite itemsIncludingSkipped_Throw in H.
      * intros [|(q' & [= <-] & Hpw)]; [done|].
        fold s in Hpw. unfold layout. by rewrite Hpw.
    + intros q' [= <-] Hinner. unfold s. rewrite Hinner. simpl.
      destruct (layout_completes PrintSettings.empty (elements (Some q) items)
                  (Num 210) (Num 297) eq_refl eq_refl) as [ps Hps].
      { vm_compute. split; [discriminate|reflexivity]. }
      exists ps. by rewrite Hps.
  - assert (H : QRCodePrintingDialog p items qrObjects objects = Throw TypeError).
    { unfold QRCodePrintingDialog. by rewrite Hq. }
    rewrite H. split; [done|]. split; [split; [by left|done]|]. by intros q.
Qed.

Lemma qr_dialog_outcome_witness :
  ∃ ps, QRCodePrintingDialog 1 exampleCodes
          {[1%positive := QRCodePrintSettings.mk None None None 2]} ∅
        = Return (qrStyle (Some (QRCodePrintSettings.mk None None None 2)), ps).
Proof.
  apply (proj2 (proj2 (qr_dialog_outcome 1 exampleCodes
                         {[1%positive := QRCodePrintSettings.mk None None None 2]} ∅))).
  - apply lookup_singleton_eq.
  - apply lookup_empty.
Defined.

(** X16.  A layout handler run inside the code dialog edits the inner
    settings object in place and leaves the store of outer objects exactly
    as it was (the callback writes back the reference that is already
    there); the host gets the outer reference.  With [undefined] inner
    settings every such edit throws a [TypeError]. *)
Theorem layout_edit_in_code_dialog (e : edit) (p : positive)
    (qrObjects : gmap positive QRCodePrintSettings.t)
    (objects : gmap positive PrintSettings.t) q :
  qrObjects !! p = Some q →
  (∀ s, objects !! QRCodePrintSettings.printSettings q = Some s →
        handleInQRCodeDialog e p qrObjects objects
        = Return (qrObjects,
                  <[QRCodePrintSettings.printSettings q := applyEdit e s]> objects, p)) ∧
  (objects !! QRCodePrintSettings.printSettings q = None →
   handleInQRCodeDialog e p qrObjects objects = Throw TypeError).
Proof.
  intros Hq. unfold handleInQRCodeDialog, handle, qrSetPrintSettings. rewrite Hq. split.
  - intros s Hs. rewrite Hs. cbn [mbind outcome_bind mret outcome_ret].
    f_equal. f_equal. f_equal.
    apply insert_id. rewrite Hq. f_equal. by destruct q.
  - intros Hs. by rewrite Hs.
Qed.

Lemma layout_edit_in_code_dialog_witness :
  handleInQRCodeDialog (ColumnsSlider 4) 1
    {[1%positive := QRCodePrintSettings.mk None None None 2]}
    {[2%positive := PrintSettings.empty]}
  = Return ({[1%positive := QRCodePrintSettings.mk None None None 2]},
            <[2%positive := applyEdit (ColumnsSlider 4) PrintSettings.empty]>
              {[2%positive := PrintSettings.empty]},
            1%positive).
Proof.
  apply (proj1 (layout_edit_in_code_dialog (ColumnsSlider 4) 1
                  {[1%positive := QRCodePrintSettings.mk None None None 2]}
                  {[2%positive := PrintSettings.empty]}
                  (QRCodePrintSettings.mk None None None 2) (lookup_singleton_eq _ _))).
  apply lookup_singleton_eq.
Defined.

(** X17.  The handlers of the code dialog edit its settings object in
    place, and what they write is read back by the next render with one
    exception: a switch position is kept as it is, [false] included, but a
    text size of 0 reads as 5; an emptied text size field writes 5. *)
Theorem qr_handlers (e : qrEdit) (p : positive)
    (qrObjects : gmap positive QRCodePrintSettings.t) :
  (qrHandle e p qrObjects = Throw TypeError ↔ qrObjects !! p = None) ∧
  (∀ q, qrObjects !! p = Some q →
        qrHandle e p qrObjects = Return (<[p := applyQrEdit e q]> qrObjects, p) ∧
        QRCodePrintSettings.printSettings (applyQrEdit e q)
        = QRCodePrintSettings.printSettings q ∧
        match e with
        | ShowContentSwitch checked =>
            showContent (Some (applyQrEdit e q)) = checked
        | ShowSpoolmanIconSwitch checked =>
            showSpoolmanIcon (Some (applyQrEdit e q)) = checked
        | TextSizeSlider value =>
            textSize (Some (applyQrEdit e q)) = if Qeq_bool value 0 then 5%Q else value
        | TextSizeInput value =>
            textSize (Some (applyQrEdit e q))
            = if Qeq_bool (nullish value 5%Q) 0 then 5%Q else nullish value 5%Q
        end).
Proof.
  unfold qrHandle. destruct (qrObjects !! p) as [q|] eqn:Hq.
  - split; [by split|]. intros q' [= <-]. split; [done|]. split; [by destruct e|].
    destruct e as [checked|value|value|checked]; try done.
    + unfold textSize, logicalOr, toBoolean, Q_toBoolean. simpl.
      by destruct (Qeq_bool value 0).
    + unfold textSize, logicalOr, toBoolean, Q_toBoolean. simpl.
      by destruct (Qeq_bool (nullish value 5%Q) 0).
  - split; [by split|]. by intros q.
Qed.

Lemma qr_handlers_witness :
  showContent (Some (applyQrEdit (ShowContentSwitch false)
                       (QRCodePrintSettings.mk None None None 2))) = false.
Proof.
  apply (proj2 (proj2 (proj2 (qr_handlers (ShowContentSwitch false) 1
                                {[1%positive := QRCodePrintSettings.mk None None None 2]})
                         (QRCodePrintSettings.mk None None None 2)
                         (lookup_singleton_eq _ _)))).
Defined.

(** * Items are opaque *)

Lemma slice_map {A B} (f : A → B) (xs : list A) (from to : Z) :
  slice (map f xs) from to = map f (slice xs from to).
Proof. unfold slice. by rewrite length_map, skipn_map, firstn_map. Qed.

Lemma forPush_map {A B} (f : A → B) (fuel : nat) (cond : Z → bool) (body : Z → A) (i : Z) :
  forPush fuel cond (λ j, f (body j)) i = map f <$> forPush fuel cond body i.
Proof.
  revert i. induction fuel as [|fuel IH]; intros i; [done|].
  simpl. destruct (cond i); [|done]. rewrite IH.
  by destruct (forPush fuel cond body (i + 1)).
Qed.

Lemma forPush_ext {B} (fuel : nat) (cond : Z → bool) (body body' : Z → B) (i : Z) :
  (∀ j, body j = body' j) → forPush fuel cond body i = forPush fuel cond body' i.
Proof.
  intros Hb. revert i. induction fuel as [|fuel IH]; intros i; [done|].
  simpl. by rewrite Hb, IH.
Qed.

Lemma chunks_map {A B} (f : A → B) (xs : list A) (n : Z) :
  chunks (map f xs) n = map (map f) <$> chunks xs n.
Proof.
  unfold chunks. rewrite length_map, <- forPush_map.
  apply forPush_ext. intros i. apply slice_map.
Qed.

Lemma expanded_map {A B} (f : A → B) (skip copies : nat) (items : list A) :
  expanded skip copies (map f items) = map (mapContent f) (expanded skip copies items).
Proof.
  unfold expanded. rewrite map_app. f_equal.
  - change (map ?g ?l) with (g <$> l). by rewrite fmap_replicate.
  - rewrite concat_map, !map_map. f_equal. apply map_ext. intros item.
    change (map ?g ?l) with (g <$> l). by rewrite fmap_replicate.
Qed.

Lemma page_map {A B} (f : A → B) (s : PrintSettings.t) pw ph
    (block : list (list (content A))) :
  page s pw ph (map (map (mapContent f)) block) = mapPage f (page s pw ph block).
Proof.
  unfold page, mapPage. cbn [pageWidth pageHeight areaBorder areaHeight areaWidth
                              areaMargin areaMarginInset itemRows]. f_equal.
  change (map ?g ?l) with (g <$> l). rewrite imap_fmap, fmap_imap.
  apply imap_ext. intros rowIdx row _. simpl.
  change (map ?g ?l) with (g <$> l). rewrite imap_fmap, fmap_imap.
  by apply imap_ext.
Qed.

(** X18.  The layout never looks into an item: laying out the items [f x]
    gives, outcome for outcome and cell for cell, the layout of the items
    [x] with every item replaced by its image. *)
Theorem layout_natural {A B} (f : A → B) (s : PrintSettings.t) (items : list A) :
  layout s (map f items) = map (mapPage f) <$> layout s items.
Proof.
  unfold layout.
  destruct (paperWidth s) as [pw| |]; [|done..]. outcome_step.
  destruct (paperHeight s) as [ph| |]; [|done..]. outcome_step.
  destruct (decide (0 ≤ skipItems s < 2 ^ 32)%Z) as [Hs|Hs].
  - rewrite !itemsIncludingSkipped_Return by done. outcome_step.
    rewrite expanded_map, chunks_map.
    destruct (chunks (expanded _ _ items) (itemsPerRow s)) as [rs| |]; [|done..].
    cbn [fmap outcome_fmap mbind outcome_bind]. rewrite chunks_map.
    destruct (chunks rs (rowsPerPage s)) as [bs| |]; [|done..].
    cbn [fmap outcome_fmap mbind outcome_bind mret outcome_ret]. f_equal.
    unfold pages. rewrite !map_map. apply map_ext. intros block. apply page_map.
  - by rewrite !itemsIncludingSkipped_Throw.
Qed.

(** * The paper sizes on offer *)

(** X19.  Whatever option of the paper size select is chosen, the next
    render does not throw a [TypeError]: a preset resolves to its own
    dimensions, which are positive and upright (the width is less than
    the height), and ["custom"] to the custom paper size. *)
Theorem offered_paper_sizes_resolve (s : PrintSettings.t) (name : string) :
  name ∈ paperSizeOptions →
  ∃ w h,
    paperWidth (applyEdit (PaperSizeSelect name) s) = Return (Num w) ∧
    paperHeight (applyEdit (PaperSizeSelect name) s) = Return (Num h) ∧
    (name ≠ "custom" → (0 < w)%Q ∧ (w < h)%Q) ∧
    (name = "custom" →
       w = PaperDimensions.width (customPaperSize s) ∧
       h = PaperDimensions.height (customPaperSize s)).
Proof.
  unfold paperSizeOptions, paperDimensions. simpl. intros Hin.
  repeat (apply elem_of_cons in Hin as [->|Hin];
          [do 2 eexists; split; [reflexivity|]; split; [reflexivity|];
           split; [by intros _|done]|]).
  apply elem_of_cons in Hin as [->|Hin]; [|by apply elem_of_nil in Hin].
  do 2 eexists. split; [reflexivity|]. split; [reflexivity|]. by split.
Qed.

Lemma offered_paper_sizes_resolve_witness :
  ∃ w h, paperWidth (applyEdit (PaperSizeSelect "Legal") PrintSettings.empty) = Return (Num w) ∧
         paperHeight (applyEdit (PaperSizeSelect "Legal") PrintSettings.empty)
         = Return (Num h) ∧ (0 < w)%Q ∧ (w < h)%Q.
Proof.
  destruct (offered_paper_sizes_resolve PrintSettings.empty "Legal")
    as (w & h & Hw & Hh & Hpos & _).
  - unfold paperSizeOptions. simpl. do 4 apply list_elem_of_further. apply list_elem_of_here.
  - exists w, h. split; [exact Hw|]. split; [exact Hh|]. by apply Hpos.
Defined.
